(** * Resilience layer of the Mini RAG end-to-end test harness

    A shallow embedding of the page objects, pollers and journeys of the
    Playwright suite (DashboardPage, ChatComponent, the global setup and the
    user-journey scenarios) together with the properties stated about them.

    Conventions of the embedding.
    - A JavaScript number that holds a count is a [jsnum]: an integer or NaN.
      Magnitudes above 2^53, where the engine rounds, are not distinguished.
    - A JavaScript string is a [string]; each character stands for one code
      unit below 256.
    - An [async] method is a computation in the monad [M]: it threads the
      browser session, may return, or may reject with an error message.
    - Console output is not part of the model. *)

From Stdlib Require Import ZArith QArith Qminmax Lqa List String Ascii Bool Lia.
From Stdlib Require Import DecimalString.
Import ListNotations.

Local Open Scope string_scope.
Local Open Scope Z_scope.

(** ** JavaScript values used by the suite *)

Module JS.

Inductive jsnum : Type :=
| Num (z : Z)
| NaN.

(** [a === b] on numbers: NaN is different from everything, itself included. *)
Definition strict_eq (a b : jsnum) : bool :=
  match a, b with
  | Num x, Num y => x =? y
  | _, _ => false
  end.

(** ToBoolean on numbers: 0 and NaN are falsy. *)
Definition truthy (n : jsnum) : bool :=
  match n with
  | Num z => negb (z =? 0)
  | NaN => false
  end.

(** [a || b] *)
Definition or_else (a b : jsnum) : jsnum := if truthy a then a else b.

Definition string_of_Z (z : Z) : string := NilZero.string_of_int (Z.to_int z).

(** String(n), as used by template literals. *)
Definition string_of_num (n : jsnum) : string :=
  match n with
  | Num z => string_of_Z z
  | NaN => "NaN"
  end.

(** White space and line terminators skipped by parseInt (code units < 256). *)
Definition is_whitespace (c : ascii) : bool :=
  let n := nat_of_ascii c in
  (Nat.eqb n 9 || Nat.eqb n 10 || Nat.eqb n 11 || Nat.eqb n 12 || Nat.eqb n 13
   || Nat.eqb n 32 || Nat.eqb n 160)%bool.

Fixpoint trim_start (s : string) : string :=
  match s with
  | EmptyString => EmptyString
  | String c rest => if is_whitespace c then trim_start rest else s
  end.

Definition digit_value (c : ascii) : option Z :=
  let n := Z.of_nat (nat_of_ascii c) in
  if (48 <=? n) && (n <=? 57) then Some (n - 48)
  else if (97 <=? n) && (n <=? 122) then Some (n - 87)
  else if (65 <=? n) && (n <=? 90) then Some (n - 55)
  else None.

(** Longest prefix of digits of the radix; [acc] is [None] until a digit is seen. *)
Fixpoint parse_digits (radix : Z) (s : string) (acc : option Z) : option Z :=
  match s with
  | EmptyString => acc
  | String c rest =>
      match digit_value c with
      | Some d =>
          if d <? radix
          then parse_digits radix rest
                 (Some (radix * match acc with Some a => a | None => 0 end + d))
          else acc
      | None => acc
      end
  end.

Definition strip_sign (s : string) : Z * string :=
  match s with
  | String "-" rest => (-1, rest)
  | String "+" rest => (1, rest)
  | _ => (1, s)
  end.

Definition strip_hex_prefix (s : string) : Z * string :=
  match s with
  | String "0" (String "x" rest) => (16, rest)
  | String "0" (String "X" rest) => (16, rest)
  | _ => (10, s)
  end.

(** parseInt(string) with no radix argument. *)
Definition parseInt_string (s : string) : jsnum :=
  let (sign, s1) := strip_sign (trim_start s) in
  let (radix, s2) := strip_hex_prefix s1 in
  match parse_digits radix s2 None with
  | Some z => Num (sign * z)
  | None => NaN
  end.

(** parseInt applied to the result of textContent(), which is a string or
    null; null is first converted to the string "null". *)
Definition parseInt (text : option string) : jsnum :=
  match text with
  | Some s => parseInt_string s
  | None => parseInt_string "null"
  end.

(** String.prototype.includes *)
Fixpoint includes (s sub : string) : bool :=
  if prefix sub s then true
  else match s with
       | EmptyString => false
       | String _ rest => includes rest sub
       end.

Definition lower (c : ascii) : ascii :=
  let n := nat_of_ascii c in
  if (Nat.leb 65 n && Nat.leb n 90)%bool then ascii_of_nat (n + 32) else c.

Fixpoint toLowerCase (s : string) : string :=
  match s with
  | EmptyString => EmptyString
  | String c rest => String (lower c) (toLowerCase rest)
  end.

(** String.prototype.trim: white space is removed at both ends. *)
Fixpoint trim_end (s : string) : string :=
  match s with
  | EmptyString => EmptyString
  | String c rest =>
      match trim_end rest with
      | EmptyString => if is_whitespace c then EmptyString else String c EmptyString
      | rest' => String c rest'
      end
  end.

Definition trim (s : string) : string := trim_end (trim_start s).

(** String.prototype.toLowerCase on code units below 256: the letters A-Z
    and the capital letters of Latin-1 (all of 192-222 but the sign at 215). *)
Definition lower_latin1 (c : ascii) : ascii :=
  let n := nat_of_ascii c in
  if (Nat.leb 65 n && Nat.leb n 90)%bool then ascii_of_nat (n + 32)
  else if (Nat.leb 192 n && Nat.leb n 222 && negb (Nat.eqb n 215))%bool
       then ascii_of_nat (n + 32)
       else c.

Fixpoint String_toLowerCase (s : string) : string :=
  match s with
  | EmptyString => EmptyString
  | String c rest => String (lower_latin1 c) (String_toLowerCase rest)
  end.

(** [s.lastIndexOf(c)] for a one-character search string: the index of the
    last occurrence, or -1. *)
Fixpoint lastIndexOf_from (s : string) (c : ascii) (i : Z) (found : Z) : Z :=
  match s with
  | EmptyString => found
  | String d rest =>
      lastIndexOf_from rest c (i + 1) (if Ascii.eqb d c then i else found)
  end.

Definition lastIndexOf (s : string) (c : ascii) : Z := lastIndexOf_from s c 0 (-1).

(** [s.substring(start)]: a negative start counts as 0, a start beyond the
    end gives the empty string. *)
Fixpoint drop (n : nat) (s : string) : string :=
  match n, s with
  | O, _ => s
  | S n', String _ rest => drop n' rest
  | S _, EmptyString => EmptyString
  end.

Definition substring_from (s : string) (start : Z) : string :=
  drop (Z.to_nat start) s.

End JS.

Import JS.

(** ** The browser-automation capability

    The suite drives the application through Playwright's [page] and
    [locator] objects.  Their answers are not computed by the suite; they are
    what the application shows at the time of the call.  The model takes them
    from a [world]: for each instant of a logical clock, a [snapshot] that
    answers every query.  Awaited actions (waiting, reloading, clicking,
    filling, selecting, navigating) advance the clock by one; queries do
    not.  Every awaited call may reject: a query, a navigation and a wait
    for an element with the message that the world gives; a click, a fill, a
    pause, a reload, a wait for a load state and a selection with a message
    that starts with the name of the call, as Playwright builds it
    (['locator.selectOption: ...'], ['page.waitForTimeout: ...']); the
    suite looks for these names in [error.message]. *)

Module Browser.

Inductive locator : Type :=
| Loc (selector : string)                    (* page.locator(selector) *)
| First (l : locator)                        (* l.first() *)
| Within (l : locator) (selector : string)   (* l.locator(selector) *)
| HasText (l : locator) (pattern : string).  (* l.filter({ hasText: pattern }) *)

Inductive answer (A : Type) : Type :=
| Got (a : A)
| Rejected (message : string).
Arguments Got {A} a.
Arguments Rejected {A} message.

(** The handler installed by DashboardPage.clearIndex:
    [async dialog => { console.log(...); await dialog.accept(); }] *)
Inductive dialog_handler : Type :=
| AcceptDialog.

(** The calls made on the page; a session keeps them in its trace, whether
    they resolved or rejected. *)
Inductive event : Type :=
| EvIsVisible (l : locator)
| EvTextContent (l : locator)
| EvCount (l : locator)
| EvIsEnabled (l : locator)
| EvInputValue (l : locator)
| EvClick (l : locator)
| EvFill (l : locator) (value : string)
| EvSelectOption (l : locator) (value : string)
| EvGoto (url : string)
| EvWaitForTimeout (ms : Q)
| EvReload
| EvWaitForLoadState (state : string)
| EvWaitFor (l : locator) (state : string)
| EvOnDialog (h : dialog_handler)
| EvDialogAccept (message : string).

Record snapshot : Type := {
  isVisible_at : locator -> answer bool;
  textContent_at : locator -> answer (option string);
  count_at : locator -> answer nat;
  isEnabled_at : locator -> answer bool;
  inputValue_at : locator -> answer string;
  (* the confirm() prompt, if any, that a click on the target raises *)
  dialog_on_click : locator -> option string;
  (* selectOption(value): [Some detail] when it rejects; the message of the
     error is 'locator.selectOption: ' followed by the detail *)
  selectOption_at : locator -> string -> option string;
  (* page.goto(url): the response (null, or its ok() flag) or a rejection *)
  goto_at : string -> answer (option bool);
  (* click, fill, waitForTimeout, reload, waitForLoadState: [Some detail]
     when the call rejects (no such element within the time allowed, the
     page or the browser closed); the message of the error is the name of
     the call, ': ' and the detail *)
  action_at : event -> option string
}.

Record session : Type := {
  world : nat -> snapshot;
  clock : nat;
  listeners : list dialog_handler;   (* page.on('dialog', ...) registrations *)
  trace : list event                 (* most recent event first *)
}.

Definition now (s : session) : snapshot := world s (clock s).

Definition log (e : event) (s : session) : session :=
  {| world := world s; clock := clock s; listeners := listeners s;
     trace := e :: trace s |}.

Definition tick (s : session) : session :=
  {| world := world s; clock := S (clock s); listeners := listeners s;
     trace := trace s |}.

Definition add_listener (h : dialog_handler) (s : session) : session :=
  {| world := world s; clock := clock s; listeners := listeners s ++ [h];
     trace := trace s |}.

(** Events in the order in which they happened. *)
Definition history (s : session) : list event := rev (trace s).

(** *** Outcome of an awaited computation *)

Inductive result (A : Type) : Type :=
| Ret (a : A)               (* the promise resolves *)
| Throw (message : string)  (* the promise rejects with an Error *)
| Unfinished.               (* the loop budget of the model ran out *)
Arguments Ret {A} a.
Arguments Throw {A} message.
Arguments Unfinished {A}.

Definition M (A : Type) : Type := session -> result A * session.

Definition ret {A} (a : A) : M A := fun s => (Ret a, s).

Definition throw {A} (message : string) : M A := fun s => (Throw message, s).

Definition unfinished {A} : M A := fun s => (Unfinished, s).

Definition bind {A B} (m : M A) (k : A -> M B) : M B :=
  fun s =>
    match m s with
    | (Ret a, s') => k a s'
    | (Throw e, s') => (Throw e, s')
    | (Unfinished, s') => (Unfinished, s')
    end.

(** [try { m } catch (error) { handler(error.message) }] *)
Definition try_catch {A} (m : M A) (handler : string -> M A) : M A :=
  fun s =>
    match m s with
    | (Throw e, s') => handler e s'
    | r => r
    end.

Definition ask {A} (e : event) (q : snapshot -> answer A) : M A :=
  fun s =>
    match q (now s) with
    | Got a => (Ret a, log e s)
    | Rejected m => (Throw m, log e s)
    end.

(** The name under which Playwright reports a call, and the message of the
    error of a call that rejects: ['page.waitForTimeout: Target page, context
    or browser has been closed']. *)
Definition api_name (e : event) : string :=
  match e with
  | EvIsVisible _ => "locator.isVisible"
  | EvTextContent _ => "locator.textContent"
  | EvCount _ => "locator.count"
  | EvIsEnabled _ => "locator.isEnabled"
  | EvInputValue _ => "locator.inputValue"
  | EvClick _ => "locator.click"
  | EvFill _ _ => "locator.fill"
  | EvSelectOption _ _ => "locator.selectOption"
  | EvGoto _ => "page.goto"
  | EvWaitForTimeout _ => "page.waitForTimeout"
  | EvReload => "page.reload"
  | EvWaitForLoadState _ => "page.waitForLoadState"
  | EvWaitFor _ _ => "locator.waitFor"
  | EvOnDialog _ => "page.on"
  | EvDialogAccept _ => "dialog.accept"
  end.

Definition act_error (e : event) (detail : string) : string :=
  api_name e ++ ": " ++ detail.

(** An awaited action: the call is made, time passes, and the call resolves
    or rejects as the page has it. *)
Definition act (e : event) : M unit :=
  fun s =>
    match action_at (now s) e with
    | None => (Ret tt, tick (log e s))
    | Some detail => (Throw (act_error e detail), tick (log e s))
    end.

End Browser.

Import Browser.

Declare Scope js_scope.
Delimit Scope js_scope with js.
Notation "x <- m ;; k" := (bind m (fun x => k))
  (at level 100, m at next level, right associativity) : js_scope.
Notation "' pat <- m ;; k" := (bind m (fun x => match x with pat => k end))
  (at level 100, pat pattern, m at next level, right associativity) : js_scope.
Notation "m ;; k" := (bind m (fun _ => k))
  (at level 100, right associativity) : js_scope.
Local Open Scope js_scope.

(** *** Page and locator methods *)

Module Page.

Definition isVisible (l : locator) : M bool :=
  ask (EvIsVisible l) (fun w => isVisible_at w l).

Definition textContent (l : locator) : M (option string) :=
  ask (EvTextContent l) (fun w => textContent_at w l).

Definition count (l : locator) : M nat :=
  ask (EvCount l) (fun w => count_at w l).

Definition isEnabled (l : locator) : M bool :=
  ask (EvIsEnabled l) (fun w => isEnabled_at w l).

Definition inputValue (l : locator) : M string :=
  ask (EvInputValue l) (fun w => inputValue_at w l).

Definition waitForTimeout (ms : Q) : M unit := act (EvWaitForTimeout ms).

Definition reload : M unit := act EvReload.

Definition waitForLoadState (state : string) : M unit :=
  act (EvWaitForLoadState state).

Definition fill (l : locator) (value : string) : M unit := act (EvFill l value).

(** page.on('dialog', handler): the handler is added after those already
    registered; nothing replaces or removes an earlier one. *)
Definition on_dialog (h : dialog_handler) : M unit :=
  fun s => (Ret tt, add_listener h (log (EvOnDialog h) s)).

Definition run_handler (message : string) (h : dialog_handler) (s : session)
  : session :=
  match h with
  | AcceptDialog => log (EvDialogAccept message) s
  end.

(** A prompt is delivered to every registered listener, in registration
    order; each listener runs once. *)
Definition raise_dialog (message : string) (s : session) : session :=
  fold_left (fun s' h => run_handler message h s') (listeners s) s.

(** locator.click(): a click that the page refuses (no such element within
    the time allowed, page closed) rejects and raises no prompt. *)
Definition click (l : locator) : M unit :=
  fun s =>
    let s1 := log (EvClick l) s in
    match action_at (now s) (EvClick l) with
    | Some detail => (Throw (act_error (EvClick l) detail), tick s1)
    | None =>
        let s2 := match dialog_on_click (now s) l with
                  | Some message => raise_dialog message s1
                  | None => s1
                  end in
        (Ret tt, tick s2)
    end.

Definition selectOption (l : locator) (value : string) : M unit :=
  fun s =>
    match selectOption_at (now s) l value with
    | None => (Ret tt, tick (log (EvSelectOption l value) s))
    | Some detail =>
        (Throw (act_error (EvSelectOption l value) detail),
         tick (log (EvSelectOption l value) s))
    end.

Definition goto (url : string) : M (option bool) :=
  fun s =>
    match goto_at (now s) url with
    | Got r => (Ret r, tick (log (EvGoto url) s))
    | Rejected m => (Throw m, tick (log (EvGoto url) s))
    end.

(** locator.waitFor({ state: 'visible' }): rejects when the target does not
    show up. *)
Definition waitFor_visible (l : locator) : M unit :=
  fun s =>
    match isVisible_at (now s) l with
    | Got true => (Ret tt, tick (log (EvWaitFor l "visible") s))
    | Got false =>
        (Throw "locator.waitFor: Timeout exceeded", tick (log (EvWaitFor l "visible") s))
    | Rejected m => (Throw m, tick (log (EvWaitFor l "visible") s))
    end.

(** locator.waitFor({ state: 'hidden' }): rejects when the target stays
    visible. *)
Definition waitFor_hidden (l : locator) : M unit :=
  fun s =>
    match isVisible_at (now s) l with
    | Got false => (Ret tt, tick (log (EvWaitFor l "hidden") s))
    | Got true =>
        (Throw "locator.waitFor: Timeout exceeded", tick (log (EvWaitFor l "hidden") s))
    | Rejected m => (Throw m, tick (log (EvWaitFor l "hidden") s))
    end.

End Page.

Import Page.

(** The double-quote character, for selectors that contain it. *)
Definition dq : string := String (ascii_of_nat 34) EmptyString.

(** ** config/TestConfig.js *)

Module TestConfig.

Module selectors.

Definition tabs_upload : string :=
  "div.tab[onclick=" ++ dq ++ "switchTab('upload')" ++ dq ++ "]".
Definition tabs_index : string :=
  "div.tab[onclick=" ++ dq ++ "switchTab('index')" ++ dq ++ "]".
Definition chat_questionInput : string := "#questionInput".
Definition chat_askButton : string := "#askBtn".
Definition index_clearButton : string :=
  "button[onclick=" ++ dq ++ "clearIndex()" ++ dq ++ "]".
Definition index_docCount : string := "#docCount".
Definition index_chunkCount : string := "#chunkCount".

End selectors.

End TestConfig.

(** ** pages/DashboardPage.js *)

Module DashboardPage.

Definition indexTab : locator := Loc TestConfig.selectors.tabs_index.
Definition docCount : locator := Loc TestConfig.selectors.index_docCount.
Definition chunkCount : locator := Loc TestConfig.selectors.index_chunkCount.
Definition clearButton : locator := Loc TestConfig.selectors.index_clearButton.

Definition switchToIndexTab : M unit :=
  click indexTab ;;
  waitForTimeout 1000.

(** The polling loop of clearIndex:
    [while (!successMessage && attempts < maxAttempts) { ... }]. The state is
    (successMessage found, attempts). *)
Fixpoint clearIndex_poll (fuel : nat) (maxAttempts : Z) (pollInterval : Q)
    (found : bool) (attempts : Z) : M bool :=
  if negb found && (attempts <? maxAttempts) then
    match fuel with
    | O => unfinished
    | S fuel' =>
        let attempts := attempts + 1 in
        let messageElement := First (Loc "div.status.success") in
        visible <- isVisible messageElement ;;
        hit <- (if visible : bool
                then messageText <- textContent messageElement ;;
                     ret match messageText with
                         | Some t => (negb (String.eqb t "") && includes t "All data cleared")%bool
                         | None => false
                         end
                else ret false) ;;
        if hit : bool then ret true
        else
          (if attempts <? maxAttempts then waitForTimeout pollInterval else ret tt) ;;
          clearIndex_poll fuel' maxAttempts pollInterval false attempts
    end
  else ret found.

Definition clearIndex : M unit :=
  switchToIndexTab ;;
  on_dialog AcceptDialog ;;
  click clearButton ;;
  let maxAttempts := 10 in
  let pollInterval := 300%Q in
  _ <- clearIndex_poll (Z.to_nat maxAttempts) maxAttempts pollInterval false 0 ;;
  waitForTimeout 2000.

Definition getDocumentCount : M jsnum :=
  text <- textContent docCount ;;
  ret (or_else (parseInt text) (Num 0)).

Definition getChunkCount : M jsnum :=
  text <- textContent chunkCount ;;
  ret (or_else (parseInt text) (Num 0)).

Definition waitForDocumentCount_error (expectedCount : jsnum) (maxAttempts : Z)
  : string :=
  "Document count did not reach " ++ string_of_num expectedCount
    ++ " after " ++ string_of_Z maxAttempts ++ " attempts".

(** [for (let attempt = 1; attempt <= maxAttempts; attempt++) { ... }]
    followed by the throw after the loop. *)
Fixpoint waitForDocumentCount_from (fuel : nat) (expectedCount : jsnum)
    (maxAttempts : Z) (waitTime : Q) (attempt : Z) : M jsnum :=
  if attempt <=? maxAttempts then
    match fuel with
    | O => unfinished
    | S fuel' =>
        currentCount <- getDocumentCount ;;
        if strict_eq currentCount expectedCount then ret currentCount
        else
          (if attempt <? maxAttempts
           then waitForTimeout waitTime ;;
                reload ;;
                waitForLoadState "networkidle"
           else ret tt) ;;
          waitForDocumentCount_from fuel' expectedCount maxAttempts waitTime
            (attempt + 1)
    end
  else throw (waitForDocumentCount_error expectedCount maxAttempts).

Definition waitForDocumentCount (expectedCount : jsnum) (maxAttempts : Z)
    (waitTime : Q) : M jsnum :=
  waitForDocumentCount_from (Z.to_nat maxAttempts) expectedCount maxAttempts
    waitTime 1.

Definition waitForNonZeroDocumentCount_error (maxAttempts : Z) : string :=
  "Document count did not become non-zero after " ++ string_of_Z maxAttempts
    ++ " attempts".

(** One pass over the page inside the loop of waitForNonZeroDocumentCount:
    the element with the id first, the label and its neighbouring number
    otherwise.  It returns the new (documentCountValue, indexedCountNum); both
    keep their previous value when nothing is found. *)
Definition waitForNonZeroDocumentCount_read (documentCountValue : option string)
    (indexedCountNum : jsnum) : M (option string * jsnum) :=
  let documentCountElement := First (Loc "#docCount") in
  visible <- isVisible documentCountElement ;;
  if visible : bool then
    text <- textContent documentCountElement ;;
    ret (text, parseInt text)
  else
    let documentIndexedText := First (Loc "text=/Documents Indexed/i") in
    labelVisible <- isVisible documentIndexedText ;;
    if labelVisible : bool then
      let parent := Within documentIndexedText ".." in
      let numbers := Within parent "text=/\d+/" in
      n <- count numbers ;;
      if (0 <? n)%nat then
        text <- textContent (First numbers) ;;
        ret (text, parseInt text)
      else ret (documentCountValue, indexedCountNum)
    else ret (documentCountValue, indexedCountNum).

(** [while (indexedCountNum === 0 && attempts < maxAttempts) { ... }] *)
Fixpoint waitForNonZeroDocumentCount_loop (fuel : nat) (maxAttempts : Z)
    (waitTime : Q) (documentCountValue : option string)
    (indexedCountNum : jsnum) (attempts : Z)
  : M (option string * jsnum * Z) :=
  if strict_eq indexedCountNum (Num 0) && (attempts <? maxAttempts) then
    match fuel with
    | O => unfinished
    | S fuel' =>
        let attempts := attempts + 1 in
        '(documentCountValue, indexedCountNum) <-
          waitForNonZeroDocumentCount_read documentCountValue indexedCountNum ;;
        (if strict_eq indexedCountNum (Num 0) && (attempts <? maxAttempts)
         then waitForTimeout waitTime ;;
              reload ;;
              waitForLoadState "networkidle"
         else ret tt) ;;
        waitForNonZeroDocumentCount_loop fuel' maxAttempts waitTime
          documentCountValue indexedCountNum attempts
    end
  else ret (documentCountValue, indexedCountNum, attempts).

Definition waitForNonZeroDocumentCount (maxAttempts : Z) (waitTime : Q)
  : M jsnum :=
  '(_, indexedCountNum, _) <-
    waitForNonZeroDocumentCount_loop (Z.to_nat maxAttempts) maxAttempts
      waitTime (Some "0") (Num 0) 0 ;;
  if strict_eq indexedCountNum (Num 0)
  then throw (waitForNonZeroDocumentCount_error maxAttempts)
  else ret indexedCountNum.

(** [/sample|load|data/i.test(buttonText)] *)
Definition mentions_sample_load_data (text : string) : bool :=
  let t := toLowerCase text in
  (includes t "sample" || includes t "load" || includes t "data")%bool.

(** Strategy 1 of loadSampleData:
    [for (const selector of exactMatches) { if visible { found; break } }] *)
Fixpoint loadSampleData_strategy1 (selectors : list string) : M (option locator) :=
  match selectors with
  | [] => ret None
  | selector :: rest =>
      let button := First (Loc selector) in
      visible <- isVisible button ;;
      if visible : bool then ret (Some button) else loadSampleData_strategy1 rest
  end.

(** Strategy 2: visible and with a text that mentions sample, load or data. *)
Fixpoint loadSampleData_strategy2 (selectors : list string) : M (option locator) :=
  match selectors with
  | [] => ret None
  | selector :: rest =>
      let button := First (Loc selector) in
      visible <- isVisible button ;;
      if visible : bool then
        buttonText <- textContent button ;;
        match buttonText with
        | Some t =>
            if (negb (String.eqb t "") && mentions_sample_load_data t)%bool
            then ret (Some button)
            else loadSampleData_strategy2 rest
        | None => loadSampleData_strategy2 rest
        end
      else loadSampleData_strategy2 rest
  end.

Definition exactMatches : list string :=
  [ "text=/load sample data/i"; "text=/sample data/i"; "text=/load sample/i";
    "text=/load.*sample/i" ].

Definition buttonSelectors : list string :=
  [ "button:has-text(" ++ dq ++ "Load" ++ dq ++ ")";
    "button:has-text(" ++ dq ++ "Sample" ++ dq ++ ")";
    "button:has-text(" ++ dq ++ "Data" ++ dq ++ ")";
    "[data-testid*=" ++ dq ++ "sample" ++ dq ++ "]";
    "[data-testid*=" ++ dq ++ "load" ++ dq ++ "]";
    "[class*=" ++ dq ++ "sample" ++ dq ++ "]";
    "[class*=" ++ dq ++ "load" ++ dq ++ "]" ].

(** The three strategies of loadSampleData that find the button, up to the
    throw when none of them does. *)
Definition loadSampleData_button : M locator :=
  found1 <- loadSampleData_strategy1 exactMatches ;;
  found2 <- match found1 with
            | Some b => ret (Some b)
            | None => loadSampleData_strategy2 buttonSelectors
            end ;;
  found3 <- match found2 with
            | Some b => ret (Some b)
            | None =>
                let clickableElements :=
                  HasText (Loc ("button, a, [role=" ++ dq ++ "button" ++ dq ++ "], [onclick]"))
                          "/sample|load|data/i" in
                n <- count clickableElements ;;
                if (0 <? n)%nat then ret (Some (First clickableElements))
                else ret None
            end ;;
  match found3 with
  | Some b => ret b
  | None =>
      throw "Load Sample Data button not found. Check if the button exists on the page."
  end.

(** The rest of loadSampleData: the button is clicked, then the indexing
    message is looked for (twice, with a pause in between) and, when it was
    seen, waited for until it disappears.  The loop over the message
    selectors has the shape of the first strategy: the first element that is
    visible is kept. *)
Definition indexingMessageSelectors : list string :=
  [ "text=/indexing documents/i"; "text=/processing documents/i";
    "text=/loading documents/i"; "text=/indexing/i"; "text=/processing/i";
    "text=/loading/i";
    "[class*=" ++ dq ++ "loading" ++ dq ++ "]";
    "[class*=" ++ dq ++ "processing" ++ dq ++ "]";
    "[class*=" ++ dq ++ "indexing" ++ dq ++ "]" ].

Definition loadSampleData : M unit :=
  switchToIndexTab ;;
  loadSampleDataButton <- loadSampleData_button ;;
  click loadSampleDataButton ;;
  indexingMessage <- loadSampleData_strategy1 indexingMessageSelectors ;;
  indexingMessage <- match indexingMessage with
                     | Some m => ret (Some m)
                     | None =>
                         waitForTimeout 2000 ;;
                         loadSampleData_strategy1 indexingMessageSelectors
                     end ;;
  match indexingMessage with
  | Some m => waitFor_hidden m
  | None => ret tt
  end.

Definition waitForNonZeroChunkCount_error (maxAttempts : Z) : string :=
  "Chunk count did not become non-zero after " ++ string_of_Z maxAttempts
    ++ " attempts".

(** One pass of waitForNonZeroChunkCount over the page. *)
Definition waitForNonZeroChunkCount_read (chunksCountValue : option string)
    (chunksCountNum : jsnum) : M (option string * jsnum) :=
  let chunksCountElement := First (Loc "#chunkCount") in
  visible <- isVisible chunksCountElement ;;
  if visible : bool then
    text <- textContent chunksCountElement ;;
    ret (text, parseInt text)
  else
    let textChunksText := First (Loc "text=/Text Chunks/i") in
    labelVisible <- isVisible textChunksText ;;
    if labelVisible : bool then
      let parent := Within textChunksText ".." in
      let numbers := Within parent "text=/\d+/" in
      n <- count numbers ;;
      if (0 <? n)%nat then
        text <- textContent (First numbers) ;;
        ret (text, parseInt text)
      else ret (chunksCountValue, chunksCountNum)
    else ret (chunksCountValue, chunksCountNum).

(** [while (chunksCountNum === 0 && chunksAttempts < maxAttempts) { ... }] *)
Fixpoint waitForNonZeroChunkCount_loop (fuel : nat) (maxAttempts : Z)
    (waitTime : Q) (chunksCountValue : option string)
    (chunksCountNum : jsnum) (chunksAttempts : Z)
  : M (option string * jsnum * Z) :=
  if strict_eq chunksCountNum (Num 0) && (chunksAttempts <? maxAttempts) then
    match fuel with
    | O => unfinished
    | S fuel' =>
        let chunksAttempts := chunksAttempts + 1 in
        '(chunksCountValue, chunksCountNum) <-
          waitForNonZeroChunkCount_read chunksCountValue chunksCountNum ;;
        (if strict_eq chunksCountNum (Num 0) && (chunksAttempts <? maxAttempts)
         then waitForTimeout waitTime ;;
              reload ;;
              waitForLoadState "networkidle"
         else ret tt) ;;
        waitForNonZeroChunkCount_loop fuel' maxAttempts waitTime
          chunksCountValue chunksCountNum chunksAttempts
    end
  else ret (chunksCountValue, chunksCountNum, chunksAttempts).

Definition waitForNonZeroChunkCount (maxAttempts : Z) (waitTime : Q)
  : M jsnum :=
  '(_, chunksCountNum, _) <-
    waitForNonZeroChunkCount_loop (Z.to_nat maxAttempts) maxAttempts
      waitTime (Some "0") (Num 0) 0 ;;
  if strict_eq chunksCountNum (Num 0)
  then throw (waitForNonZeroChunkCount_error maxAttempts)
  else ret chunksCountNum.

Definition hasDocumentCount (count : jsnum) : M bool :=
  currentCount <- getDocumentCount ;;
  ret (strict_eq currentCount count).

Definition hasChunkCount (count : jsnum) : M bool :=
  currentCount <- getChunkCount ;;
  ret (strict_eq currentCount count).

End DashboardPage.

(** ** components/ChatComponent.js *)

Module ChatComponent.

Definition questionInput : locator := Loc TestConfig.selectors.chat_questionInput.
Definition askButton : locator := Loc TestConfig.selectors.chat_askButton.

Definition fillQuestion (question : string) : M unit :=
  fill questionInput question.

Definition clickAskButton : M bool :=
  isEnabled <- isEnabled askButton ;;
  if negb isEnabled then ret false
  else
    click askButton ;;
    ret true.

Definition askQuestion (question : string) : M bool :=
  waitForLoadState "networkidle" ;;
  waitForTimeout 2000 ;;
  fillQuestion question ;;
  clicked <- clickAskButton ;;
  ret clicked.

(** The loop of getAssistantAnswer; a rejected visibility check is caught
    and the next selector is tried. *)
Fixpoint getAssistantAnswer_over (selectors : list string) : M (option locator) :=
  match selectors with
  | [] => ret None
  | selector :: rest =>
      let element := First (Loc selector) in
      visible <- try_catch (isVisible element) (fun _ => ret false) ;;
      if visible : bool then ret (Some element)
      else getAssistantAnswer_over rest
  end.

(** [const selectors = [...]] of getAssistantAnswer *)
Definition getAssistantAnswer_selectors : list string :=
  [ ".assistant p:first-of-type"; ".message.assistant p:first-of-type";
    ".bubble.assistant p:first-of-type" ].

Definition getAssistantAnswer : M (option locator) :=
  getAssistantAnswer_over getAssistantAnswer_selectors.

Definition chatContainer : locator := Loc "#chatContainer".

Definition assistantAnswerSelectors : list string :=
  [ ".assistant p:first-of-type"; ".message.assistant p:first-of-type";
    ".bubble.assistant p:first-of-type";
    "div[class*=" ++ dq ++ "assistant" ++ dq ++ "] p:first-of-type";
    "text=/Hello|Hi|I can|I am|I'm/" ].

(** The inner loop of waitForResponse over the selectors.  The result is the
    text with which answerFound is set, if it is.  (answerText is read by the
    caller only after answerFound is set, when it has just been assigned.) *)
Fixpoint waitForResponse_selectors (selectors : list string)
  : M (option string) :=
  match selectors with
  | [] => ret None
  | selector :: rest =>
      let element := First (Loc selector) in
      visible <- isVisible element ;;
      if visible : bool then
        answerText <- textContent element ;;
        match answerText with
        | Some t =>
            if (negb (String.eqb t "") && negb (String.eqb (trim t) ""))%bool
            then ret (Some t)
            else waitForResponse_selectors rest
        | None => waitForResponse_selectors rest
        end
      else waitForResponse_selectors rest
  end.

(** [for (let attempt = 1; attempt <= maxAttempts; attempt++) { try {...} catch {...} }]
    with maxAttempts = 20 and waitTime = 3000. *)
Fixpoint waitForResponse_poll (fuel : nat) (attempt : Z) : M (option string) :=
  if attempt <=? 20 then
    match fuel with
    | O => unfinished
    | S fuel' =>
        found <- try_catch
                   (found <- waitForResponse_selectors assistantAnswerSelectors ;;
                    match found with
                    | Some t => ret (Some t)
                    | None =>
                        (if attempt <? 20 then waitForTimeout 3000 else ret tt) ;;
                        ret None
                    end)
                   (fun _ =>
                      (if attempt <? 20 then waitForTimeout 3000 else ret tt) ;;
                      ret None) ;;
        match found with
        | Some t => ret (Some t)
        | None => waitForResponse_poll fuel' (attempt + 1)
        end
    end
  else ret None.

Definition waitForResponse : M string :=
  waitFor_visible chatContainer ;;
  found <- waitForResponse_poll 20 1 ;;
  match found with
  | Some answerText => ret answerText
  | None => throw "Assistant answer not found after 1 minute of waiting"
  end.

Definition isChatContainerEmpty : M bool :=
  content <- textContent chatContainer ;;
  ret match content with
      | None => true
      | Some t => (String.eqb t "" || String.eqb (trim t) "")%bool
      end.

Definition hasAssistantResponse : M bool :=
  answer <- getAssistantAnswer ;;
  match answer with
  | None => ret false
  | Some element => isVisible element
  end.

End ChatComponent.

(** ** flows/UserJourneyFlow.js *)

Module UserJourneyFlow.

Definition goToIndex : M unit := DashboardPage.switchToIndexTab.

Definition clearIndex : M unit := DashboardPage.clearIndex.

Definition loadSampleData : M unit := DashboardPage.loadSampleData.

(** Called without arguments: the pollers run with their default budgets,
    40 and 30 attempts, 3000 ms apart. *)
Definition waitForIndexingComplete : M unit :=
  _ <- DashboardPage.waitForNonZeroDocumentCount 40 3000 ;;
  _ <- DashboardPage.waitForNonZeroChunkCount 30 3000 ;;
  ret tt.

Definition askQuestion (question : string) : M unit :=
  _ <- ChatComponent.askQuestion question ;;
  ret tt.

(** The object { question, response, clicked } *)
Record asked : Type := {
  question : string;
  response : option string;
  clicked : bool
}.

Definition askQuestionAndWaitForResponse (q : string) : M asked :=
  wasClicked <- ChatComponent.askQuestion q ;;
  if negb wasClicked then
    ret {| question := q; response := None; clicked := false |}
  else
    r <- ChatComponent.waitForResponse ;;
    ret {| question := q; response := Some r; clicked := true |}.

End UserJourneyFlow.

(** ** specs/user-journey.spec.js *)

Module UserJourney.

(** *** TC001 - Clear Index *)

Definition successMessage : locator :=
  Loc ("div.status.success:has-text(" ++ dq ++ "All data cleared" ++ dq ++ ")").

(** Step 4: [for (let attempt = 1; attempt <= 10; attempt++) { try {...} catch {} ... }];
    the result is messageFound. *)
Fixpoint TC001_step4 (fuel : nat) (attempt : Z) : M bool :=
  if attempt <=? 10 then
    match fuel with
    | O => unfinished
    | S fuel' =>
        hit <- try_catch
                 (visible <- isVisible successMessage ;;
                  if visible : bool
                  then _ <- textContent successMessage ;; ret true
                  else ret false)
                 (fun _ => ret false) ;;
        if hit : bool then ret true
        else
          (if attempt <? 10 then waitForTimeout 300 else ret tt) ;;
          TC001_step4 fuel' (attempt + 1)
    end
  else ret false.

(** Steps 5 and 6.  Both call waitForDocumentCount(0, 1); the default
    waitTime is 2000.  The result is (docCount, chunkCount) as the test names
    them. *)
Definition TC001_verify_counts : M (jsnum * jsnum) :=
  docCount <- DashboardPage.waitForDocumentCount (Num 0) 1 2000 ;;
  chunkCount <- DashboardPage.waitForDocumentCount (Num 0) 1 2000 ;;
  ret (docCount, chunkCount).

(** The body of the test, after the login done by beforeEach. *)
Definition TC001 : M (jsnum * jsnum) :=
  UserJourneyFlow.goToIndex ;;
  UserJourneyFlow.clearIndex ;;
  _ <- TC001_step4 10 1 ;;
  TC001_verify_counts.

(** *** TC004 - Select Models, step 3 *)

Record model : Type := { value : string; text : string }.

Definition is_regexp_special (c : ascii) : bool :=
  existsb (Ascii.eqb c)
    (list_ascii_of_string (".*+?^${}()|[]" ++ String (ascii_of_nat 92) EmptyString)).

(** [value.replace(/[.*+?^${}()|[\]\\]/g, '\\$&')] *)
Fixpoint escapeRegExp (s : string) : string :=
  match s with
  | EmptyString => EmptyString
  | String c rest =>
      if is_regexp_special c
      then String (ascii_of_nat 92) (String c (escapeRegExp rest))
      else String c (escapeRegExp rest)
  end.

Definition confirmationMessage (m : model) : locator :=
  Loc ("text=/✓ Model changed to " ++ escapeRegExp (value m) ++ "/").

(** [for (let attempt = 1; attempt <= 15; attempt++) { try {...} catch {} ... }];
    the result is messageFound. *)
Fixpoint TC004_confirm (fuel : nat) (m : model) (attempt : Z) : M bool :=
  if attempt <=? 15 then
    match fuel with
    | O => unfinished
    | S fuel' =>
        hit <- try_catch
                 (waitForLoadState "domcontentloaded" ;;
                  visible <- isVisible (confirmationMessage m) ;;
                  if visible : bool
                  then _ <- textContent (confirmationMessage m) ;; ret true
                  else ret false)
                 (fun _ => ret false) ;;
        if hit : bool then ret true
        else
          (if attempt <? 15 then waitForTimeout 500 else ret tt) ;;
          TC004_confirm fuel' m (attempt + 1)
    end
  else ret false.

(** The errors after which the catch block reloads the page. *)
Definition triggers_recovery (message : string) : bool :=
  (includes message "Target page, context or browser has been closed"
   || includes message "Test timeout"
   || includes message "page.waitForTimeout"
   || includes message "locator.selectOption")%bool.

Definition recoveredSelector : locator :=
  First (Loc ("select#modelSelect, .model-selector, select[name=" ++ dq ++ "model"
              ++ dq ++ "], select[id=" ++ dq ++ "model" ++ dq ++ "]")).

Record tally : Type := {
  modelSelector : locator;
  successCount : Z;
  failureCount : Z
}.

(** The body of the try block for one model.  successCount and
    failureCount are variables of the test, updated in place: an error thrown
    after an update leaves the block with the update done.  The result is the
    tally as the block leaves it, with the message of the error that left
    it, if any.  Before the model is counted, a rejected selectOption or a
    rejected pause of the confirmation loop leaves the block; after it, the
    pause between two models does. *)
Definition TC004_try (m : model) (isLast : bool) (t : tally)
  : M (tally * option string) :=
  try_catch
    (selectOption (modelSelector t) (value m) ;;
     found <- TC004_confirm 15 m 1 ;;
     found' <- (if found : bool then ret true
                else try_catch
                       (waitForTimeout 2000 ;;
                        currentValue <- inputValue (modelSelector t) ;;
                        ret (String.eqb currentValue (value m)))
                       (fun _ => ret false)) ;;
     let t1 := if found' : bool
               then {| modelSelector := modelSelector t;
                       successCount := successCount t + 1;
                       failureCount := failureCount t |}
               else {| modelSelector := modelSelector t;
                       successCount := successCount t;
                       failureCount := failureCount t + 1 |} in
     try_catch
       ((if isLast : bool then ret tt else waitForTimeout 1000) ;;
        ret (t1, None))
       (fun message => ret (t1, Some message)))
    (fun message => ret (t, Some message)).

(** The catch block for one model: the failure is counted; for the listed
    errors the page is reloaded and the selector found again.  The boolean
    tells whether the loop goes on ([false] is the [break]). *)
Definition TC004_catch (message : string) (t : tally) : M (tally * bool) :=
  let t1 := {| modelSelector := modelSelector t;
               successCount := successCount t;
               failureCount := failureCount t + 1 |} in
  if triggers_recovery message then
    try_catch
      (waitForTimeout 2000 ;;
       reload ;;
       waitForLoadState "networkidle" ;;
       let t2 := {| modelSelector := recoveredSelector;
                    successCount := successCount t1;
                    failureCount := failureCount t1 |} in
       try_catch (waitFor_visible recoveredSelector ;; ret (t2, true))
                 (fun _ => ret (t2, false)))
      (fun _ => ret (t1, false))
  else ret (t1, true).

(** [for (let i = 0; i < models.length; i++) { try {...} catch (error) {...} }] *)
Fixpoint TC004_loop (rest : list model) (t : tally) : M tally :=
  match rest with
  | [] => ret t
  | m :: rest' =>
      '(t1, error) <-
        TC004_try m (match rest' with [] => true | _ => false end) t ;;
      match error with
      | None => TC004_loop rest' t1
      | Some message =>
          '(t2, continue) <- TC004_catch message t1 ;;
          if continue : bool then TC004_loop rest' t2 else ret t2
      end
  end.

(** Step 3 and the verdict after it.  [toFixed1 successCount length] stands
    for the text of [((successCount / length) * 100).toFixed(1)], a floating
    point computation that is left open. *)
Definition TC004_select_models (toFixed1 : Z -> Z -> string)
    (selector : locator) (models : list model) : M unit :=
  t <- TC004_loop models
         {| modelSelector := selector; successCount := 0; failureCount := 0 |} ;;
  let length := Z.of_nat (List.length models) in
  if 0 <? failureCount t then
    throw ("Model selection not 100% successful: "
           ++ toFixed1 (successCount t) length ++ "% ("
           ++ string_of_Z (successCount t) ++ "/" ++ string_of_Z length
           ++ "). Failures: " ++ string_of_Z (failureCount t))
  else ret tt.

End UserJourney.

(** ** e2e-tests/global-setup: waiting for the application *)

Module GlobalSetup.

Definition maxRetries : Z := 12.

Definition initialDelay : Q := 2500.

(** [delay = Math.min(delay * 1.5, 15000)] *)
Definition next_delay (delay : Q) : Q := Qmin (delay * 1.5) 15000.

(** The delay after n increases. *)
Fixpoint delay_after (n : nat) : Q :=
  match n with
  | O => initialDelay
  | S n' => next_delay (delay_after n')
  end.

Definition healthUrl : string := "http://localhost:8000/health".

(** [while (retries < maxRetries) { try {...} catch (error) {...} }]; the
    state is (retries, delay). *)
Fixpoint globalSetup_loop (fuel : nat) (retries : Z) (delay : Q)
  : M (Z * Q) :=
  if retries <? maxRetries then
    match fuel with
    | O => unfinished
    | S fuel' =>
        '(ready, retries', delay') <-
          try_catch
            (response <- goto healthUrl ;;
             match response with
             | Some true => ret (true, retries, delay)
             | _ => ret (false, retries, delay)
             end)
            (fun _ =>
               waitForTimeout delay ;;
               ret (false, retries + 1, next_delay delay)) ;;
        if ready : bool then ret (retries', delay')
        else globalSetup_loop fuel' retries' delay'
    end
  else ret (retries, delay).

(** The first part of globalSetup, up to the throw that ends it when the
    application did not answer. *)
Definition globalSetup_ready (fuel : nat) : M unit :=
  '(retries, _) <- globalSetup_loop fuel 0 initialDelay ;;
  if maxRetries <=? retries
  then throw "❌ Application failed to start within timeout period"
  else ret tt.

(** The endpoints that are visited once the application answers. *)
Definition endpoints : list (string * string) :=
  [ ("http://localhost:8000/health", "Health");
    ("http://localhost:8000/api-info", "API Info");
    ("http://localhost:8000/models", "Models");
    ("http://localhost:8000/", "Home Page");
    ("http://localhost:8000/login", "Login Page") ].

(** [for (const endpoint of endpoints) { try { goto ... } catch (error) { log } }] *)
Fixpoint verifyEndpoints (rest : list (string * string)) : M unit :=
  match rest with
  | [] => ret tt
  | endpoint :: rest' =>
      try_catch (_ <- goto (fst endpoint) ;; ret tt) (fun _ => ret tt) ;;
      verifyEndpoints rest'
  end.

(** The body of the try block of globalSetup.  (The catch block logs and
    rethrows, the finally block closes the browser.) *)
Definition globalSetup (fuel : nat) : M unit :=
  globalSetup_ready fuel ;;
  verifyEndpoints endpoints ;;
  _ <- goto "http://localhost:8000/login" ;;
  waitForLoadState "networkidle".

End GlobalSetup.

(** ** components/FileUploadComponent.js *)

Module FileUploadComponent.

Definition uploadStatus : locator := Loc "text=/uploaded|success|indexing|error/i".

Definition alternativeSelectors : list string :=
  [ "text=/uploaded|success|indexing|error|processing|complete/i";
    ".upload-status"; ".status-message"; ".alert"; ".notification";
    "[class*=" ++ dq ++ "status" ++ dq ++ "]";
    "[class*=" ++ dq ++ "upload" ++ dq ++ "]" ].

(** The loop over the alternative selectors; [true] is the [return] out of
    the method. *)
Fixpoint waitForUploadComplete_alternatives (selectors : list string)
  : M bool :=
  match selectors with
  | [] => ret false
  | selector :: rest =>
      let element := Loc selector in
      done <- try_catch
                (n <- count element ;;
                 if (0 <? n)%nat
                 then waitFor_visible (First element) ;; ret true
                 else ret false)
                (fun _ => ret false) ;;
      if done : bool then ret true
      else waitForUploadComplete_alternatives rest
  end.

Definition waitForUploadComplete : M unit :=
  try_catch (waitFor_visible uploadStatus)
    (fun error =>
       done <- waitForUploadComplete_alternatives alternativeSelectors ;;
       if done : bool then ret tt
       else
         let fileInput := Loc ("input[type=" ++ dq ++ "file" ++ dq ++ "]") in
         fileValue <- inputValue fileInput ;;
         if String.eqb fileValue "" then ret tt
         else throw error).

Definition waitForIndexingComplete : M unit :=
  let indexingMessage := Loc "text=/indexing/i" in
  try_catch
    (waitFor_visible indexingMessage ;;
     waitFor_hidden indexingMessage)
    (fun _ => waitForTimeout 1500).

(** validateFileType: the method is async but touches nothing but its
    argument. *)
Definition validateFileType (filePath : string) : bool :=
  let allowedExtensions := [".pdf"; ".md"; ".txt"] in
  let extension :=
    substring_from (String_toLowerCase filePath) (lastIndexOf filePath ".") in
  existsb (String.eqb extension) allowedExtensions.

End FileUploadComponent.

(** ** Observing a run: counting events of a session *)

Module Observe.

Fixpoint locator_eqb (a b : locator) : bool :=
  match a, b with
  | Loc x, Loc y => String.eqb x y
  | First l, First m => locator_eqb l m
  | Within l x, Within m y => locator_eqb l m && String.eqb x y
  | HasText l x, HasText m y => locator_eqb l m && String.eqb x y
  | _, _ => false
  end.

Definition is_textContent_of (l : locator) (e : event) : bool :=
  match e with EvTextContent l' => locator_eqb l l' | _ => false end.

Definition is_isVisible_of (l : locator) (e : event) : bool :=
  match e with EvIsVisible l' => locator_eqb l l' | _ => false end.

Definition is_click_of (l : locator) (e : event) : bool :=
  match e with EvClick l' => locator_eqb l l' | _ => false end.

Definition is_reload (e : event) : bool :=
  match e with EvReload => true | _ => false end.

Definition is_wait (e : event) : bool :=
  match e with EvWaitForTimeout _ => true | _ => false end.

Definition is_goto (e : event) : bool :=
  match e with EvGoto _ => true | _ => false end.

Definition is_accept (e : event) : bool :=
  match e with EvDialogAccept _ => true | _ => false end.

Definition is_selectOption (e : event) : bool :=
  match e with EvSelectOption _ _ => true | _ => false end.

Definition occurrences (p : event -> bool) (s : session) : nat :=
  List.length (filter p (trace s)).

(** Reads of the document counter by getDocumentCount. *)
Definition docCount_reads : session -> nat :=
  occurrences (is_textContent_of DashboardPage.docCount).

(** Reads of the chunk counter by getChunkCount. *)
Definition chunkCount_reads : session -> nat :=
  occurrences (is_textContent_of DashboardPage.chunkCount).

(** Passes of waitForNonZeroDocumentCount over the page: each starts with
    the visibility check of the element with the id. *)
Definition docCount_passes : session -> nat :=
  occurrences (is_isVisible_of (First (Loc "#docCount"))).

Definition reloads : session -> nat := occurrences is_reload.
Definition waits : session -> nat := occurrences is_wait.
Definition gotos : session -> nat := occurrences is_goto.
Definition accepts : session -> nat := occurrences is_accept.
Definition selections : session -> nat := occurrences is_selectOption.

Definition ask_clicks : session -> nat :=
  occurrences (is_click_of ChatComponent.askButton).

(** The delays of the waits of a session, oldest first. *)
Definition wait_delays (s : session) : list Q :=
  flat_map (fun e => match e with EvWaitForTimeout ms => [ms] | _ => [] end)
           (history s).

(** The visibility checks of the first elements of a list of selectors. *)
Definition visibility_checks (selectors : list string) : list event :=
  map (fun a => EvIsVisible (First (Loc a))) selectors.

(** The session after the refresh between two attempts of a poller:
    waitForTimeout, reload, waitForLoadState. *)
Definition refreshed (waitTime : Q) (s : session) : session :=
  tick (log (EvWaitForLoadState "networkidle")
          (tick (log EvReload (tick (log (EvWaitForTimeout waitTime) s))))).

Definition is_any_isVisible (e : event) : bool :=
  match e with EvIsVisible _ => true | _ => false end.

Definition is_any_textContent (e : event) : bool :=
  match e with EvTextContent _ => true | _ => false end.

Definition is_any_count (e : event) : bool :=
  match e with EvCount _ => true | _ => false end.

Definition is_any_inputValue (e : event) : bool :=
  match e with EvInputValue _ => true | _ => false end.

Definition is_any_click (e : event) : bool :=
  match e with EvClick _ => true | _ => false end.

Definition is_any_waitFor (e : event) : bool :=
  match e with EvWaitFor _ _ => true | _ => false end.

Definition isVisible_calls : session -> nat := occurrences is_any_isVisible.
Definition textContent_calls : session -> nat := occurrences is_any_textContent.
Definition count_calls : session -> nat := occurrences is_any_count.
Definition inputValue_calls : session -> nat := occurrences is_any_inputValue.
Definition clicks : session -> nat := occurrences is_any_click.
Definition waitFor_calls : session -> nat := occurrences is_any_waitFor.

Definition clear_clicks : session -> nat :=
  occurrences (is_click_of DashboardPage.clearButton).

(** Looks of clearIndex at the success banner. *)
Definition banner_checks : session -> nat :=
  occurrences (is_isVisible_of (First (Loc "div.status.success"))).

(** Passes of waitForNonZeroChunkCount over the page. *)
Definition chunkCount_passes : session -> nat :=
  occurrences (is_isVisible_of (First (Loc "#chunkCount"))).

Definition is_loadState (e : event) : bool :=
  match e with EvWaitForLoadState _ => true | _ => false end.

(** The three calls between two attempts of a poller. *)
Definition is_refresh (e : event) : bool :=
  (is_wait e || is_reload e || is_loadState e)%bool.

Definition is_fill (e : event) : bool :=
  match e with EvFill _ _ => true | _ => false end.

(** The calls that [act] and [click] make. *)
Definition is_action (e : event) : bool :=
  (is_refresh e || is_any_click e || is_fill e)%bool.

(** The page lets the actions of the kinds [p] through, at any time: none
    of them is rejected. *)
Definition allows (p : event -> bool) (s : session) : Prop :=
  forall (t : nat) (e : event), p e = true -> action_at (world s t) e = None.

(** The page stays with the test: no click, fill, pause, reload or wait for
    a load state is rejected, at any time. *)
Definition responsive (s : session) : Prop := allows (fun _ => true) s.

(** The message is that of an action, of one of the kinds [p], which the
    page rejects at some instant. *)
Definition refused_by (w : nat -> snapshot) (p : event -> bool) (m : string)
  : Prop :=
  exists (t : nat) (e : event) (detail : string),
    p e = true /\ action_at (w t) e = Some detail /\ m = act_error e detail.

(** The message is that of a query which the page rejects at some instant. *)
Definition rejected_by (w : nat -> snapshot) (m : string) : Prop :=
  exists (t : nat) (l : locator),
    isVisible_at (w t) l = Rejected m
    \/ textContent_at (w t) l = Rejected m
    \/ count_at (w t) l = Rejected m.

(** The urls of the navigations of a session, oldest first. *)
Definition goto_urls (s : session) : list string :=
  flat_map (fun e => match e with EvGoto url => [url] | _ => [] end)
           (history s).

(** Every character is white space. *)
Definition all_whitespace (s : string) : bool :=
  forallb is_whitespace (list_ascii_of_string s).

(** The string contains no dot. *)
Definition dotless (s : string) : bool :=
  forallb (fun c => negb (Ascii.eqb c ".")) (list_ascii_of_string s).

(** What makes the second strategy pass over a candidate: it is hidden, or
    it is visible with a text that is null or mentions none of the words. *)
Definition passed_over (w : snapshot) (a : string) : Prop :=
  isVisible_at w (First (Loc a)) = Got false
  \/ (isVisible_at w (First (Loc a)) = Got true
      /\ (textContent_at w (First (Loc a)) = Got None
          \/ exists t, textContent_at w (First (Loc a)) = Got (Some t)
                       /\ DashboardPage.mentions_sample_load_data t = false)).

End Observe.

Import Observe.

(** ** Concrete pages used in examples *)

Module Fixtures.

(** What a page answers to an action on an element that it does not have:
    the call gives up when its time is over. *)
Definition no_such_element (e : event) : option string :=
  match e with
  | EvClick _ | EvFill _ _ => Some "Timeout 30000ms exceeded."
  | _ => None
  end.

(** A page on which nothing is found. *)
Definition blank : snapshot :=
  {| isVisible_at := fun _ => Got false;
     textContent_at := fun _ => Rejected "locator.textContent: Timeout exceeded";
     count_at := fun _ => Got 0%nat;
     isEnabled_at := fun _ => Rejected "locator.isEnabled: Timeout exceeded";
     inputValue_at := fun _ => Rejected "locator.inputValue: Timeout exceeded";
     dialog_on_click := fun _ => None;
     selectOption_at := fun _ _ => Some "Timeout 30000ms exceeded.";
     goto_at := fun _ => Got None;
     action_at := no_such_element |}.

(** The index tab with the two counters showing the given texts; the clear
    button asks for confirmation. *)
Definition counters (doc chunk : option string) : snapshot :=
  {| isVisible_at := fun l =>
       Got (locator_eqb l (First (Loc "#docCount"))
            || locator_eqb l (First (Loc "#chunkCount")))%bool;
     textContent_at := fun l =>
       if (locator_eqb l DashboardPage.docCount
           || locator_eqb l (First (Loc "#docCount")))%bool then Got doc
       else if (locator_eqb l DashboardPage.chunkCount
                || locator_eqb l (First (Loc "#chunkCount")))%bool then Got chunk
       else Rejected "locator.textContent: Timeout exceeded";
     count_at := fun _ => Got 0%nat;
     isEnabled_at := fun _ => Got true;
     inputValue_at := fun _ => Got "";
     dialog_on_click := fun l =>
       if locator_eqb l DashboardPage.clearButton
       then Some "Are you sure you want to clear all data?"
       else None;
     selectOption_at := fun _ _ => None;
     goto_at := fun _ => Got (Some true);
     action_at := fun _ => None |}.

(** A page with the question input and the ask button, enabled or not. *)
Definition blank_with_ask (enabled : bool) : snapshot :=
  {| isVisible_at := isVisible_at blank;
     textContent_at := textContent_at blank;
     count_at := count_at blank;
     isEnabled_at := fun _ => Got enabled;
     inputValue_at := inputValue_at blank;
     dialog_on_click := dialog_on_click blank;
     selectOption_at := selectOption_at blank;
     goto_at := goto_at blank;
     action_at := fun _ => None |}.

(** The health endpoint answers, but with a status that is not ok (a 503
    while the application starts). *)
Definition unhealthy : snapshot :=
  {| isVisible_at := isVisible_at blank;
     textContent_at := textContent_at blank;
     count_at := count_at blank;
     isEnabled_at := isEnabled_at blank;
     inputValue_at := inputValue_at blank;
     dialog_on_click := dialog_on_click blank;
     selectOption_at := selectOption_at blank;
     goto_at := fun _ => Got (Some false);
     action_at := action_at blank |}.

(** Nothing listens on the port: every navigation is refused. *)
Definition unreachable : snapshot :=
  {| isVisible_at := isVisible_at blank;
     textContent_at := textContent_at blank;
     count_at := count_at blank;
     isEnabled_at := isEnabled_at blank;
     inputValue_at := inputValue_at blank;
     dialog_on_click := dialog_on_click blank;
     selectOption_at := selectOption_at blank;
     goto_at := fun _ => Rejected "page.goto: net::ERR_CONNECTION_REFUSED";
     action_at := action_at blank |}.

(** A page on which exactly the listed selectors match a visible element. *)
Definition showing (present : list string) : snapshot :=
  {| isVisible_at := fun l =>
       Got (existsb (fun a => locator_eqb l (First (Loc a))) present);
     textContent_at := textContent_at blank;
     count_at := count_at blank;
     isEnabled_at := isEnabled_at blank;
     inputValue_at := inputValue_at blank;
     dialog_on_click := dialog_on_click blank;
     selectOption_at := selectOption_at blank;
     goto_at := goto_at blank;
     action_at := action_at blank |}.

(** The page with the model selector: selecting [broken] is rejected with
    the error detail [detail], any other model is selected and confirmed by
    the status line.  The selector is there, also after a reload. *)
Definition model_page (broken detail : string) : snapshot :=
  {| isVisible_at := fun l =>
       match l with
       | Loc sel => Got (prefix "text=/" sel)
       | First (Loc sel) => Got (prefix "select#modelSelect" sel)
       | _ => Got false
       end;
     textContent_at := fun _ => Got (Some "Model changed");
     count_at := count_at blank;
     isEnabled_at := isEnabled_at blank;
     inputValue_at := inputValue_at blank;
     dialog_on_click := dialog_on_click blank;
     selectOption_at := fun _ v => if String.eqb v broken then Some detail else None;
     goto_at := goto_at blank;
     action_at := fun _ => None |}.

Definition start (w : nat -> snapshot) : session :=
  {| world := w; clock := 0; listeners := []; trace := [] |}.

(** The counters never change. *)
Definition frozen (doc chunk : option string) : session :=
  start (fun _ => counters doc chunk).


(** A page on which the first element of each listed selector is visible
    and has the given text; nothing else is found. *)
Fixpoint text_of (l : locator) (elements : list (string * option string))
  : option (option string) :=
  match elements with
  | [] => None
  | (a, t) :: rest =>
      if locator_eqb l (First (Loc a)) then Some t else text_of l rest
  end.

Definition labelled (elements : list (string * option string)) : snapshot :=
  {| isVisible_at := fun l =>
       match text_of l elements with Some _ => Got true | None => Got false end;
     textContent_at := fun l =>
       match text_of l elements with
       | Some t => Got t
       | None => Rejected "locator.textContent: Timeout exceeded"
       end;
     count_at := fun l =>
       match l with
       | Loc a => match text_of (First l) elements with
                  | Some _ => Got 1%nat
                  | None => Got 0%nat
                  end
       | _ => Got 0%nat
       end;
     isEnabled_at := isEnabled_at blank;
     inputValue_at := inputValue_at blank;
     dialog_on_click := dialog_on_click blank;
     selectOption_at := selectOption_at blank;
     goto_at := goto_at blank;
     action_at := action_at blank |}.

(** A page with a card and two links: the card has the test id
    "sample-card" and the text "Demo"; one link has the test id "reload",
    the other the class "reload", and both have the text "Reload". *)
Definition sample_cards : snapshot :=
  labelled
    [ ("[data-testid*=" ++ dq ++ "sample" ++ dq ++ "]", Some "Demo");
      ("[data-testid*=" ++ dq ++ "load" ++ dq ++ "]", Some "Reload");
      ("[class*=" ++ dq ++ "load" ++ dq ++ "]", Some "Reload") ].

(** A page whose chat container holds the given text; the question input
    is there, the ask button is disabled and nothing else is found. *)
Definition chat_with (content : option string) : snapshot :=
  {| isVisible_at := fun l => Got (locator_eqb l ChatComponent.chatContainer);
     textContent_at := fun l =>
       if locator_eqb l ChatComponent.chatContainer then Got content
       else Rejected "locator.textContent: Timeout exceeded";
     count_at := count_at blank;
     isEnabled_at := fun _ => Got false;
     inputValue_at := inputValue_at blank;
     dialog_on_click := dialog_on_click blank;
     selectOption_at := selectOption_at blank;
     goto_at := goto_at blank;
     action_at := fun _ => None |}.

(** The application starts to answer at the given instant: before it,
    every navigation is refused. *)
Definition up_from (t0 : nat) : session :=
  start (fun t => if (t <? t0)%nat then unreachable else counters None None).

End Fixtures.

(** * Properties *)

Import DashboardPage ChatComponent.

Local Open Scope list_scope.

(** ** The JavaScript functions on examples *)

Example parseInt_12 : parseInt (Some " 12 docs") = Num 12.
Proof. reflexivity. Qed.

Example parseInt_neg : parseInt (Some "-7") = Num (-7).
Proof. reflexivity. Qed.

Example parseInt_hex : parseInt (Some "0x1f") = Num 31.
Proof. reflexivity. Qed.

Example parseInt_empty : parseInt (Some "") = NaN.
Proof. reflexivity. Qed.

Example parseInt_null : parseInt None = NaN.
Proof. reflexivity. Qed.

Example string_of_num_examples :
  string_of_num (Num 0) = "0" /\ string_of_num (Num 40) = "40"
  /\ string_of_num (Num (-3)) = "-3".
Proof. repeat split; reflexivity. Qed.

Example includes_examples :
  includes "locator.selectOption: Timeout" "locator.selectOption" = true
  /\ includes "boom" "Test timeout" = false.
Proof. split; reflexivity. Qed.

Example parseInt_not_a_number :
  map parseInt [Some "abc"; Some "n/a"; Some " "; Some "-"]
  = [NaN; NaN; NaN; NaN].
Proof. reflexivity. Qed.

(** ** Basic facts about the capability model *)

Lemma locator_eqb_refl (l : locator) : locator_eqb l l = true.
Proof.
  induction l as [x | l IH | l IH x | l IH x]; cbn;
    rewrite ?IH, ?String.eqb_refl; reflexivity.
Qed.

Lemma occurrences_log (p : event -> bool) (e : event) (s : session) :
  occurrences p (log e s) = ((if p e then 1 else 0) + occurrences p s)%nat.
Proof. unfold occurrences; cbn. destruct (p e); reflexivity. Qed.

Lemma occurrences_tick (p : event -> bool) (s : session) :
  occurrences p (tick s) = occurrences p s.
Proof. reflexivity. Qed.

(** Counting the events of a session that is given by its last calls. *)
Ltac count_events :=
  unfold clear_clicks, banner_checks, waits, reloads, clicks, isVisible_calls,
    textContent_calls, count_calls, inputValue_calls, waitFor_calls, gotos,
    docCount_passes, chunkCount_passes, docCount_reads, chunkCount_reads,
    ask_clicks, selections, accepts, refreshed in *;
  repeat (rewrite occurrences_tick in * || rewrite occurrences_log in *);
  cbn [is_click_of is_isVisible_of is_wait is_reload is_any_click
       is_any_isVisible is_any_textContent is_any_count is_any_inputValue
       is_any_waitFor is_goto is_textContent_of is_selectOption is_accept
       is_loadState is_fill] in *;
  rewrite ?locator_eqb_refl in *; cbn [Nat.add] in *.

Lemma ask_state {A} (e : event) (q : snapshot -> answer A) (s : session) :
  snd (ask e q s) = log e s.
Proof. unfold ask. destruct (q (now s)); reflexivity. Qed.

Lemma ask_value {A} (e : event) (q : snapshot -> answer A) (s : session) :
  fst (ask e q s)
  = match q (now s) with Got a => Ret a | Rejected m => Throw m end.
Proof. unfold ask. destruct (q (now s)); reflexivity. Qed.

(** An action makes its call and takes its time, whether it resolves or
    not. *)
Lemma act_run (e : event) (s : session) :
  act e s
  = (match action_at (now s) e with
     | None => Ret tt
     | Some detail => Throw (act_error e detail)
     end, tick (log e s)).
Proof. unfold act. destruct (action_at (now s) e); reflexivity. Qed.

Lemma allows_world (p : event -> bool) (s s' : session) :
  world s' = world s -> allows p s -> allows p s'.
Proof. intros Hw Hlive t e He. rewrite Hw. apply Hlive. exact He. Qed.

Lemma responsive_allows (p : event -> bool) (s : session) :
  responsive s -> allows p s.
Proof. intros Hlive t e _. apply Hlive. reflexivity. Qed.

Lemma act_calm (p : event -> bool) (e : event) (s : session) :
  allows p s -> p e = true -> act e s = (Ret tt, tick (log e s)).
Proof.
  intros Hlive He. rewrite act_run. unfold now. rewrite Hlive by exact He.
  reflexivity.
Qed.

(** The message of a rejected call names the call. *)
Lemma prefix_app (p d : string) : prefix p (p ++ d) = true.
Proof.
  induction p as [| c p IH]; cbn [append prefix]; [destruct d; reflexivity |].
  destruct (ascii_dec c c) as [_ | Hne]; [exact IH | destruct (Hne eq_refl)].
Qed.

Lemma includes_prefix (p d : string) : includes (p ++ d) p = true.
Proof.
  destruct (p ++ d)%string eqn:E; cbn [includes]; rewrite <- E, prefix_app;
    reflexivity.
Qed.

Lemma act_error_names_call (e : event) (detail : string) :
  includes (act_error e detail) (api_name e) = true.
Proof. unfold act_error. apply includes_prefix. Qed.

(** The three calls between two attempts of a poller: when they all
    resolve, the session is [refreshed]. *)
Lemma refresh_calm (waitTime : Q) (s : session) :
  allows is_refresh s ->
  (waitForTimeout waitTime ;; reload ;; waitForLoadState "networkidle")%js s
  = (Ret tt, refreshed waitTime s).
Proof.
  intros Hlive. unfold bind, waitForTimeout, reload, waitForLoadState.
  rewrite (act_calm is_refresh) by (exact Hlive || reflexivity).
  rewrite (act_calm is_refresh)
    by (reflexivity || (eapply allows_world; [| exact Hlive]; reflexivity)).
  rewrite (act_calm is_refresh)
    by (reflexivity || (eapply allows_world; [| exact Hlive]; reflexivity)).
  reflexivity.
Qed.

(** Running the actions of a computation on a page that lets them
    through; [H] is the [allows] fact of the session. *)
Ltac calm H :=
  unfold waitForTimeout, reload, waitForLoadState, fill;
  repeat (rewrite act_run; unfold now; cbn [world clock tick log];
          rewrite H by reflexivity; cbv beta iota).

(** What follows the three calls runs after them. *)
Lemma refresh_then {A} (waitTime : Q) (k : M A) (s : session) :
  (waitForTimeout waitTime ;; reload ;; waitForLoadState "networkidle" ;; k)%js s
  = ((waitForTimeout waitTime ;; reload ;; waitForLoadState "networkidle") ;; k)%js s.
Proof.
  unfold bind.
  destruct (waitForTimeout waitTime s) as [[[] | m |] s1];
    [| reflexivity | reflexivity].
  destruct (reload s1) as [[[] | m |] s2]; [| reflexivity | reflexivity].
  destruct (waitForLoadState "networkidle" s2) as [[[] | m |] s3]; reflexivity.
Qed.

(** A kind of call that is none of the three. *)
Ltac not_a_refresh :=
  let e := fresh "e" in
  let He := fresh "He" in
  intros e He; destruct e; try discriminate He; reflexivity.

(** In general each of the three may reject; the calls that follow are then
    not made. *)
Lemma refresh_any (waitTime : Q) (s : session) (r : result unit)
    (s' : session) :
  (waitForTimeout waitTime ;; reload ;; waitForLoadState "networkidle")%js s
  = (r, s') ->
  world s' = world s
  /\ (clock s < clock s')%nat
  /\ listeners s' = listeners s
  /\ (forall p, (forall e, is_refresh e = true -> p e = false) ->
        occurrences p s' = occurrences p s)
  /\ waits s' = (1 + waits s)%nat
  /\ (reloads s <= reloads s' <= 1 + reloads s)%nat
  /\ match r with
     | Ret _ => s' = refreshed waitTime s
     | Throw m => refused_by (world s) is_refresh m
     | Unfinished => False
     end.
Proof.
  unfold bind, waitForTimeout, reload, waitForLoadState. rewrite !act_run.
  unfold now. cbn [world clock tick log].
  destruct (action_at (world s (clock s)) (EvWaitForTimeout waitTime))
    as [d1 |] eqn:E1.
  { intros H. injection H as <- <-. cbn [world clock listeners tick log].
    split; [reflexivity |]. split; [lia |]. split; [reflexivity |].
    split; [intros p Hp;
            repeat (rewrite occurrences_tick || rewrite occurrences_log);
            rewrite ?Hp by reflexivity; reflexivity |].
    split; [reflexivity |]. split; [count_events; lia |].
    exists (clock s), (EvWaitForTimeout waitTime), d1. repeat split. exact E1. }
  destruct (action_at (world s (S (clock s))) EvReload) as [d2 |] eqn:E2.
  { intros H. injection H as <- <-. cbn [world clock listeners tick log].
    split; [reflexivity |]. split; [lia |]. split; [reflexivity |].
    split; [intros p Hp;
            repeat (rewrite occurrences_tick || rewrite occurrences_log);
            rewrite ?Hp by reflexivity; reflexivity |].
    split; [reflexivity |]. split; [count_events; lia |].
    exists (S (clock s)), EvReload, d2. repeat split. exact E2. }
  destruct (action_at (world s (S (S (clock s)))) (EvWaitForLoadState "networkidle"))
    as [d3 |] eqn:E3.
  { intros H. injection H as <- <-. cbn [world clock listeners tick log].
    split; [reflexivity |]. split; [lia |]. split; [reflexivity |].
    split; [intros p Hp;
            repeat (rewrite occurrences_tick || rewrite occurrences_log);
            rewrite ?Hp by reflexivity; reflexivity |].
    split; [reflexivity |]. split; [count_events; lia |].
    exists (S (S (clock s))), (EvWaitForLoadState "networkidle"), d3.
    repeat split. exact E3. }
  intros H. injection H as <- <-. cbn [world clock listeners tick log].
  split; [reflexivity |]. split; [lia |]. split; [reflexivity |].
  split; [intros p Hp; unfold refreshed;
          repeat (rewrite occurrences_tick || rewrite occurrences_log);
          rewrite ?Hp by reflexivity; reflexivity |].
  split; [reflexivity |]. split; [count_events; lia |].
  reflexivity.
Qed.

(** Handlers only add accept events. *)
Lemma raise_dialog_listeners (message : string) (hs : list dialog_handler)
    (s : session) :
  let s' := fold_left (fun s0 h => run_handler message h s0) hs s in
  world s' = world s /\ clock s' = clock s /\ listeners s' = listeners s
  /\ forall p, (forall m, p (EvDialogAccept m) = false) ->
               occurrences p s' = occurrences p s.
Proof.
  revert s. induction hs as [| h hs IH]; intros s; cbn.
  - repeat split; reflexivity.
  - destruct h; cbn.
    destruct (IH (log (EvDialogAccept message) s)) as (Hw & Hc & Hl & Hp).
    repeat split; try assumption.
    intros p Hacc. rewrite (Hp p Hacc), occurrences_log, Hacc. reflexivity.
Qed.

Lemma raise_dialog_accepts (message : string) (hs : list dialog_handler)
    (s : session) :
  accepts (fold_left (fun s0 h => run_handler message h s0) hs s)
  = (List.length hs + accepts s)%nat.
Proof.
  revert s. induction hs as [| h hs IH]; intros s; cbn.
  - reflexivity.
  - destruct h; cbn. rewrite IH. unfold accepts. rewrite occurrences_log. cbn. lia.
Qed.

(** ** getDocumentCount and getChunkCount (C9) *)

Lemma getDocumentCount_run (s : session) :
  getDocumentCount s
  = (match textContent_at (now s) docCount with
     | Got text => Ret (or_else (parseInt text) (Num 0))
     | Rejected m => Throw m
     end, log (EvTextContent docCount) s).
Proof.
  unfold getDocumentCount, bind, textContent, ask.
  destruct (textContent_at (now s) docCount); reflexivity.
Qed.

Lemma getChunkCount_run (s : session) :
  getChunkCount s
  = (match textContent_at (now s) chunkCount with
     | Got text => Ret (or_else (parseInt text) (Num 0))
     | Rejected m => Throw m
     end, log (EvTextContent chunkCount) s).
Proof.
  unfold getChunkCount, bind, textContent, ask.
  destruct (textContent_at (now s) chunkCount); reflexivity.
Qed.

Lemma or_zero_cases (n : jsnum) :
  or_else n (Num 0) = match n with Num z => Num z | NaN => Num 0 end.
Proof.
  destruct n as [z |]; unfold or_else, truthy; [| reflexivity].
  destruct (Z.eqb_spec z 0) as [-> | _]; reflexivity.
Qed.

(** C9. Whatever text the counter elements hold (a string, possibly empty or
    not a number, or null), getDocumentCount and getChunkCount resolve with a
    number: the integer that parseInt reads from the text when there is one,
    and 0 when parseInt gives NaN.  They never resolve with NaN and never
    reject. *)
Theorem counts_are_numbers (s : session) (docText chunkText : option string)
    (Hdoc : textContent_at (now s) docCount = Got docText)
    (Hchunk : textContent_at (now s) chunkCount = Got chunkText) :
  fst (getDocumentCount s)
  = Ret (match parseInt docText with Num z => Num z | NaN => Num 0 end)
  /\ fst (getChunkCount s)
     = Ret (match parseInt chunkText with Num z => Num z | NaN => Num 0 end).
Proof.
  rewrite getDocumentCount_run, getChunkCount_run, Hdoc, Hchunk; cbn [fst].
  rewrite !or_zero_cases. split; reflexivity.
Qed.

Lemma counts_are_numbers_witness :
  fst (getDocumentCount (Fixtures.frozen (Some "12 documents") None)) = Ret (Num 12)
  /\ fst (getChunkCount (Fixtures.frozen (Some "12 documents") None)) = Ret (Num 0).
Proof.
  exact (counts_are_numbers (Fixtures.frozen (Some "12 documents") None)
           (Some "12 documents") None eq_refl eq_refl).
Defined.

Example getDocumentCount_on_texts :
  map (fun t => fst (getDocumentCount (Fixtures.frozen t None)))
      [Some "7"; Some ""; Some "n/a"; Some "0"; Some "-0"; None]
  = [Ret (Num 7); Ret (Num 0); Ret (Num 0); Ret (Num 0); Ret (Num 0); Ret (Num 0)].
Proof. reflexivity. Qed.

(** ** clickAskButton and askQuestion (C10) *)

Lemma click_run (l : locator) (s : session) :
  let r := click l s in
  fst r = match action_at (now s) (EvClick l) with
          | None => Ret tt
          | Some detail => Throw (act_error (EvClick l) detail)
          end
  /\ world (snd r) = world s /\ clock (snd r) = S (clock s)
  /\ forall p, (forall m, p (EvDialogAccept m) = false) ->
       occurrences p (snd r)
       = ((if p (EvClick l) then 1 else 0) + occurrences p s)%nat.
Proof.
  unfold click; cbv zeta.
  destruct (action_at (now s) (EvClick l)) as [detail |]; cbn [fst snd].
  { split; [reflexivity |]. split; [reflexivity |]. split; [reflexivity |].
    intros p _. rewrite occurrences_tick, occurrences_log. reflexivity. }
  destruct (dialog_on_click (now s) l) as [message |]; cbn [fst snd].
  - unfold raise_dialog.
    destruct (raise_dialog_listeners message (listeners (log (EvClick l) s))
                (log (EvClick l) s)) as (Hw & Hc & _ & Hp).
    split; [reflexivity |]. split; [exact Hw |]. split.
    + cbn [tick clock]. rewrite Hc. reflexivity.
    + intros p Hacc. rewrite occurrences_tick, (Hp p Hacc), occurrences_log.
      reflexivity.
  - split; [reflexivity |]. split; [reflexivity |]. split; [reflexivity |].
    intros p _. rewrite occurrences_tick, occurrences_log. reflexivity.
Qed.

Lemma clickAskButton_run (s : session) (enabled : bool)
    (H : isEnabled_at (now s) askButton = Got enabled)
    (Hclick : enabled = true -> action_at (now s) (EvClick askButton) = None) :
  fst (clickAskButton s) = Ret enabled
  /\ ask_clicks (snd (clickAskButton s))
     = ((if enabled then 1 else 0) + ask_clicks s)%nat.
Proof.
  pose proof (click_run askButton (log (EvIsEnabled askButton) s)) as Hc.
  cbv zeta in Hc. destruct Hc as (Hr & _ & _ & Hp).
  specialize (Hp (is_click_of askButton) (fun _ => eq_refl)).
  rewrite occurrences_log in Hp.
  unfold clickAskButton, bind, isEnabled, ask. rewrite H.
  destruct enabled; cbn [negb].
  - change (now (log (EvIsEnabled askButton) s)) with (now s) in Hr.
    rewrite (Hclick eq_refl) in Hr.
    destruct (click askButton (log (EvIsEnabled askButton) s)) as [r s'].
    cbn [fst snd] in Hr, Hp. subst r. cbn [fst snd ret].
    split; [reflexivity |]. exact Hp.
  - cbn [fst snd ret]. split; [reflexivity |]. unfold ask_clicks.
    rewrite occurrences_log. reflexivity.
Qed.

(** C10. clickAskButton clicks the ask button exactly when isEnabled answers
    true, and returns that answer: true after the click, false with no click
    and no error when the button is disabled.  askQuestion, after waiting and
    filling the question, returns the boolean of its clickAskButton call.
    (A click that is made is taken to go through, and so are the wait, the
    pause and the fill of askQuestion.) *)
Theorem ask_button_guard (s s0 : session) (question : string)
    (enabled enabled0 : bool)
    (H : isEnabled_at (now s) askButton = Got enabled)
    (H0 : isEnabled_at (world s0 (3 + clock s0)%nat) askButton = Got enabled0)
    (Hclick : enabled = true -> action_at (now s) (EvClick askButton) = None)
    (Hlive0 : responsive s0) :
  (fst (clickAskButton s) = Ret enabled
   /\ ask_clicks (snd (clickAskButton s))
      = ((if enabled then 1 else 0) + ask_clicks s)%nat)
  /\ (fst (askQuestion question s0) = Ret enabled0
      /\ ask_clicks (snd (askQuestion question s0))
         = ((if enabled0 then 1 else 0) + ask_clicks s0)%nat).
Proof.
  split; [exact (clickAskButton_run s enabled H Hclick) |].
  set (s3 := tick (log (EvFill questionInput question)
               (tick (log (EvWaitForTimeout 2000)
                  (tick (log (EvWaitForLoadState "networkidle") s0)))))).
  assert (E : askQuestion question s0
              = (match fst (clickAskButton s3) with
                 | Ret b => Ret b | Throw m => Throw m | Unfinished => Unfinished
                 end, snd (clickAskButton s3))).
  { unfold askQuestion, bind, fillQuestion, fill, waitForLoadState,
      waitForTimeout.
    rewrite (act_calm (fun _ => true)) by (exact Hlive0 || reflexivity).
    rewrite (act_calm (fun _ => true))
      by (reflexivity || (eapply allows_world; [| exact Hlive0]; reflexivity)).
    rewrite (act_calm (fun _ => true))
      by (reflexivity || (eapply allows_world; [| exact Hlive0]; reflexivity)).
    fold s3. unfold ret.
    destruct (clickAskButton s3) as [[b | m |] s']; reflexivity. }
  destruct (clickAskButton_run s3 enabled0 H0 (fun _ => Hlive0 _ _ eq_refl))
    as (Hr & Hn).
  rewrite E, Hr; cbn [fst snd]. split; [reflexivity |].
  rewrite Hn. reflexivity.
Qed.

Lemma ask_button_guard_witness :
  (fst (clickAskButton (Fixtures.start (fun _ => Fixtures.blank_with_ask false)))
     = Ret false
   /\ ask_clicks (snd (clickAskButton
                         (Fixtures.start (fun _ => Fixtures.blank_with_ask false))))
      = 0%nat)
  /\ (fst (askQuestion "What is the main topic?"
             (Fixtures.start (fun _ => Fixtures.blank_with_ask true))) = Ret true
      /\ ask_clicks (snd (askQuestion "What is the main topic?"
                            (Fixtures.start (fun _ => Fixtures.blank_with_ask true))))
         = 1%nat).
Proof.
  exact (ask_button_guard
           (Fixtures.start (fun _ => Fixtures.blank_with_ask false))
           (Fixtures.start (fun _ => Fixtures.blank_with_ask true))
           "What is the main topic?" false true eq_refl eq_refl
           (fun _ => eq_refl) (fun _ _ _ => eq_refl)).
Defined.

(** ** The delays of the readiness loop (C4) *)

Import GlobalSetup.

Lemma next_delay_bounds (d : Q) :
  (0 < d)%Q -> (d <= 15000)%Q ->
  (0 < next_delay d)%Q /\ (d <= next_delay d)%Q /\ (next_delay d <= 15000)%Q.
Proof.
  intros Hpos Hcap. unfold next_delay.
  assert (Hgrow : (d <= d * 1.5)%Q) by lra.
  split; [| split].
  - apply Q.min_glb_lt; lra.
  - apply Q.min_glb; assumption.
  - apply Q.le_min_r.
Qed.

Lemma delay_after_range (n : nat) :
  (0 < delay_after n)%Q /\ (delay_after n <= 15000)%Q.
Proof.
  induction n as [| n [IHpos IHcap]]; cbn [delay_after].
  - unfold initialDelay. split; lra.
  - destruct (next_delay_bounds _ IHpos IHcap) as (H1 & _ & H3). split; assumption.
Qed.

(** C4. The delays 2500, min(2500 * 1.5, 15000), ... of the readiness loop
    never decrease and never exceed 15000. *)
Theorem delay_sequence_monotone_and_capped (n : nat) :
  (delay_after 0 == 2500)%Q
  /\ (delay_after (S n) == Qmin (delay_after n * 1.5) 15000)%Q
  /\ (delay_after n <= delay_after (S n))%Q
  /\ (delay_after n <= 15000)%Q.
Proof.
  destruct (delay_after_range n) as [Hpos Hcap].
  destruct (next_delay_bounds _ Hpos Hcap) as (_ & Hmono & _).
  repeat split; try reflexivity; assumption.
Qed.

(** 16875/2 = 8437.5 and 50625/4 = 12656.25. *)
Example first_delays :
  map (fun n => Qred (delay_after n)) (seq 0 7)
  = [2500; 3750; 5625; 16875 # 2; 50625 # 4; 15000; 15000]%Q.
Proof. vm_compute. reflexivity. Qed.

(** ** The readiness loop of the global setup (C2) *)

Lemma waitForApplication_rejected (fuel : nat) (retries : Z) (delay : Q)
    (s : session) (m : string)
    (Hlt : retries < maxRetries)
    (Hrej : goto_at (now s) healthUrl = Rejected m)
    (Hlive : allows is_wait s) :
  globalSetup_loop (S fuel) retries delay s
  = globalSetup_loop fuel (retries + 1) (next_delay delay)
      (tick (log (EvWaitForTimeout delay) (tick (log (EvGoto healthUrl) s)))).
Proof.
  cbn [globalSetup_loop].
  apply Z.ltb_lt in Hlt. rewrite Hlt.
  unfold bind, try_catch, goto, waitForTimeout. rewrite Hrej.
  rewrite (act_calm is_wait)
    by (reflexivity || (eapply allows_world; [| exact Hlive]; reflexivity)).
  reflexivity.
Qed.

Lemma waitForApplication_not_ok (fuel : nat) (retries : Z) (delay : Q)
    (s : session) (r : option bool)
    (Hlt : retries < maxRetries)
    (Hgot : goto_at (now s) healthUrl = Got r) (Hr : r <> Some true) :
  globalSetup_loop (S fuel) retries delay s
  = globalSetup_loop fuel retries delay (tick (log (EvGoto healthUrl) s)).
Proof.
  cbn [globalSetup_loop].
  apply Z.ltb_lt in Hlt. rewrite Hlt.
  unfold bind, try_catch, goto. rewrite Hgot.
  destruct r as [[|] |]; [congruence | reflexivity | reflexivity].
Qed.

(** When every probe is refused, the loop probes and sleeps once per retry
    and leaves with the budget used up. *)
Lemma waitForApplication_all_rejected (n fuel : nat) (retries : Z) (delay : Q)
    (s : session)
    (Hrej : forall t, exists m, goto_at (world s t) healthUrl = Rejected m)
    (Hlive : allows is_wait s)
    (Hn : retries + Z.of_nat n = maxRetries) (Hfuel : (n <= fuel)%nat) :
  exists s' delay',
    globalSetup_loop fuel retries delay s = (Ret (maxRetries, delay'), s')
    /\ gotos s' = (n + gotos s)%nat /\ waits s' = (n + waits s)%nat.
Proof.
  revert fuel retries delay s Hrej Hlive Hn Hfuel.
  induction n as [| n IH]; intros fuel retries delay s Hrej Hlive Hn Hfuel.
  - assert (retries = maxRetries) by lia. subst retries.
    exists s, delay. split; [| split; reflexivity].
    destruct fuel; cbn [globalSetup_loop]; rewrite Z.ltb_irrefl; reflexivity.
  - destruct fuel as [| fuel]; [lia |].
    destruct (Hrej (clock s)) as [m Hm].
    rewrite (waitForApplication_rejected fuel retries delay s m);
      [| lia | exact Hm | exact Hlive].
    set (s1 := tick (log (EvWaitForTimeout delay) (tick (log (EvGoto healthUrl) s)))).
    destruct (IH fuel (retries + 1) (next_delay delay) s1) as (s' & d' & E & Hg & Hw);
      [exact Hrej | exact Hlive | lia | lia |].
    exists s', d'. split; [exact E |]. rewrite Hg, Hw. subst s1.
    unfold gotos, waits.
    rewrite !occurrences_tick, !occurrences_log, !occurrences_tick, !occurrences_log.
    cbn. split; lia.
Qed.

(** The part of the claim that the code meets: a probe that always raises
    an error is tried 12 times, with a sleep after each failure, and the
    setup then fails. *)
Lemma globalSetup_gives_up_when_refused (fuel : nat) (s : session)
    (Hrej : forall t, exists m, goto_at (world s t) healthUrl = Rejected m)
    (Hlive : allows is_wait s)
    (Hfuel : (12 <= fuel)%nat) :
  fst (globalSetup_ready fuel s)
  = Throw "❌ Application failed to start within timeout period"
  /\ gotos (snd (globalSetup_ready fuel s)) = (12 + gotos s)%nat
  /\ waits (snd (globalSetup_ready fuel s)) = (12 + waits s)%nat.
Proof.
  destruct (waitForApplication_all_rejected 12 fuel 0 initialDelay s Hrej Hlive)
    as (s' & d' & E & Hg & Hw); [reflexivity | exact Hfuel |].
  unfold globalSetup_ready, bind. rewrite E. cbn. auto.
Qed.

Lemma globalSetup_gives_up_when_refused_witness :
  fst (globalSetup_ready 12 (Fixtures.start (fun _ => Fixtures.unreachable)))
  = Throw "❌ Application failed to start within timeout period"
  /\ gotos (snd (globalSetup_ready 12 (Fixtures.start (fun _ => Fixtures.unreachable))))
     = 12%nat
  /\ waits (snd (globalSetup_ready 12 (Fixtures.start (fun _ => Fixtures.unreachable))))
     = 12%nat.
Proof.
  apply (globalSetup_gives_up_when_refused 12
           (Fixtures.start (fun _ => Fixtures.unreachable))).
  - intros t. eexists. reflexivity.
  - intros t e He. destruct e; try discriminate He. reflexivity.
  - apply le_n.
Defined.

Example refused_delays :
  map Qred (wait_delays
              (snd (globalSetup_ready 12 (Fixtures.start (fun _ => Fixtures.unreachable)))))
  = map (fun n => Qred (delay_after n)) (seq 0 12).
Proof. vm_compute. reflexivity. Qed.

(** A response that is not ok, or no response at all, changes neither the
    retry counter nor the delay: the loop goes round as long as it is let. *)
Lemma waitForApplication_spins (fuel : nat) (retries : Z) (delay : Q)
    (s : session)
    (Hnot : forall t, exists r, goto_at (world s t) healthUrl = Got r /\ r <> Some true)
    (Hlt : retries < maxRetries) :
  exists s',
    globalSetup_loop fuel retries delay s = (Unfinished, s')
    /\ gotos s' = (fuel + gotos s)%nat /\ waits s' = waits s.
Proof.
  revert s Hnot. induction fuel as [| fuel IH]; intros s Hnot.
  - exists s. cbn [globalSetup_loop]. apply Z.ltb_lt in Hlt. rewrite Hlt.
    repeat split; reflexivity.
  - destruct (Hnot (clock s)) as (r & Hgot & Hr).
    rewrite (waitForApplication_not_ok fuel retries delay s r Hlt Hgot Hr).
    destruct (IH (tick (log (EvGoto healthUrl) s)) Hnot) as (s' & E & Hg & Hw).
    exists s'. split; [exact E |]. rewrite Hg, Hw. unfold gotos, waits.
    rewrite !occurrences_tick, !occurrences_log. cbn. split; lia.
Qed.

(** C2, at the failing input: the health endpoint answers every probe with
    a response that is not ok.  However many iterations the loop is given,
    it has not ended: it has probed once per iteration, never slept and
    never reached the throw. *)
Theorem readiness_loop_spins_on_not_ok (fuel : nat) :
  let run := globalSetup_ready fuel (Fixtures.start (fun _ => Fixtures.unhealthy)) in
  fst run = Unfinished /\ gotos (snd run) = fuel /\ waits (snd run) = 0%nat.
Proof.
  destruct (waitForApplication_spins fuel 0 initialDelay
              (Fixtures.start (fun _ => Fixtures.unhealthy)))
    as (s' & E & Hg & Hw).
  - intros t. exists (Some false). split; [reflexivity | discriminate].
  - reflexivity.
  - cbv zeta. unfold globalSetup_ready, bind. rewrite E. cbn [fst snd].
    rewrite Hg, Hw. cbn. repeat split; lia.
Qed.

(** ** Selector fallback chains (C5) *)

Lemma history_log (e : event) (s : session) :
  history (log e s) = history s ++ [e].
Proof. reflexivity. Qed.

Lemma getAssistantAnswer_over_first (w : snapshot) (pre post : list string)
    (b : string)
    (Hpre : Forall (fun a => isVisible_at w (First (Loc a)) <> Got true) pre)
    (Hb : isVisible_at w (First (Loc b)) = Got true) (s : session) :
  now s = w ->
  fst (getAssistantAnswer_over (pre ++ b :: post) s) = Ret (Some (First (Loc b)))
  /\ history (snd (getAssistantAnswer_over (pre ++ b :: post) s))
     = history s ++ visibility_checks (pre ++ [b]).
Proof.
  revert s. induction Hpre as [| a pre Ha _ IH]; intros s Hs.
  - cbn [app getAssistantAnswer_over].
    unfold bind, try_catch, isVisible, ask. rewrite Hs, Hb. cbn. auto.
  - cbn [app getAssistantAnswer_over].
    destruct (IH (log (EvIsVisible (First (Loc a))) s) Hs) as [Hr Hh].
    unfold bind, try_catch, isVisible, ask. rewrite Hs.
    destruct (isVisible_at w (First (Loc a))) as [[|] | m]; [congruence | |];
      cbn [ret]; (split; [exact Hr |]); rewrite Hh, history_log, <- app_assoc;
      reflexivity.
Qed.

Lemma loadSampleData_strategy1_first (w : snapshot) (pre post : list string) (b : string)
    (Hpre : Forall (fun a => isVisible_at w (First (Loc a)) = Got false) pre)
    (Hb : isVisible_at w (First (Loc b)) = Got true) (s : session) :
  now s = w ->
  fst (loadSampleData_strategy1 (pre ++ b :: post) s) = Ret (Some (First (Loc b)))
  /\ history (snd (loadSampleData_strategy1 (pre ++ b :: post) s))
     = history s ++ visibility_checks (pre ++ [b]).
Proof.
  revert s. induction Hpre as [| a pre Ha _ IH]; intros s Hs.
  - cbn [app loadSampleData_strategy1].
    unfold bind, isVisible, ask. rewrite Hs, Hb. cbn. auto.
  - cbn [app loadSampleData_strategy1].
    destruct (IH (log (EvIsVisible (First (Loc a))) s) Hs) as [Hr Hh].
    unfold bind, isVisible, ask. rewrite Hs, Ha.
    split; [exact Hr |]. rewrite Hh, history_log, <- app_assoc. reflexivity.
Qed.

Lemma loadSampleData_strategy1_all_hidden (w : snapshot)
    (selectors : list string)
    (Hhidden : Forall (fun a => isVisible_at w (First (Loc a)) = Got false)
                 selectors) :
  forall s : session,
    now s = w ->
    exists s',
      loadSampleData_strategy1 selectors s = (Ret None, s')
      /\ world s' = world s /\ clock s' = clock s /\ clicks s' = clicks s
      /\ isVisible_calls s' = (List.length selectors + isVisible_calls s)%nat.
Proof.
  induction Hhidden as [| a rest Ha _ IH]; intros s Hs.
  - exists s. repeat split.
  - cbn [loadSampleData_strategy1]. unfold bind, isVisible, ask.
    rewrite Hs, Ha.
    destruct (IH (log (EvIsVisible (First (Loc a))) s) Hs)
      as (s' & E & Hw & Hc & Hk & Hv).
    exists s'. split; [exact E |]. rewrite Hw, Hc, Hk, Hv.
    count_events. cbn [List.length]. repeat split; lia.
Qed.

Lemma mentions_nothing_in_empty : mentions_sample_load_data "" = false.
Proof. reflexivity. Qed.

Lemma loadSampleData_strategy2_first (w : snapshot) (pre post : list string)
    (b t : string)
    (Hpre : Forall (passed_over w) pre)
    (Hb : isVisible_at w (First (Loc b)) = Got true)
    (Ht : textContent_at w (First (Loc b)) = Got (Some t))
    (Hmentions : mentions_sample_load_data t = true) (s : session) :
  now s = w ->
  exists s',
    loadSampleData_strategy2 (pre ++ b :: post) s = (Ret (Some (First (Loc b))), s')
    /\ isVisible_calls s' = (List.length pre + 1 + isVisible_calls s)%nat.
Proof.
  revert s. induction Hpre as [| a pre Ha _ IH]; intros s Hs.
  - cbn [app loadSampleData_strategy2].
    unfold bind, isVisible, textContent, ask. rewrite Hs, Hb.
    unfold now in *. cbn [log world clock]. rewrite Hs, Ht.
    assert (Hne : String.eqb t "" = false).
    { destruct (String.eqb_spec t ""%string) as [-> | _]; [| reflexivity].
      rewrite mentions_nothing_in_empty in Hmentions. discriminate. }
    rewrite Hne, Hmentions. cbn [negb andb ret]. eexists. split; [reflexivity |].
    count_events. cbn [List.length]. lia.
  - cbn [app loadSampleData_strategy2].
    unfold bind at 1. unfold isVisible at 1. unfold ask at 1. rewrite Hs.
    destruct Ha as [Hhid | [Hvis Htext]].
    + rewrite Hhid.
      destruct (IH (log (EvIsVisible (First (Loc a))) s) Hs) as (s' & E & Hv).
      exists s'. split; [exact E |]. rewrite Hv. count_events.
      cbn [List.length]. lia.
    + rewrite Hvis. unfold bind at 1. unfold textContent at 1. unfold ask at 1.
      unfold now in *. cbn [log world clock]. rewrite Hs.
      set (s1 := log (EvTextContent (First (Loc a)))
                   (log (EvIsVisible (First (Loc a))) s)).
      destruct (IH s1 Hs) as (s' & E & Hv).
      assert (Hv1 : isVisible_calls s1 = (1 + isVisible_calls s)%nat) by reflexivity.
      destruct Htext as [Hnull | (t' & Ht' & Hno)].
      * rewrite Hnull. exists s'. split; [exact E |]. rewrite Hv, Hv1.
        cbn [List.length]. lia.
      * rewrite Ht', Hno. rewrite andb_false_r.
        exists s'. split; [exact E |]. rewrite Hv, Hv1. cbn [List.length]. lia.
Qed.

(** C5, as the code has it.  A chain returns the first candidate that it
    accepts and evaluates none of those after it, whether they would match or
    not.  The chain of getAssistantAnswer and the first chain of
    loadSampleData accept a candidate that is visible.  The second chain of
    loadSampleData, which runs when the first found nothing, accepts a
    candidate that is visible and whose text mentions sample, load or data:
    a visible candidate with another text is passed over like a hidden one,
    so the first visible candidate need not be the result. *)
Theorem first_accepted_candidate_wins
    (s : session) (pre post : list string) (b : string)
    (s1 : session) (pre1 post1 : list string) (b1 : string)
    (s2 : session) (pre2 post2 : list string) (b2 text2 : string)
    (Hsplit : getAssistantAnswer_selectors = pre ++ b :: post)
    (Hpre : Forall (fun a => isVisible_at (now s) (First (Loc a)) <> Got true) pre)
    (Hb : isVisible_at (now s) (First (Loc b)) = Got true)
    (Hsplit1 : exactMatches = pre1 ++ b1 :: post1)
    (Hpre1 : Forall (fun a => isVisible_at (now s1) (First (Loc a)) = Got false)
               pre1)
    (Hb1 : isVisible_at (now s1) (First (Loc b1)) = Got true)
    (Hexact2 : Forall (fun a => isVisible_at (now s2) (First (Loc a)) = Got false)
                 exactMatches)
    (Hsplit2 : buttonSelectors = pre2 ++ b2 :: post2)
    (Hpre2 : Forall (passed_over (now s2)) pre2)
    (Hb2 : isVisible_at (now s2) (First (Loc b2)) = Got true)
    (Htext2 : textContent_at (now s2) (First (Loc b2)) = Got (Some text2))
    (Hmentions2 : mentions_sample_load_data text2 = true) :
  (fst (getAssistantAnswer s) = Ret (Some (First (Loc b)))
   /\ history (snd (getAssistantAnswer s))
      = history s ++ visibility_checks (pre ++ [b]))
  /\ (fst (loadSampleData_button s1) = Ret (First (Loc b1))
      /\ history (snd (loadSampleData_button s1))
         = history s1 ++ visibility_checks (pre1 ++ [b1]))
  /\ (fst (loadSampleData_button s2) = Ret (First (Loc b2))
      /\ isVisible_calls (snd (loadSampleData_button s2))
         = (List.length exactMatches + (List.length pre2 + 1)
            + isVisible_calls s2)%nat).
Proof.
  split; [| split].
  - unfold getAssistantAnswer. rewrite Hsplit.
    apply (getAssistantAnswer_over_first (now s)); [exact Hpre | exact Hb |].
    reflexivity.
  - destruct (loadSampleData_strategy1_first (now s1) pre1 post1 b1 Hpre1 Hb1 s1
                eq_refl) as [Hr Hh].
    unfold loadSampleData_button. rewrite Hsplit1. unfold bind.
    destruct (loadSampleData_strategy1 (pre1 ++ b1 :: post1) s1) as [r s'].
    cbn [fst snd] in Hr, Hh. subst r. cbn [ret fst snd].
    split; [reflexivity | exact Hh].
  - destruct (loadSampleData_strategy1_all_hidden _ exactMatches Hexact2 s2
                eq_refl) as (s' & E & Hw & Hc & _ & Hv).
    assert (Hnow : now s' = now s2) by (unfold now; rewrite Hw, Hc; reflexivity).
    destruct (loadSampleData_strategy2_first (now s2) pre2 post2 b2 text2 Hpre2
                Hb2 Htext2 Hmentions2 s' Hnow) as (s'' & E2 & Hv2).
    unfold loadSampleData_button. unfold bind. rewrite E.
    rewrite Hsplit2, E2. cbn [ret fst snd].
    split; [reflexivity |]. rewrite Hv2, Hv. lia.
Qed.

(** The answer is found by the second of three selectors, the button by the
    second exact match, and, on another page, by the fifth selector of the
    second chain: the fourth is visible too, but its text is "Demo". *)
Lemma first_accepted_candidate_wins_witness :
  (fst (getAssistantAnswer
          (Fixtures.start
             (fun _ => Fixtures.showing [".message.assistant p:first-of-type";
                                         ".bubble.assistant p:first-of-type"])))
   = Ret (Some (First (Loc ".message.assistant p:first-of-type")))
   /\ history (snd (getAssistantAnswer
                      (Fixtures.start
                         (fun _ => Fixtures.showing
                                     [".message.assistant p:first-of-type";
                                      ".bubble.assistant p:first-of-type"]))))
      = history (Fixtures.start
                   (fun _ => Fixtures.showing
                               [".message.assistant p:first-of-type";
                                ".bubble.assistant p:first-of-type"]))
        ++ visibility_checks ([".assistant p:first-of-type"]
                              ++ [".message.assistant p:first-of-type"]))
  /\ (fst (loadSampleData_button
             (Fixtures.start
                (fun _ => Fixtures.showing ["text=/sample data/i";
                                            "text=/load.*sample/i"])))
      = Ret (First (Loc "text=/sample data/i"))
      /\ history (snd (loadSampleData_button
                         (Fixtures.start
                            (fun _ => Fixtures.showing ["text=/sample data/i";
                                                        "text=/load.*sample/i"]))))
         = history (Fixtures.start
                      (fun _ => Fixtures.showing ["text=/sample data/i";
                                                  "text=/load.*sample/i"]))
           ++ visibility_checks (["text=/load sample data/i"]
                                 ++ ["text=/sample data/i"]))
  /\ (fst (loadSampleData_button (Fixtures.start (fun _ => Fixtures.sample_cards)))
      = Ret (First (Loc ("[data-testid*=" ++ dq ++ "load" ++ dq ++ "]")))
      /\ isVisible_calls
           (snd (loadSampleData_button
                   (Fixtures.start (fun _ => Fixtures.sample_cards))))
         = (List.length exactMatches
            + (List.length [ ("button:has-text(" ++ dq ++ "Load" ++ dq ++ ")")%string;
                             ("button:has-text(" ++ dq ++ "Sample" ++ dq ++ ")")%string;
                             ("button:has-text(" ++ dq ++ "Data" ++ dq ++ ")")%string;
                             ("[data-testid*=" ++ dq ++ "sample" ++ dq ++ "]")%string ]
               + 1)
            + isVisible_calls (Fixtures.start (fun _ => Fixtures.sample_cards)))%nat).
Proof.
  refine (first_accepted_candidate_wins
            (Fixtures.start
               (fun _ => Fixtures.showing [".message.assistant p:first-of-type";
                                           ".bubble.assistant p:first-of-type"]))
            [".assistant p:first-of-type"] [".bubble.assistant p:first-of-type"]
            ".message.assistant p:first-of-type"
            (Fixtures.start
               (fun _ => Fixtures.showing ["text=/sample data/i";
                                           "text=/load.*sample/i"]))
            ["text=/load sample data/i"]
            ["text=/load sample/i"; "text=/load.*sample/i"]
            "text=/sample data/i"
            (Fixtures.start (fun _ => Fixtures.sample_cards))
            [ ("button:has-text(" ++ dq ++ "Load" ++ dq ++ ")")%string;
              ("button:has-text(" ++ dq ++ "Sample" ++ dq ++ ")")%string;
              ("button:has-text(" ++ dq ++ "Data" ++ dq ++ ")")%string;
              ("[data-testid*=" ++ dq ++ "sample" ++ dq ++ "]")%string ]
            [ ("[class*=" ++ dq ++ "sample" ++ dq ++ "]")%string;
              ("[class*=" ++ dq ++ "load" ++ dq ++ "]")%string ]
            ("[data-testid*=" ++ dq ++ "load" ++ dq ++ "]")%string
            "Reload"
            eq_refl _ eq_refl eq_refl _ eq_refl _ eq_refl _ eq_refl eq_refl eq_refl).
  - constructor; [discriminate | constructor].
  - constructor; [reflexivity | constructor].
  - repeat (constructor; [reflexivity |]). constructor.
  - repeat (constructor; [left; reflexivity |]).
    constructor; [| constructor].
    right. split; [reflexivity |]. right. exists "Demo"%string.
    split; reflexivity.
Defined.

(** Candidates [A(absent), B(present), C(present)] for which the result is
    C.  On the page there is a card with the test id "sample-card" and the
    text "Demo", and two links with the text "Reload", one with the test id
    "reload" and one of the class "reload"; no button and nothing with the
    text "sample".  The first three selectors of the second chain of
    loadSampleData match nothing, the fourth matches the card, the fifth a
    link: the card is visible and comes first, and the link is returned. *)
Lemma visible_candidate_is_passed_over :
  let A := ("button:has-text(" ++ dq ++ "Load" ++ dq ++ ")")%string in
  let B := ("[data-testid*=" ++ dq ++ "sample" ++ dq ++ "]")%string in
  let C := ("[data-testid*=" ++ dq ++ "load" ++ dq ++ "]")%string in
  let s := Fixtures.start (fun _ => Fixtures.sample_cards) in
  (exists post, buttonSelectors = A :: nth 1 buttonSelectors A
                                   :: nth 2 buttonSelectors A :: B :: C :: post)
  /\ Forall (fun a => isVisible_at (now s) (First (Loc a)) = Got false)
       (exactMatches ++ firstn 3 buttonSelectors)
  /\ isVisible_at (now s) (First (Loc B)) = Got true
  /\ isVisible_at (now s) (First (Loc C)) = Got true
  /\ fst (loadSampleData_strategy2 buttonSelectors s) = Ret (Some (First (Loc C)))
  /\ fst (loadSampleData_button s) = Ret (First (Loc C))
  /\ First (Loc C) <> First (Loc B)
  /\ history (snd (loadSampleData_button s))
     = visibility_checks exactMatches
       ++ visibility_checks (firstn 3 buttonSelectors)
       ++ [ EvIsVisible (First (Loc B)); EvTextContent (First (Loc B));
            EvIsVisible (First (Loc C)); EvTextContent (First (Loc C)) ].
Proof.
  cbv zeta. split; [eexists; reflexivity |].
  split; [repeat (constructor; [reflexivity |]); constructor |].
  repeat (split; [reflexivity |]).
  split; [discriminate | reflexivity].
Qed.

(** On the selectors of getAssistantAnswer itself: the second and the third
    match, the second is returned. *)
Example getAssistantAnswer_second_of_three :
  let s := Fixtures.start
             (fun _ => Fixtures.showing [".message.assistant p:first-of-type";
                                         ".bubble.assistant p:first-of-type"]) in
  fst (getAssistantAnswer s)
  = Ret (Some (First (Loc ".message.assistant p:first-of-type")))
  /\ occurrences (is_isVisible_of (First (Loc ".bubble.assistant p:first-of-type")))
       (snd (getAssistantAnswer s)) = 0%nat.
Proof. split; reflexivity. Qed.

(** ** waitForDocumentCount (C1, C3) *)

Section WaitForDocumentCount.

Variables (expectedCount : jsnum) (maxAttempts : Z) (waitTime : Q).

Local Abbreviation poll fuel attempt :=
  (waitForDocumentCount_from fuel expectedCount maxAttempts waitTime attempt).

Lemma refreshed_facts (s : session) :
  world (refreshed waitTime s) = world s
  /\ clock (refreshed waitTime s) = (3 + clock s)%nat
  /\ docCount_reads (refreshed waitTime s) = docCount_reads s
  /\ docCount_passes (refreshed waitTime s) = docCount_passes s
  /\ reloads (refreshed waitTime s) = (1 + reloads s)%nat
  /\ waits (refreshed waitTime s) = (1 + waits s)%nat.
Proof. repeat split. Qed.








End WaitForDocumentCount.

(** ** waitForNonZeroDocumentCount (C1, C3) *)

Section WaitForNonZeroDocumentCount.

Variables (maxAttempts : Z) (waitTime : Q).

Local Abbreviation spin fuel value num attempts :=
  (waitForNonZeroDocumentCount_loop fuel maxAttempts waitTime value num attempts).

(** A pass over the page only queries it, and checks the element with the
    id exactly once. *)
Lemma waitForNonZeroDocumentCount_read_state (value : option string) (num : jsnum)
    (s : session) :
  let s' := snd (waitForNonZeroDocumentCount_read value num s) in
  world s' = world s /\ clock s' = clock s
  /\ docCount_passes s' = (1 + docCount_passes s)%nat
  /\ reloads s' = reloads s /\ waits s' = waits s.
Proof.
  unfold waitForNonZeroDocumentCount_read, bind, isVisible, textContent, count, ask, ret.
  repeat (cbv beta iota zeta; unfold now; cbn [log world clock fst snd];
          match goal with
          | |- context [match ?q (world s (clock s)) ?l with _ => _ end] =>
              destruct (q (world s (clock s)) l)
          | |- context [if ?b then _ else _] => destruct b
          end).
  all: cbv beta iota zeta; cbn [log world clock fst snd]; repeat split.
Qed.

Lemma spin_done (fuel : nat) (value : option string) (num : jsnum)
    (attempts : Z) (s : session)
    (Hstop : strict_eq num (Num 0) && (attempts <? maxAttempts) = false) :
  spin fuel value num attempts s = (Ret (value, num, attempts), s).
Proof.
  destruct fuel; cbn [waitForNonZeroDocumentCount_loop];
    rewrite Hstop; reflexivity.
Qed.

Lemma spin_step (fuel : nat) (value value' : option string) (num' : jsnum)
    (attempts : Z) (s : session)
    (Hin : attempts < maxAttempts)
    (Hread : fst (waitForNonZeroDocumentCount_read value (Num 0) s) = Ret (value', num'))
    (Hlive : strict_eq num' (Num 0) && (attempts + 1 <? maxAttempts) = true ->
             allows is_refresh s) :
  spin (S fuel) value (Num 0) attempts s
  = spin fuel value' num' (attempts + 1)
      (if strict_eq num' (Num 0) && (attempts + 1 <? maxAttempts)
       then refreshed waitTime (snd (waitForNonZeroDocumentCount_read value (Num 0) s))
       else snd (waitForNonZeroDocumentCount_read value (Num 0) s)).
Proof.
  cbn [waitForNonZeroDocumentCount_loop].
  apply Z.ltb_lt in Hin. rewrite Hin. cbn [strict_eq Z.eqb andb].
  unfold bind at 1.
  destruct (waitForNonZeroDocumentCount_read_state value (Num 0) s) as (Hw & _).
  destruct (waitForNonZeroDocumentCount_read value (Num 0) s) as [r s1]. cbn [fst snd] in *.
  subst r.
  destruct (strict_eq num' (Num 0) && (attempts + 1 <? maxAttempts));
    [| reflexivity].
  unfold bind at 1.
  rewrite refresh_calm
    by (eapply allows_world; [exact Hw | exact (Hlive eq_refl)]).
  reflexivity.
Qed.

(** [n] passes in a row that leave the count at 0 and are not the last one. *)
Lemma spin_zeros (n : nat) :
  forall (fuel : nat) (value : option string) (attempts : Z) (s : session),
    (n <= fuel)%nat ->
    attempts + Z.of_nat n < maxAttempts ->
    (forall (j : nat) (s' : session) (v : option string),
        (j < n)%nat -> world s' = world s -> clock s' = (clock s + 3 * j)%nat ->
        exists v', fst (waitForNonZeroDocumentCount_read v (Num 0) s') = Ret (v', Num 0)) ->
    ((0 < n)%nat -> allows is_refresh s) ->
    exists s1 value1,
      spin fuel value (Num 0) attempts s
      = spin (fuel - n) value1 (Num 0) (attempts + Z.of_nat n) s1
      /\ world s1 = world s /\ clock s1 = (clock s + 3 * n)%nat
      /\ docCount_passes s1 = (n + docCount_passes s)%nat
      /\ reloads s1 = (n + reloads s)%nat
      /\ waits s1 = (n + waits s)%nat.
Proof.
  induction n as [| n IH]; intros fuel value attempts s Hfuel Hroom Hzero Hlive.
  - exists s, value. rewrite Nat.sub_0_r, Z.add_0_r, Nat.mul_0_r, Nat.add_0_r.
    repeat split.
  - destruct fuel as [| fuel]; [lia |].
    destruct (Hzero 0%nat s value) as (v' & Hread); [lia | reflexivity | lia |].
    specialize (Hlive ltac:(lia)).
    rewrite (spin_step fuel value v' (Num 0) attempts s)
      by (assumption || lia || (intros _; exact Hlive)).
    assert (Hmore : (attempts + 1 <? maxAttempts) = true) by (apply Z.ltb_lt; lia).
    rewrite Hmore. cbn [strict_eq Z.eqb andb].
    destruct (waitForNonZeroDocumentCount_read_state value (Num 0) s) as (Hw0 & Hc0 & Hp0 & Hl0 & Hs0).
    set (s0 := refreshed waitTime (snd (waitForNonZeroDocumentCount_read value (Num 0) s))).
    destruct (IH fuel v' (attempts + 1) s0) as (s1 & v1 & E & Hw & Hc & Hp & Hl & Hs).
    + lia.
    + lia.
    + intros j s' v Hj Hw' Hc'. apply (Hzero (S j) s' v); [lia | |].
      * rewrite Hw'. subst s0. cbn [refreshed tick log world]. exact Hw0.
      * rewrite Hc'. subst s0. cbn [refreshed tick log clock]. rewrite Hc0. lia.
    + intros _. eapply allows_world; [| exact Hlive]. subst s0.
      cbn [refreshed tick log world]. exact Hw0.
    + exists s1, v1. rewrite E.
      replace (attempts + 1 + Z.of_nat n) with (attempts + Z.of_nat (S n)) by lia.
      split; [reflexivity |]. rewrite Hw, Hc, Hp, Hl, Hs. subst s0.
      destruct (refreshed_facts waitTime (snd (waitForNonZeroDocumentCount_read value (Num 0) s)))
        as (Hw2 & Hc2 & _ & Hp2 & Hl2 & Hs2).
      rewrite Hw2, Hc2, Hp2, Hl2, Hs2, Hw0, Hc0, Hp0, Hl0, Hs0. repeat split; lia.
Qed.

(** The count is non-zero at the k-th pass. *)
Lemma waitForNonZeroDocumentCount_hit (s : session) (k : nat) (c : jsnum)
    (Hk : (1 <= k)%nat) (HkN : Z.of_nat k <= maxAttempts)
    (Hzero : forall (j : nat) (s' : session) (v : option string),
        (j < k - 1)%nat -> world s' = world s ->
        clock s' = (clock s + 3 * j)%nat ->
        exists v', fst (waitForNonZeroDocumentCount_read v (Num 0) s') = Ret (v', Num 0))
    (Hhit : forall (s' : session) (v : option string),
        world s' = world s -> clock s' = (clock s + 3 * (k - 1))%nat ->
        exists v', fst (waitForNonZeroDocumentCount_read v (Num 0) s') = Ret (v', c))
    (Hc : strict_eq c (Num 0) = false)
    (Hlive : (2 <= k)%nat -> allows is_refresh s) :
  let run := waitForNonZeroDocumentCount maxAttempts waitTime s in
  fst run = Ret c
  /\ docCount_passes (snd run) = (k + docCount_passes s)%nat
  /\ reloads (snd run) = (k - 1 + reloads s)%nat
  /\ waits (snd run) = (k - 1 + waits s)%nat.
Proof.
  cbv zeta. unfold waitForNonZeroDocumentCount.
  destruct (spin_zeros (k - 1) (Z.to_nat maxAttempts) (Some "0"%string) 0 s)
    as (s1 & v1 & E & Hw & Hcl & Hp & Hl & Hs);
    [lia | lia | exact Hzero | intros Hpos; apply Hlive; lia |].
  destruct (Hhit s1 v1 Hw Hcl) as (v' & Hread).
  destruct (waitForNonZeroDocumentCount_read_state v1 (Num 0) s1) as (_ & _ & Hp1 & Hl1 & Hs1).
  unfold bind. rewrite E.
  destruct (Z.to_nat maxAttempts - (k - 1))%nat as [| fuel] eqn:Ef; [lia |].
  rewrite (spin_step fuel v1 v' c _ s1)
    by (assumption || lia || (rewrite Hc; discriminate)).
  rewrite Hc. cbn [andb].
  rewrite spin_done by (rewrite Hc; reflexivity).
  rewrite Hc. cbn [fst snd ret].
  rewrite Hp1, Hl1, Hs1, Hp, Hl, Hs. repeat split; lia.
Qed.


End WaitForNonZeroDocumentCount.

(** ** The pollers: success at the k-th read (C3) *)



(** ** The pollers: exhaustion (C1) *)




(** A counter text on which parseInt gives NaN is not [=== 0]: the loop of
    waitForNonZeroDocumentCount ends at once and NaN is returned. *)
Example waitForNonZeroDocumentCount_on_text_without_number :
  let run := waitForNonZeroDocumentCount 40 3000
               (Fixtures.frozen (Some "n/a") (Some "0")) in
  fst run = Ret NaN /\ docCount_passes (snd run) = 1%nat
  /\ reloads (snd run) = 0%nat.
Proof. repeat split. Qed.

(** ** The dialog handler of clearIndex (C6) *)

Lemma click_listeners (l : locator) (s : session) :
  listeners (snd (click l s)) = listeners s.
Proof.
  unfold click; cbv zeta.
  destruct (action_at (now s) (EvClick l)) as [detail |]; [reflexivity |].
  cbn [snd tick listeners].
  destruct (dialog_on_click (now s) l) as [message |]; [| reflexivity].
  unfold raise_dialog.
  destruct (raise_dialog_listeners message (listeners (log (EvClick l) s))
              (log (EvClick l) s)) as (_ & _ & Hl & _).
  exact Hl.
Qed.

(** A prompt gets one accept call from each registered handler. *)
Lemma click_accepts (l : locator) (s : session) (message : string)
    (Hprompt : dialog_on_click (now s) l = Some message)
    (Hclick : action_at (now s) (EvClick l) = None) :
  accepts (snd (click l s)) = (List.length (listeners s) + accepts s)%nat.
Proof.
  unfold click; cbv zeta. rewrite Hclick, Hprompt. cbn [snd].
  unfold raise_dialog, accepts at 1. rewrite occurrences_tick.
  fold (accepts (fold_left (fun s' h => run_handler message h s')
                   (listeners (log (EvClick l) s)) (log (EvClick l) s))).
  rewrite raise_dialog_accepts. unfold accepts. rewrite occurrences_log.
  reflexivity.
Qed.

Lemma clearIndex_poll_listeners (fuel : nat) (maxAttempts : Z) (interval : Q) :
  forall (found : bool) (attempts : Z) (s : session),
    listeners (snd (clearIndex_poll fuel maxAttempts interval found attempts s))
    = listeners s.
Proof.
  induction fuel as [| fuel IH]; intros found attempts s;
    cbn [clearIndex_poll];
    destruct (negb found && (attempts <? maxAttempts)); try reflexivity.
  assert (Hrest : forall s1 : session,
             listeners s1 = listeners s ->
             listeners
               (snd (((if attempts + 1 <? maxAttempts
                       then waitForTimeout interval else ret tt) ;;
                      clearIndex_poll fuel maxAttempts interval false
                        (attempts + 1))%js s1))
             = listeners s).
  { intros s1 Hs1. unfold bind.
    destruct (attempts + 1 <? maxAttempts).
    - unfold waitForTimeout. rewrite act_run.
      destruct (action_at (now s1) (EvWaitForTimeout interval));
        cbn [snd]; [exact Hs1 |]. rewrite IH. exact Hs1.
    - unfold ret. rewrite IH. exact Hs1. }
  unfold bind at 1. unfold isVisible at 1. unfold ask at 1.
  destruct (isVisible_at (now s) (First (Loc "div.status.success"))) as [[|] | m];
    try reflexivity.
  - unfold bind at 1. unfold bind at 1. unfold textContent, ask.
    cbn [now log world clock].
    destruct (textContent_at (world s (clock s)) (First (Loc "div.status.success")))
      as [[t |] | m]; try reflexivity; cbn [ret].
    + destruct (negb (t =? "")%string && includes t "All data cleared");
        [reflexivity |].
      apply Hrest. reflexivity.
    + apply Hrest. reflexivity.
  - unfold bind at 1. cbn [ret]. apply Hrest. reflexivity.
Qed.

Lemma clearIndex_registers_one (s : session) (Hlive : responsive s) :
  listeners (snd (clearIndex s)) = listeners s ++ [AcceptDialog].
Proof.
  unfold clearIndex, switchToIndexTab.
  pose proof (click_listeners indexTab s) as Hl1.
  pose proof (click_run indexTab s) as Hc1. cbv zeta in Hc1.
  destruct Hc1 as (Hr1 & Hw1 & _).
  unfold now in Hr1. rewrite (Hlive _ _ eq_refl) in Hr1.
  unfold bind at 1. unfold bind at 1.
  destruct (click indexTab s) as [r1 s1]. cbn [fst snd] in Hr1, Hl1, Hw1. subst r1.
  unfold waitForTimeout at 1.
  rewrite (act_calm (fun _ => true))
    by (reflexivity || (eapply allows_world; [exact Hw1 | exact Hlive])).
  unfold bind at 1. unfold on_dialog at 1.
  set (s2 := add_listener AcceptDialog
               (log (EvOnDialog AcceptDialog) (tick (log (EvWaitForTimeout 1000) s1)))).
  assert (Hl2 : listeners s2 = listeners s ++ [AcceptDialog])
    by (subst s2; cbn; rewrite Hl1; reflexivity).
  pose proof (click_listeners clearButton s2) as Hl3.
  unfold bind at 1.
  destruct (click clearButton s2) as [[[] | m3 |] s3]; cbn [snd] in Hl3 |- *;
    try (rewrite Hl3; exact Hl2).
  pose proof (clearIndex_poll_listeners (Z.to_nat 10) 10 300 false 0 s3) as Hl4.
  unfold bind.
  destruct (clearIndex_poll (Z.to_nat 10) 10 300 false 0 s3) as [[b | m |] s4];
    cbn [fst snd] in Hl4; cbn [snd];
    try (rewrite Hl4, Hl3; exact Hl2).
  unfold waitForTimeout. rewrite act_run. cbn [snd tick log listeners].
  rewrite Hl4, Hl3. exact Hl2.
Qed.

(** C6, as the code has it.  Every call of clearIndex adds one more
    accepting handler to the page and removes none; a prompt is delivered to
    each registered handler, so it receives as many accept calls as there are
    handlers: one after one registration, two after two.  (The page is taken
    to let the clicks and pauses of clearIndex through.) *)
Theorem dialog_handlers_accumulate (s : session) (l : locator)
    (message : string)
    (Hprompt : dialog_on_click (now s) l = Some message)
    (Hlive : responsive s) :
  listeners (snd (clearIndex s)) = listeners s ++ [AcceptDialog]
  /\ accepts (snd (click l s)) = (List.length (listeners s) + accepts s)%nat.
Proof.
  split; [apply clearIndex_registers_one; exact Hlive |].
  exact (click_accepts l s message Hprompt (Hlive _ _ eq_refl)).
Qed.

(** On a page without handlers: after clearIndex one is registered, and a
    click on the clear button of a page with one handler gives one accept. *)
Lemma dialog_handlers_accumulate_witness :
  let s := Fixtures.frozen (Some "3") (Some "9") in
  listeners (snd (clearIndex s)) = [AcceptDialog]
  /\ accepts (snd (click clearButton (add_listener AcceptDialog s))) = 1%nat.
Proof.
  split.
  - exact (proj1 (dialog_handlers_accumulate (Fixtures.frozen (Some "3") (Some "9"))
                    clearButton "Are you sure you want to clear all data?" eq_refl
                    (fun _ _ _ => eq_refl))).
  - exact (proj2 (dialog_handlers_accumulate
                    (add_listener AcceptDialog (Fixtures.frozen (Some "3") (Some "9")))
                    clearButton "Are you sure you want to clear all data?" eq_refl
                    (fun _ _ _ => eq_refl))).
Defined.

(** C6, as stated, fails: clearIndex is run twice on the same page.  Each run
    clicks the clear button once and so raises one prompt.  The prompt of the
    first run is accepted once; the prompt of the second run is accepted
    twice, once by each of the two handlers now registered. *)
Lemma second_registration_accepts_twice :
  let s0 := Fixtures.frozen (Some "3") (Some "9") in
  let s1 := snd (clearIndex s0) in
  let s2 := snd (clearIndex s1) in
  fst (clearIndex s0) = Ret tt /\ fst (clearIndex s1) = Ret tt
  /\ occurrences (is_click_of clearButton) s1 = 1%nat /\ accepts s1 = 1%nat
  /\ listeners s2 = [AcceptDialog; AcceptDialog]
  /\ occurrences (is_click_of clearButton) s2 = 2%nat /\ accepts s2 = 3%nat.
Proof. vm_compute. repeat split. Qed.

(** ** TC001: the counters after clearing (C7) *)

Lemma waitForDocumentCount_from_skips_chunks (fuel : nat) (expectedCount : jsnum)
    (maxAttempts : Z) (waitTime : Q) :
  forall (attempt : Z) (s : session),
    chunkCount_reads
      (snd (waitForDocumentCount_from fuel expectedCount maxAttempts waitTime
              attempt s))
    = chunkCount_reads s.
Proof.
  induction fuel as [| fuel IH]; intros attempt s;
    cbn [waitForDocumentCount_from];
    destruct (attempt <=? maxAttempts); try reflexivity.
  unfold bind at 1. rewrite getDocumentCount_run.
  destruct (textContent_at (now s) docCount) as [t | m]; [| reflexivity].
  destruct (strict_eq (or_else (parseInt t) (Num 0)) expectedCount);
    [reflexivity |].
  unfold bind at 1. destruct (attempt <? maxAttempts).
  - destruct ((waitForTimeout waitTime ;; reload ;;
               waitForLoadState "networkidle")%js (log (EvTextContent docCount) s))
      as [r s1] eqn:E.
    destruct (refresh_any _ _ _ _ E) as (_ & _ & _ & Hp & _).
    specialize (Hp (is_textContent_of chunkCount) ltac:(not_a_refresh)).
    destruct r as [[] | m |]; cbn [snd]; rewrite ?IH;
      unfold chunkCount_reads; rewrite Hp; reflexivity.
  - unfold ret. rewrite IH. reflexivity.
Qed.

(** Steps 5 and 6 of TC001 never read the chunk counter, whatever the page. *)
Lemma TC001_verify_counts_skips_chunks (s : session) :
  chunkCount_reads (snd (UserJourney.TC001_verify_counts s)) = chunkCount_reads s.
Proof.
  unfold UserJourney.TC001_verify_counts, waitForDocumentCount, bind.
  pose proof (waitForDocumentCount_from_skips_chunks (Z.to_nat 1) (Num 0) 1 2000 1 s)
    as H1.
  destruct (waitForDocumentCount_from (Z.to_nat 1) (Num 0) 1 2000 1 s)
    as [[c1 | m1 |] s1]; cbn [snd] in *; try exact H1.
  pose proof (waitForDocumentCount_from_skips_chunks (Z.to_nat 1) (Num 0) 1 2000 1 s1)
    as H2.
  destruct (waitForDocumentCount_from (Z.to_nat 1) (Num 0) 1 2000 1 s1)
    as [[c2 | m2 |] s2]; unfold ret; cbn [snd] in *; congruence.
Qed.

(** C7, at the failing input: after the clear the document counter shows 0
    and the chunk counter still shows 5.  TC001 passes; what it reports as
    the chunk count is the document count read a second time, and the chunk
    counter has not been read at all. *)
Theorem TC001_passes_with_chunks_left :
  let s := Fixtures.frozen (Some "0") (Some "5") in
  fst (getChunkCount s) = Ret (Num 5)
  /\ fst (UserJourney.TC001 s) = Ret (Num 0, Num 0)
  /\ docCount_reads (snd (UserJourney.TC001 s)) = 2%nat
  /\ chunkCount_reads (snd (UserJourney.TC001 s)) = 0%nat.
Proof. vm_compute. repeat split. Qed.

(** ** TC004: the errors that reach the catch block (C8) *)

Import UserJourney.

(** An error whose message names waitForTimeout or selectOption is of the
    class from which the catch block recovers. *)
Lemma named_call_is_listed (e : event) (detail : string) :
  (is_wait e || is_selectOption e)%bool = true ->
  triggers_recovery (act_error e detail) = true.
Proof.
  intros He. unfold triggers_recovery.
  pose proof (act_error_names_call e detail) as Hname.
  destruct e; try discriminate He; cbn [api_name] in Hname; rewrite Hname;
    rewrite ?orb_true_r; reflexivity.
Qed.

Lemma refused_wait_is_listed (w : nat -> snapshot) (message : string) :
  refused_by w is_wait message -> triggers_recovery message = true.
Proof.
  intros (t & e & detail & He & _ & ->). apply named_call_is_listed.
  rewrite He. reflexivity.
Qed.

(** The confirmation loop swallows the errors of its queries; the only
    error that leaves it is that of a pause between two attempts. *)
Lemma TC004_confirm_any (m : model) :
  forall (fuel : nat) (attempt : Z) (s : session) (r : result bool)
         (s' : session),
    16 - attempt <= Z.of_nat fuel ->
    TC004_confirm fuel m attempt s = (r, s') ->
    world s' = world s
    /\ (clock s <= clock s')%nat
    /\ selections s' = selections s
    /\ reloads s' = reloads s
    /\ match r with
       | Ret _ => True
       | Throw message => refused_by (world s) is_wait message
       | Unfinished => False
       end.
Proof.
  induction fuel as [| fuel IH]; intros attempt s r s' Hfuel Hrun;
    cbn [TC004_confirm] in Hrun;
    destruct (attempt <=? 15) eqn:Hin;
    try (injection Hrun as <- <-; repeat split;
         first [reflexivity | lia | exact I]).
  apply Z.leb_le in Hin.
  assert (Hnext : forall s1 : session,
             world s1 = world s -> (clock s <= clock s1)%nat ->
             selections s1 = selections s -> reloads s1 = reloads s ->
             ((if attempt <? 15 then waitForTimeout 500 else ret tt) ;;
              TC004_confirm fuel m (attempt + 1))%js s1 = (r, s') ->
             world s' = world s
             /\ (clock s <= clock s')%nat
             /\ selections s' = selections s
             /\ reloads s' = reloads s
             /\ match r with
                | Ret _ => True
                | Throw message => refused_by (world s) is_wait message
                | Unfinished => False
                end).
  { intros s1 Hw1 Hc1 Hs1 Hr1 Hrun1. unfold bind in Hrun1.
    destruct (attempt <? 15) eqn:Hmore.
    - unfold waitForTimeout in Hrun1. rewrite act_run in Hrun1.
      destruct (action_at (now s1) (EvWaitForTimeout 500)) as [detail |] eqn:Ea.
      + injection Hrun1 as <- <-. cbn [world clock tick log].
        split; [exact Hw1 |]. split; [lia |].
        split; [rewrite <- Hs1; reflexivity |].
        split; [rewrite <- Hr1; reflexivity |].
        exists (clock s1), (EvWaitForTimeout 500), detail.
        split; [reflexivity |]. split; [| reflexivity].
        rewrite <- Hw1. exact Ea.
      + destruct (IH (attempt + 1) (tick (log (EvWaitForTimeout 500) s1)) r s')
          as (Hw & Hc & Hs & Hr & Hres); [lia | exact Hrun1 |].
        cbn [world clock tick log] in Hw, Hc, Hres. rewrite Hw1 in Hw, Hres.
        split; [exact Hw |]. split; [lia |].
        split; [rewrite Hs, <- Hs1; reflexivity |].
        split; [rewrite Hr, <- Hr1; reflexivity |].
        exact Hres.
    - unfold ret in Hrun1.
      destruct (IH (attempt + 1) s1 r s') as (Hw & Hc & Hs & Hr & Hres);
        [lia | exact Hrun1 |].
      rewrite Hw1 in Hw, Hres.
      split; [exact Hw |]. split; [lia |].
      split; [congruence |]. split; [congruence |]. exact Hres. }
  unfold bind at 1 in Hrun.
  unfold try_catch, bind, waitForLoadState, isVisible, textContent, ask, ret
    in Hrun.
  rewrite act_run in Hrun. unfold now in Hrun.
  cbn [world clock tick log] in Hrun.
  destruct (action_at (world s (clock s)) (EvWaitForLoadState "domcontentloaded"));
    cbv beta iota in Hrun;
    [eapply Hnext; [ | | | | exact Hrun];
       first [reflexivity | cbn [clock tick log]; lia] |].
  cbn [world clock tick log] in Hrun.
  destruct (isVisible_at (world s (S (clock s))) (confirmationMessage m))
    as [[|] | e]; cbv beta iota in Hrun.
  - cbn [world clock tick log] in Hrun.
    destruct (textContent_at (world s (S (clock s))) (confirmationMessage m))
      as [t | e]; cbv beta iota in Hrun.
    + injection Hrun as <- <-. cbn [world clock tick log].
      repeat split. lia.
    + eapply Hnext; [ | | | | exact Hrun];
        first [reflexivity | cbn [clock tick log]; lia].
  - eapply Hnext; [ | | | | exact Hrun];
      first [reflexivity | cbn [clock tick log]; lia].
  - eapply Hnext; [ | | | | exact Hrun];
      first [reflexivity | cbn [clock tick log]; lia].
Qed.

(** One model: the selection is asked for once.  The try block counts the
    model at most once, and exactly once when no error leaves it; an
    error that leaves it is that of the selection or of a pause, and is of
    the class from which the catch block recovers. *)
Lemma TC004_try_any (m : model) (isLast : bool) (t : tally) (s : session)
    (r : result (tally * option string)) (s' : session) :
  TC004_try m isLast t s = (r, s') ->
  world s' = world s
  /\ selections s' = (1 + selections s)%nat
  /\ reloads s' = reloads s
  /\ exists (t1 : tally) (error : option string),
       r = Ret (t1, error)
       /\ modelSelector t1 = modelSelector t
       /\ successCount t <= successCount t1
       /\ failureCount t <= failureCount t1
       /\ (successCount t1 - successCount t)
          + (failureCount t1 - failureCount t)
          <= 1
       /\ (error = None ->
           (successCount t1 - successCount t)
           + (failureCount t1 - failureCount t)
           = 1)
       /\ (forall message, error = Some message ->
             triggers_recovery message = true)
       /\ (forall message, error = Some message ->
             (successCount t1 = successCount t
              /\ failureCount t1 = failureCount t)
             \/ refused_by (world s) is_wait message).
Proof.
  intros Hrun. unfold TC004_try in Hrun. unfold try_catch at 1 in Hrun.
  unfold bind at 1 in Hrun. unfold selectOption in Hrun.
  destruct (selectOption_at (now s) (modelSelector t) (value m)) as [detail |].
  { unfold ret in Hrun. injection Hrun as <- <-.
    split; [reflexivity |]. split; [reflexivity |]. split; [reflexivity |].
    eexists; eexists. split; [reflexivity |].
    repeat split; try lia; try discriminate.
    intros message [= <-]. apply named_call_is_listed. reflexivity. }
  unfold bind at 1 in Hrun.
  destruct (TC004_confirm 15 m 1
              (tick (log (EvSelectOption (modelSelector t) (value m)) s)))
    as [rc s1] eqn:Ec.
  destruct (TC004_confirm_any m 15 1
              (tick (log (EvSelectOption (modelSelector t) (value m)) s)) rc s1)
    as (Hw & _ & Hs & Hr & Hres); [lia | exact Ec |].
  cbn [world tick log] in Hw, Hres.
  assert (Hs1 : selections s1 = (1 + selections s)%nat) by (rewrite Hs; reflexivity).
  assert (Hr1 : reloads s1 = reloads s) by (rewrite Hr; reflexivity).
  clear Ec Hs Hr.
  destruct rc as [found | message |]; [ | | destruct Hres].
  2:{ unfold ret in Hrun. injection Hrun as <- <-.
      split; [exact Hw |]. split; [exact Hs1 |]. split; [exact Hr1 |].
      eexists; eexists. split; [reflexivity |].
      repeat split; try lia; try discriminate.
      intros message' [= <-]. exact (refused_wait_is_listed _ _ Hres). }
  assert (Hlast : forall (t1 : tally) (s2 : session),
             world s2 = world s -> selections s2 = (1 + selections s)%nat ->
             reloads s2 = reloads s ->
             modelSelector t1 = modelSelector t ->
             successCount t <= successCount t1 ->
             failureCount t <= failureCount t1 ->
             (successCount t1 - successCount t)
             + (failureCount t1 - failureCount t) = 1 ->
             (let (r0, s0) :=
                try_catch
                  ((if isLast then ret tt else waitForTimeout 1000) ;;
                   ret (t1, @None string))%js
                  (fun message => ret (t1, Some message)) s2 in
              match r0 with
              | Ret a => (Ret a, s0)
              | Throw e => ret (t, Some e) s0
              | Unfinished => (Unfinished, s0)
              end) = (r, s') ->
             world s' = world s
             /\ selections s' = (1 + selections s)%nat
             /\ reloads s' = reloads s
             /\ exists (t1 : tally) (error : option string),
                  r = Ret (t1, error)
                  /\ modelSelector t1 = modelSelector t
                  /\ successCount t <= successCount t1
                  /\ failureCount t <= failureCount t1
                  /\ (successCount t1 - successCount t)
                     + (failureCount t1 - failureCount t)
                     <= 1
                  /\ (error = None ->
                      (successCount t1 - successCount t)
                      + (failureCount t1 - failureCount t)
                      = 1)
                  /\ (forall message, error = Some message ->
                        triggers_recovery message = true)
                  /\ (forall message, error = Some message ->
                        (successCount t1 = successCount t
                         /\ failureCount t1 = failureCount t)
                        \/ refused_by (world s) is_wait message)).
  { intros t1 s2 Hw2 Hs2 Hr2 Hsel Hsc Hfc Hone Hrun2.
    unfold try_catch, bind, ret in Hrun2. destruct isLast.
    - injection Hrun2 as <- <-.
      split; [exact Hw2 |]. split; [exact Hs2 |]. split; [exact Hr2 |].
      exists t1, None. repeat split; try assumption; try lia; discriminate.
    - unfold waitForTimeout in Hrun2. rewrite act_run in Hrun2.
      destruct (action_at (now s2) (EvWaitForTimeout 1000)) as [detail |] eqn:Ea;
        injection Hrun2 as <- <-; cbn [world tick log];
        (split; [exact Hw2 |]); (split; [rewrite <- Hs2; reflexivity |]);
        (split; [rewrite <- Hr2; reflexivity |]).
      + exists t1, (Some (act_error (EvWaitForTimeout 1000) detail)).
        repeat split; try assumption; try lia; try discriminate.
        * intros message [= <-]. apply named_call_is_listed. reflexivity.
        * intros message [= <-]. right.
          exists (clock s2), (EvWaitForTimeout 1000), detail.
          split; [reflexivity |]. split; [| reflexivity].
          rewrite <- Hw2. exact Ea.
      + exists t1, None. repeat split; try assumption; try lia; discriminate. }
  unfold bind at 1 in Hrun. destruct found.
  - unfold ret at 1 in Hrun. cbv beta iota in Hrun.
    eapply Hlast; [ | | | | | | | exact Hrun];
      first [assumption | reflexivity | cbn [successCount failureCount]; lia].
  - unfold try_catch at 1 in Hrun. unfold bind at 1 in Hrun.
    unfold waitForTimeout at 1 in Hrun. rewrite act_run in Hrun.
    destruct (action_at (now s1) (EvWaitForTimeout 2000)).
    + unfold ret at 1 in Hrun. cbv beta iota in Hrun.
      eapply Hlast; [ | | | | | | | exact Hrun];
        first [ assumption | reflexivity
              | cbn [world tick log]; assumption
              | rewrite <- Hs1; reflexivity | rewrite <- Hr1; reflexivity
              | cbn [successCount failureCount]; lia ].
    + unfold bind at 1 in Hrun. unfold inputValue, ask in Hrun.
      destruct (inputValue_at (now (tick (log (EvWaitForTimeout 2000) s1)))
                  (modelSelector t)) as [v | e];
        [unfold ret at 1 in Hrun; destruct (String.eqb v (value m))
        | unfold ret at 1 in Hrun];
        cbv beta iota in Hrun;
        (eapply Hlast; [ | | | | | | | exact Hrun];
         first [ assumption | reflexivity
               | cbn [world tick log]; assumption
               | rewrite <- Hs1; reflexivity | rewrite <- Hr1; reflexivity
               | cbn [successCount failureCount]; lia ]).
Qed.

(** The catch block never throws, counts one failure, asks for no selection
    and reloads at most once. *)
Lemma TC004_catch_any (message : string) (t : tally) (s : session)
    (r : result (tally * bool)) (s' : session) :
  TC004_catch message t s = (r, s') ->
  world s' = world s
  /\ selections s' = selections s
  /\ (reloads s <= reloads s' <= 1 + reloads s)%nat
  /\ exists (t' : tally) (continue : bool),
       r = Ret (t', continue)
       /\ successCount t' = successCount t
       /\ failureCount t' = failureCount t + 1.
Proof.
  intros Hrun. unfold TC004_catch in Hrun.
  destruct (triggers_recovery message).
  2:{ unfold ret in Hrun. injection Hrun as <- <-.
      split; [reflexivity |]. split; [reflexivity |]. split; [lia |].
      eexists; eexists; (split; [reflexivity |]); split; reflexivity. }
  cbv zeta in Hrun. unfold try_catch at 1 in Hrun.
  rewrite refresh_then in Hrun. unfold bind at 1 in Hrun.
  destruct ((waitForTimeout 2000 ;; reload ;; waitForLoadState "networkidle")%js s)
    as [rr s1] eqn:Er.
  destruct (refresh_any _ _ _ _ Er) as (Hw & _ & _ & Hp & _ & Hl & Hres).
  specialize (Hp is_selectOption ltac:(not_a_refresh)).
  destruct rr as [[] | e |]; [ | | destruct Hres].
  - unfold try_catch, bind, waitFor_visible, ret in Hrun.
    cbv beta iota in Hrun.
    destruct (isVisible_at (now s1) recoveredSelector) as [[|] | e];
      cbv beta iota in Hrun;
      injection Hrun as <- <-; cbn [world tick log];
      (split; [exact Hw |]);
      (split; [unfold selections in *; rewrite occurrences_tick, occurrences_log;
               exact Hp |]);
      (split; [unfold reloads in *; rewrite occurrences_tick, occurrences_log;
               cbn [is_reload Nat.add]; exact Hl |]);
      eexists; eexists; (split; [reflexivity |]); split; reflexivity.
  - unfold ret in Hrun. injection Hrun as <- <-.
    split; [exact Hw |]. split; [exact Hp |]. split; [exact Hl |].
    eexists; eexists; (split; [reflexivity |]); split; reflexivity.
Qed.

Lemma TC004_loop_any :
  forall (models : list model) (t : tally) (s : session) (r : result tally)
         (s' : session),
    TC004_loop models t s = (r, s') ->
    exists t' : tally,
      r = Ret t'
      /\ successCount t <= successCount t'
      /\ failureCount t <= failureCount t'
      /\ (selections s <= selections s' <= List.length models + selections s)%nat
      /\ Z.of_nat (selections s' - selections s)
         <= (successCount t' - successCount t) + (failureCount t' - failureCount t)
         <= 2 * Z.of_nat (selections s' - selections s)
      /\ (reloads s <= reloads s')%nat
      /\ Z.of_nat (reloads s' - reloads s) <= failureCount t' - failureCount t.
Proof.
  induction models as [| m rest IH]; intros t s r s' Hrun;
    cbn [TC004_loop] in Hrun.
  { unfold ret in Hrun. injection Hrun as <- <-. exists t.
    cbn [List.length]. repeat split; lia. }
  unfold bind at 1 in Hrun.
  destruct (TC004_try m match rest with [] => true | _ :: _ => false end t s)
    as [rt s1] eqn:Et.
  destruct (TC004_try_any _ _ _ _ _ _ Et)
    as (_ & Hs1 & Hr1 & t1 & error & -> & _ & Hsc1 & Hfc1 & Hle1 & Hone1 & _).
  cbv beta iota in Hrun.
  destruct error as [message |].
  - unfold bind at 1 in Hrun.
    destruct (TC004_catch message t1 s1) as [rc s2] eqn:Ecatch.
    destruct (TC004_catch_any _ _ _ _ _ Ecatch)
      as (_ & Hs2 & Hr2 & t2 & continue & -> & Hsc2 & Hfc2).
    cbv beta iota in Hrun. destruct continue.
    + destruct (IH t2 s2 r s' Hrun) as (t' & -> & H1 & H2 & H3 & H4 & H5 & H6).
      exists t'. cbn [List.length]. repeat split; lia.
    + unfold ret in Hrun. injection Hrun as <- <-. exists t2.
      cbn [List.length]. repeat split; lia.
  - specialize (Hone1 eq_refl).
    destruct (IH t1 s1 r s' Hrun) as (t' & -> & H1 & H2 & H3 & H4 & H5 & H6).
    exists t'. cbn [List.length]. repeat split; lia.
Qed.

(** The session after a recovery that works: the pause, the reload, the wait
    for the load state and the wait for the selector found again. *)
Lemma TC004_catch_recovers (message : string) (t : tally) (s : session)
    (Hlisted : triggers_recovery message = true)
    (Hlive : allows is_refresh s)
    (Hback : isVisible_at (world s (3 + clock s)%nat) recoveredSelector = Got true) :
  TC004_catch message t s
  = (Ret ({| modelSelector := recoveredSelector;
             successCount := successCount t;
             failureCount := failureCount t + 1 |}, true),
     tick (log (EvWaitFor recoveredSelector "visible") (refreshed 2000 s))).
Proof.
  unfold TC004_catch. rewrite Hlisted.
  unfold try_catch, bind, waitFor_visible, ret. calm Hlive.
  unfold now. cbn [world clock tick log].
  change (3 + clock s)%nat with (S (S (S (clock s)))) in Hback.
  rewrite Hback. reflexivity.
Qed.

(** C8, as the code has it.  No error that leaves the try block of a model
    is outside the class from which the catch block recovers: such an error
    is that of selectOption or of a pause, its message names the call, and
    the block tests for these names.  So when selectOption for a model
    rejects, whatever the reason, the model is tried only that once and one
    failure is counted, and the reset is invoked: the block pauses, reloads
    the page and finds the selector again; when this works the loop goes on
    with the models that remain, on the selector found again.  The error is
    not surfaced: the test fails only after the loop, with the error that
    reports the counts. *)
Theorem selection_error_is_recovered_from (m : model) (rest : list model)
    (selector : locator) (successes failures : Z) (s : session)
    (detail : string) (toFixed1 : Z -> Z -> string)
    (Hfail : selectOption_at (now s) selector (value m) = Some detail)
    (Hlive : allows is_refresh s)
    (Hback : isVisible_at (world s (4 + clock s)%nat) recoveredSelector
             = Got true) :
  let s1 := tick (log (EvSelectOption selector (value m)) s) in
  let s2 := tick (log (EvWaitFor recoveredSelector "visible")
                    (refreshed 2000 s1)) in
  (forall (m0 : model) (isLast : bool) (t0 t1 : tally) (s0 s' : session)
          (message : string),
      TC004_try m0 isLast t0 s0 = (Ret (t1, Some message), s') ->
      triggers_recovery message = true)
  /\ fst (TC004_try m (match rest with [] => true | _ => false end)
            {| modelSelector := selector; successCount := successes;
               failureCount := failures |} s)
     = Ret ({| modelSelector := selector; successCount := successes;
               failureCount := failures |},
            Some ("locator.selectOption: " ++ detail)%string)
  /\ TC004_loop (m :: rest)
       {| modelSelector := selector; successCount := successes;
          failureCount := failures |} s
     = TC004_loop rest
         {| modelSelector := recoveredSelector; successCount := successes;
            failureCount := failures + 1 |} s2
  /\ selections s2 = (1 + selections s)%nat
  /\ reloads s2 = (1 + reloads s)%nat
  /\ exists successes' failures' : Z,
       0 < failures'
       /\ fst (TC004_select_models toFixed1 selector (m :: rest) s)
          = Throw ("Model selection not 100% successful: "
                   ++ toFixed1 successes' (Z.of_nat (List.length (m :: rest)))
                   ++ "% (" ++ string_of_Z successes' ++ "/"
                   ++ string_of_Z (Z.of_nat (List.length (m :: rest)))
                   ++ "). Failures: " ++ string_of_Z failures')%string.
Proof.
  cbv zeta.
  assert (Htry : forall isLast sc fc,
             TC004_try m isLast
               {| modelSelector := selector; successCount := sc;
                  failureCount := fc |} s
             = (Ret ({| modelSelector := selector; successCount := sc;
                        failureCount := fc |},
                     Some ("locator.selectOption: " ++ detail)%string),
                tick (log (EvSelectOption selector (value m)) s))).
  { intros isLast sc fc. unfold TC004_try, try_catch. unfold bind at 1.
    unfold selectOption. cbn [modelSelector]. rewrite Hfail. reflexivity. }
  assert (Hstep : forall sc fc,
             TC004_loop (m :: rest)
               {| modelSelector := selector; successCount := sc;
                  failureCount := fc |} s
             = TC004_loop rest
                 {| modelSelector := recoveredSelector; successCount := sc;
                    failureCount := fc + 1 |}
                 (tick (log (EvWaitFor recoveredSelector "visible")
                          (refreshed 2000
                             (tick (log (EvSelectOption selector (value m)) s)))))).
  { intros sc fc. cbn [TC004_loop]. unfold bind at 1. rewrite Htry.
    cbv beta iota. unfold bind at 1.
    rewrite TC004_catch_recovers.
    - reflexivity.
    - apply (named_call_is_listed (EvSelectOption selector (value m))).
      reflexivity.
    - eapply allows_world; [| exact Hlive]. reflexivity.
    - exact Hback. }
  split.
  { intros m0 isLast t0 t1 s0 s' message Hrun.
    destruct (TC004_try_any _ _ _ _ _ _ Hrun)
      as (_ & _ & _ & t1' & error & Heq & _ & _ & _ & _ & _ & Hlisted).
    injection Heq as _ <-. apply Hlisted. reflexivity. }
  split; [rewrite Htry; reflexivity |].
  split; [apply Hstep |]. split; [reflexivity |]. split; [reflexivity |].
  unfold TC004_select_models. unfold bind. rewrite Hstep.
  destruct (TC004_loop rest
              {| modelSelector := recoveredSelector; successCount := 0;
                 failureCount := 0 + 1 |}
              (tick (log (EvWaitFor recoveredSelector "visible")
                       (refreshed 2000
                          (tick (log (EvSelectOption selector (value m)) s))))))
    as [r s'] eqn:E.
  destruct (TC004_loop_any _ _ _ _ _ E) as (t' & -> & _ & Hfc & _).
  cbn [failureCount] in Hfc.
  exists (successCount t'), (failureCount t').
  split; [lia |].
  assert (Hpos : (0 <? failureCount t') = true) by (apply Z.ltb_lt; lia).
  rewrite Hpos. reflexivity.
Qed.

(** The selection of the one model is rejected because its time is over. *)
Lemma selection_error_is_recovered_from_witness :
  let m := {| value := "llama3"; text := "llama3 (4.7 GB)" |} in
  let s := Fixtures.start
             (fun _ => Fixtures.model_page "llama3" "Timeout 30000ms exceeded.") in
  fst (TC004_try m true
         {| modelSelector := Loc "select#modelSelect"; successCount := 0;
            failureCount := 0 |} s)
  = Ret ({| modelSelector := Loc "select#modelSelect"; successCount := 0;
            failureCount := 0 |},
         Some "locator.selectOption: Timeout 30000ms exceeded.")
  /\ reloads (tick (log (EvWaitFor recoveredSelector "visible")
                      (refreshed 2000
                         (tick (log (EvSelectOption (Loc "select#modelSelect")
                                       "llama3") s)))))
     = 1%nat.
Proof.
  refine ((fun H => _)
            (selection_error_is_recovered_from
               {| value := "llama3"; text := "llama3 (4.7 GB)" |} []
               (Loc "select#modelSelect") 0 0
               (Fixtures.start
                  (fun _ => Fixtures.model_page "llama3" "Timeout 30000ms exceeded."))
               "Timeout 30000ms exceeded." (fun _ _ => "0.0"%string)
               eq_refl (fun _ _ _ => eq_refl) eq_refl)).
  cbv zeta in H. destruct H as (_ & Htry & _ & _ & Hreloads & _).
  cbv zeta. split; [exact Htry | exact Hreloads].
Defined.

(** C8, as stated, fails: the selection of the first of two models is
    rejected because the element is not a select element, an error of none
    of the kinds from which a recovery is called for (a destroyed execution
    context, a navigation timeout, a stale element handle).  The error is
    not surfaced and the run is not aborted: the reset is invoked (one
    reload, the selector found again), the second model is selected and
    confirmed after it, and the test fails only at the end, with an error
    that does not contain the message of the original one. *)
Lemma selection_error_outside_the_class_is_reset :
  let s := Fixtures.start
             (fun _ => Fixtures.model_page "llama3"
                         "Error: Element is not a <select> element") in
  let models := [ {| value := "llama3"; text := "llama3 (4.7 GB)" |};
                  {| value := "mistral"; text := "mistral (4.1 GB)" |} ] in
  let run := TC004_select_models (fun _ _ => "50.0") (Loc "select#modelSelect") models s in
  fst (selectOption (Loc "select#modelSelect") "llama3" s)
  = Throw "locator.selectOption: Error: Element is not a <select> element"
  /\ reloads (snd run) = 1%nat
  /\ waitFor_calls (snd run) = 1%nat
  /\ selections (snd run) = 2%nat
  /\ fst run = Throw "Model selection not 100% successful: 50.0% (1/2). Failures: 1"
  /\ includes "Model selection not 100% successful: 50.0% (1/2). Failures: 1"
              "Element is not a <select> element" = false.
Proof. vm_compute. repeat split. Qed.

(** The counters are updated in place: when the first model is confirmed
    and the pause that follows is rejected (the page was closed), the model
    is counted as a success and, by the catch block, as a failure too. *)
Example confirmed_model_counted_twice :
  let closing :=
    {| isVisible_at := isVisible_at (Fixtures.model_page "" "");
       textContent_at := textContent_at (Fixtures.model_page "" "");
       count_at := count_at (Fixtures.model_page "" "");
       isEnabled_at := isEnabled_at (Fixtures.model_page "" "");
       inputValue_at := inputValue_at (Fixtures.model_page "" "");
       dialog_on_click := dialog_on_click (Fixtures.model_page "" "");
       selectOption_at := fun _ _ => None;
       goto_at := goto_at (Fixtures.model_page "" "");
       action_at := fun e =>
         match e with
         | EvWaitForTimeout _ =>
             Some "Target page, context or browser has been closed"
         | _ => None
         end |} in
  let models := [ {| value := "llama3"; text := "llama3 (4.7 GB)" |};
                  {| value := "mistral"; text := "mistral (4.1 GB)" |} ] in
  let run := TC004_loop models
               {| modelSelector := Loc "select#modelSelect";
                  successCount := 0; failureCount := 0 |}
               (Fixtures.start (fun _ => closing)) in
  selections (snd run) = 1%nat
  /\ fst run = Ret {| modelSelector := Loc "select#modelSelect";
                     successCount := 1; failureCount := 1 |}.
Proof. vm_compute. repeat split. Qed.

(** * Further properties of the page objects and journeys *)

(** ** The pollers on an arbitrary page *)

Lemma strict_eq_zero (n : jsnum) : strict_eq n (Num 0) = true -> n = Num 0.
Proof.
  destruct n as [z |]; cbn; [| discriminate].
  intros H. apply Z.eqb_eq in H. now subst.
Qed.

Lemma allows_not_refused (p : event -> bool) (s : session) (m : string) :
  allows p s -> refused_by (world s) p m -> False.
Proof.
  intros Hlive (t & e & detail & He & Ha & _).
  rewrite (Hlive t e He) in Ha. discriminate Ha.
Qed.

Lemma waitForDocumentCount_from_any (expectedCount : jsnum) (maxAttempts : Z)
    (waitTime : Q) :
  forall (fuel : nat) (attempt : Z) (s : session) (r : result jsnum)
         (s' : session),
    maxAttempts + 1 - attempt <= Z.of_nat fuel ->
    waitForDocumentCount_from fuel expectedCount maxAttempts waitTime attempt s
    = (r, s') ->
    world s' = world s
    /\ match r with
       | Ret c => strict_eq c expectedCount = true
       | Throw m => m = waitForDocumentCount_error expectedCount maxAttempts
                    \/ rejected_by (world s) m
                    \/ refused_by (world s) is_refresh m
       | Unfinished => False
       end
    /\ (docCount_reads s'
        <= Z.to_nat (maxAttempts + 1 - attempt) + docCount_reads s)%nat
    /\ (reloads s' <= Z.to_nat (maxAttempts - attempt) + reloads s)%nat
    /\ (reloads s' + waits s <= waits s' + reloads s
        <= 1 + (reloads s' + waits s))%nat
    /\ (allows is_refresh s ->
        (waits s' + reloads s = reloads s' + waits s)%nat).
Proof.
  induction fuel as [| fuel IH]; intros attempt s r s' Hfuel Hrun;
    cbn [waitForDocumentCount_from] in Hrun;
    destruct (attempt <=? maxAttempts) eqn:Hin;
    try (unfold throw in Hrun; injection Hrun as <- <-;
         split; [reflexivity |]; split; [left; reflexivity |];
         repeat split; lia).
  { apply Z.leb_le in Hin. exfalso. lia. }
  apply Z.leb_le in Hin.
  unfold bind at 1 in Hrun. rewrite getDocumentCount_run in Hrun.
  destruct (textContent_at (now s) docCount) as [t | m] eqn:Et.
  2:{ injection Hrun as <- <-. split; [reflexivity |].
      split; [right; left; exists (clock s), docCount; right; left; exact Et |].
      count_events. repeat split; lia. }
  destruct (strict_eq (or_else (parseInt t) (Num 0)) expectedCount) eqn:Heq.
  { unfold ret in Hrun. injection Hrun as <- <-. split; [reflexivity |].
    split; [exact Heq |]. count_events. repeat split; lia. }
  unfold bind at 1 in Hrun.
  destruct (attempt <? maxAttempts) eqn:Hmore.
  - apply Z.ltb_lt in Hmore.
    destruct ((waitForTimeout waitTime ;; reload ;;
               waitForLoadState "networkidle")%js (log (EvTextContent docCount) s))
      as [rr s1] eqn:Er.
    destruct (refresh_any _ _ _ _ Er) as (Hw1 & _ & _ & Hp & Hs1 & Hl1 & Hres1).
    specialize (Hp (is_textContent_of docCount) ltac:(not_a_refresh)).
    fold (docCount_reads s1) in Hp.
    fold (docCount_reads (log (EvTextContent docCount) s)) in Hp.
    assert (Hp0 : docCount_reads (log (EvTextContent docCount) s)
                  = (1 + docCount_reads s)%nat).
    { unfold docCount_reads. rewrite occurrences_log.
      cbn [is_textContent_of]. rewrite locator_eqb_refl. reflexivity. }
    assert (Hs0 : waits (log (EvTextContent docCount) s) = waits s)
      by reflexivity.
    assert (Hl0 : reloads (log (EvTextContent docCount) s) = reloads s)
      by reflexivity.
    cbn [world log] in Hw1, Hres1.
    destruct rr as [[] | m |]; [ | | destruct Hres1].
    + assert (Hl1' : reloads s1 = (1 + reloads s)%nat)
        by (rewrite Hres1; reflexivity).
      destruct (IH (attempt + 1) s1 r s') as (Hw & Hres & Hr & Hl & Hs & He);
        [lia | exact Hrun |].
      rewrite Hw1 in Hw, Hres.
      split; [exact Hw |]. split; [exact Hres |].
      split; [lia |]. split; [lia |]. split; [lia |].
      intros Hlive.
      specialize (He (allows_world _ _ _ Hw1 Hlive)). lia.
    + injection Hrun as <- <-. split; [exact Hw1 |].
      split; [right; right; exact Hres1 |].
      split; [lia |]. split; [lia |]. split; [lia |].
      intros Hlive. destruct (allows_not_refused _ _ _ Hlive Hres1).
  - apply Z.ltb_ge in Hmore. unfold ret in Hrun.
    destruct (IH (attempt + 1) (log (EvTextContent docCount) s) r s')
      as (Hw & Hres & Hr & Hl & Hs & He); [lia | exact Hrun |].
    cbn [world log] in Hw, Hres.
    assert (Hp0 : docCount_reads (log (EvTextContent docCount) s)
                  = (1 + docCount_reads s)%nat).
    { unfold docCount_reads. rewrite occurrences_log.
      cbn [is_textContent_of]. rewrite locator_eqb_refl. reflexivity. }
    assert (Hs0 : waits (log (EvTextContent docCount) s) = waits s)
      by reflexivity.
    assert (Hl0 : reloads (log (EvTextContent docCount) s) = reloads s)
      by reflexivity.
    split; [exact Hw |]. split; [exact Hres |].
    split; [lia |]. split; [lia |]. split; [lia |].
    intros Hlive. specialize (He Hlive). lia.
Qed.

(** X1. On any page and for any budget, waitForDocumentCount ends; it has
    read the counter at most maxAttempts times and reloaded the page at most
    maxAttempts - 1 times, each time after a sleep: there are as many sleeps
    as reloads, or one more when the last sleep was itself rejected, and
    exactly as many on a page that lets the sleeps and reloads through. *)
Theorem waitForDocumentCount_within_budget (s : session)
    (expectedCount : jsnum) (maxAttempts : Z) (waitTime : Q) :
  let run := waitForDocumentCount expectedCount maxAttempts waitTime s in
  fst run <> Unfinished
  /\ (docCount_reads (snd run) <= Z.to_nat maxAttempts + docCount_reads s)%nat
  /\ (reloads (snd run) <= Z.to_nat maxAttempts - 1 + reloads s)%nat
  /\ (reloads (snd run) + waits s <= waits (snd run) + reloads s
      <= 1 + (reloads (snd run) + waits s))%nat
  /\ (allows is_refresh s ->
      (waits (snd run) + reloads s = reloads (snd run) + waits s)%nat).
Proof.
  cbv zeta. unfold waitForDocumentCount.
  destruct (waitForDocumentCount_from (Z.to_nat maxAttempts) expectedCount
              maxAttempts waitTime 1 s) as [r s'] eqn:E.
  destruct (waitForDocumentCount_from_any expectedCount maxAttempts waitTime
              (Z.to_nat maxAttempts) 1 s r s')
    as (_ & Hres & Hr & Hl & Hs & He); [lia | exact E |].
  cbn [fst snd].
  split.
  - intros ->. exact Hres.
  - replace (maxAttempts + 1 - 1) with maxAttempts in Hr by lia.
    split; [lia |]. split; [lia |]. split; [lia | exact He].
Qed.

(** X2. waitForDocumentCount resolves only with a count that is [===] the
    expected one; when it rejects, the error is its own (the budget is used
    up), or that of a read which the page rejected, or that of a sleep, a
    reload or a wait for the load state between two reads. *)
Theorem waitForDocumentCount_outcome (s : session) (expectedCount : jsnum)
    (maxAttempts : Z) (waitTime : Q) :
  match fst (waitForDocumentCount expectedCount maxAttempts waitTime s) with
  | Ret c => strict_eq c expectedCount = true
  | Throw m =>
      m = ("Document count did not reach " ++ string_of_num expectedCount
           ++ " after " ++ string_of_Z maxAttempts ++ " attempts")%string
      \/ rejected_by (world s) m
      \/ refused_by (world s) is_refresh m
  | Unfinished => False
  end.
Proof.
  unfold waitForDocumentCount.
  destruct (waitForDocumentCount_from (Z.to_nat maxAttempts) expectedCount
              maxAttempts waitTime 1 s) as [r s'] eqn:E.
  destruct (waitForDocumentCount_from_any expectedCount maxAttempts waitTime
              (Z.to_nat maxAttempts) 1 s r s') as (_ & Hres & _);
    [lia | exact E |].
  exact Hres.
Qed.

Lemma waitForNonZeroDocumentCount_read_any (value : option string) (num : jsnum)
    (s : session) (r : result (option string * jsnum)) (s' : session) :
  waitForNonZeroDocumentCount_read value num s = (r, s') ->
  world s' = world s
  /\ docCount_passes s' = (1 + docCount_passes s)%nat
  /\ chunkCount_passes s' = chunkCount_passes s
  /\ reloads s' = reloads s
  /\ waits s' = waits s
  /\ match r with
     | Ret _ => True
     | Throw m => rejected_by (world s) m
     | Unfinished => False
     end.
Proof.
  intros Hrun.
  unfold waitForNonZeroDocumentCount_read, bind, isVisible, textContent, count,
    ask, ret in Hrun.
  repeat (cbv beta iota zeta in Hrun; unfold now in Hrun;
          cbn [log world clock] in Hrun;
          match type of Hrun with
          | context [match ?q (world s (clock s)) ?l with _ => _ end] =>
              let E := fresh "E" in destruct (q (world s (clock s)) l) eqn:E
          | context [if ?b then _ else _] => destruct b
          end).
  all: cbv beta iota zeta in Hrun; injection Hrun as <- <-.
  all: repeat (split; [reflexivity |]); try exact I.
  all: eexists (clock s), _;
    first [ left; eassumption | right; left; eassumption
          | right; right; eassumption ].
Qed.

Lemma waitForNonZeroDocumentCount_loop_any (maxAttempts : Z) (waitTime : Q) :
  forall (fuel : nat) (value : option string) (num : jsnum) (attempts : Z)
         (s : session) (r : result (option string * jsnum * Z))
         (s' : session),
    maxAttempts - attempts <= Z.of_nat fuel ->
    waitForNonZeroDocumentCount_loop fuel maxAttempts waitTime value num
      attempts s = (r, s') ->
    world s' = world s
    /\ match r with
       | Ret (_, num', attempts') =>
           strict_eq num' (Num 0) && (attempts' <? maxAttempts) = false
       | Throw m =>
           rejected_by (world s) m \/ refused_by (world s) is_refresh m
       | Unfinished => False
       end
    /\ (docCount_passes s'
        <= Z.to_nat (maxAttempts - attempts) + docCount_passes s)%nat
    /\ chunkCount_passes s' = chunkCount_passes s
    /\ (reloads s' <= Z.to_nat (maxAttempts - attempts - 1) + reloads s)%nat
    /\ (reloads s' + waits s <= waits s' + reloads s
        <= 1 + (reloads s' + waits s))%nat
    /\ (allows is_refresh s ->
        (waits s' + reloads s = reloads s' + waits s)%nat).
Proof.
  induction fuel as [| fuel IH]; intros value num attempts s r s' Hfuel Hrun;
    cbn [waitForNonZeroDocumentCount_loop] in Hrun;
    destruct (strict_eq num (Num 0) && (attempts <? maxAttempts)) eqn:Hgo;
    try (unfold ret in Hrun; injection Hrun as <- <-;
         split; [reflexivity |]; split; [exact Hgo |];
         repeat split; lia).
  { apply andb_true_iff in Hgo. destruct Hgo as [_ Hlt].
    apply Z.ltb_lt in Hlt. exfalso. lia. }
  apply andb_true_iff in Hgo. destruct Hgo as [_ Hlt]. apply Z.ltb_lt in Hlt.
  unfold bind at 1 in Hrun.
  destruct (waitForNonZeroDocumentCount_read value num s) as [rr s1] eqn:Er.
  destruct (waitForNonZeroDocumentCount_read_any _ _ _ _ _ Er)
    as (Hw1 & Hp1 & Hq1 & Hl1 & Hs1 & Hres1).
  destruct rr as [[value' num'] | m |]; [ | | destruct Hres1].
  2:{ injection Hrun as <- <-. split; [exact Hw1 |].
      split; [left; exact Hres1 |]. repeat split; lia. }
  unfold bind at 1 in Hrun.
  destruct (strict_eq num' (Num 0) && (attempts + 1 <? maxAttempts)) eqn:Hmore.
  - apply andb_true_iff in Hmore. destruct Hmore as [_ Hmore].
    apply Z.ltb_lt in Hmore.
    destruct ((waitForTimeout waitTime ;; reload ;;
               waitForLoadState "networkidle")%js s1) as [rf s2] eqn:Ef.
    destruct (refresh_any _ _ _ _ Ef) as (Hw2 & _ & _ & Hp & Hs2 & Hl2 & Hres2).
    pose proof (Hp (is_isVisible_of (First (Loc "#docCount")))
                  ltac:(not_a_refresh)) as Hp2.
    pose proof (Hp (is_isVisible_of (First (Loc "#chunkCount")))
                  ltac:(not_a_refresh)) as Hq2.
    fold (docCount_passes s2) in Hp2. fold (docCount_passes s1) in Hp2.
    fold (chunkCount_passes s2) in Hq2. fold (chunkCount_passes s1) in Hq2.
    rewrite Hw1 in Hw2, Hres2.
    destruct rf as [[] | m |]; [ | | destruct Hres2].
    + assert (Hl2' : reloads s2 = (1 + reloads s1)%nat)
        by (rewrite Hres2; reflexivity).
      destruct (IH value' num' (attempts + 1) s2 r s')
        as (Hw & Hres & Hp' & Hq' & Hl & Hs & He); [lia | exact Hrun |].
      rewrite Hw2 in Hw, Hres.
      split; [exact Hw |]. split; [exact Hres |].
      split; [lia |]. split; [congruence |]. split; [lia |]. split; [lia |].
      intros Hlive.
      specialize (He (allows_world _ _ _ Hw2 Hlive)). lia.
    + injection Hrun as <- <-. split; [exact Hw2 |].
      split; [right; exact Hres2 |].
      split; [lia |]. split; [congruence |]. split; [lia |]. split; [lia |].
      intros Hlive. destruct (allows_not_refused _ _ _ Hlive Hres2).
  - unfold ret in Hrun.
    destruct (IH value' num' (attempts + 1) s1 r s')
      as (Hw & Hres & Hp' & Hq' & Hl & Hs & He); [lia | exact Hrun |].
    rewrite Hw1 in Hw, Hres.
    assert (Hstop : forall fuel0 v n a st rr st',
               strict_eq n (Num 0) && (a <? maxAttempts) = false ->
               waitForNonZeroDocumentCount_loop fuel0 maxAttempts waitTime v n
                 a st = (rr, st') -> st' = st).
    { intros fuel0 v n a st rr st' Hb Hk.
      destruct fuel0; cbn [waitForNonZeroDocumentCount_loop] in Hk;
        rewrite Hb in Hk; unfold ret in Hk; injection Hk as _ <-; reflexivity. }
    pose proof (Hstop _ _ _ _ _ _ _ Hmore Hrun) as ->.
    split; [exact Hw1 |]. split; [exact Hres |].
    split; [lia |]. split; [exact Hq1 |]. split; [lia |]. split; [lia |].
    intros _. lia.
Qed.

(** X3. On any page and for any budget, waitForNonZeroDocumentCount ends; it
    has gone over the page at most maxAttempts times and reloaded it at most
    maxAttempts - 1 times, each time after a sleep: there are as many sleeps
    as reloads, or one more when the last sleep was itself rejected, and
    exactly as many on a page that lets the sleeps and reloads through. *)
Theorem waitForNonZeroDocumentCount_within_budget (s : session)
    (maxAttempts : Z) (waitTime : Q) :
  let run := waitForNonZeroDocumentCount maxAttempts waitTime s in
  fst run <> Unfinished
  /\ (docCount_passes (snd run) <= Z.to_nat maxAttempts + docCount_passes s)%nat
  /\ (reloads (snd run) <= Z.to_nat maxAttempts - 1 + reloads s)%nat
  /\ (reloads (snd run) + waits s <= waits (snd run) + reloads s
      <= 1 + (reloads (snd run) + waits s))%nat
  /\ (allows is_refresh s ->
      (waits (snd run) + reloads s = reloads (snd run) + waits s)%nat).
Proof.
  cbv zeta. unfold waitForNonZeroDocumentCount, bind.
  destruct (waitForNonZeroDocumentCount_loop (Z.to_nat maxAttempts) maxAttempts
              waitTime (Some "0"%string) (Num 0) 0 s) as [r s'] eqn:E.
  destruct (waitForNonZeroDocumentCount_loop_any maxAttempts waitTime
              (Z.to_nat maxAttempts) (Some "0"%string) (Num 0) 0 s r s')
    as (_ & Hres & Hp & _ & Hl & Hs & He); [lia | exact E |].
  replace (maxAttempts - 0) with maxAttempts in Hp by lia.
  destruct r as [[[v n] a] | m |]; [ | | destruct Hres].
  - destruct (strict_eq n (Num 0)); unfold throw, ret; cbn [fst snd];
      (split; [discriminate |]); (split; [lia |]); (split; [lia |]);
      (split; [lia | exact He]).
  - cbn [fst snd]. split; [discriminate |]. split; [lia |]. split; [lia |].
    split; [lia | exact He].
Qed.

(** X4. waitForNonZeroDocumentCount never resolves with 0: the value it
    returns is not [=== 0] (it may be NaN or negative).  When it rejects,
    the error is its own, or that of a query which the page rejected, or
    that of a sleep, a reload or a wait for the load state between two
    passes. *)
Theorem waitForNonZeroDocumentCount_outcome (s : session) (maxAttempts : Z)
    (waitTime : Q) :
  match fst (waitForNonZeroDocumentCount maxAttempts waitTime s) with
  | Ret v => strict_eq v (Num 0) = false
  | Throw m =>
      m = ("Document count did not become non-zero after "
           ++ string_of_Z maxAttempts ++ " attempts")%string
      \/ rejected_by (world s) m
      \/ refused_by (world s) is_refresh m
  | Unfinished => False
  end.
Proof.
  unfold waitForNonZeroDocumentCount, bind.
  destruct (waitForNonZeroDocumentCount_loop (Z.to_nat maxAttempts) maxAttempts
              waitTime (Some "0"%string) (Num 0) 0 s) as [r s'] eqn:E.
  destruct (waitForNonZeroDocumentCount_loop_any maxAttempts waitTime
              (Z.to_nat maxAttempts) (Some "0"%string) (Num 0) 0 s r s')
    as (_ & Hres & _); [lia | exact E |].
  destruct r as [[[v n] a] | m |]; [ | | destruct Hres].
  - destruct (strict_eq n (Num 0)) eqn:Hn; unfold throw, ret; cbn [fst].
    + left. reflexivity.
    + exact Hn.
  - cbn [fst]. right. exact Hres.
Qed.

(** X5. When the element with the id is visible and its text holds no
    number (parseInt gives NaN), waitForNonZeroDocumentCount with a budget
    of at least one attempt resolves with NaN after a single pass, without
    sleeping or reloading. *)
Theorem waitForNonZeroDocumentCount_passes_NaN (s : session) (maxAttempts : Z)
    (waitTime : Q) (text : option string)
    (Hbudget : 1 <= maxAttempts)
    (Hvisible : isVisible_at (now s) (First (Loc "#docCount")) = Got true)
    (Htext : textContent_at (now s) (First (Loc "#docCount")) = Got text)
    (Hnan : parseInt text = NaN) :
  let run := waitForNonZeroDocumentCount maxAttempts waitTime s in
  fst run = Ret NaN
  /\ docCount_passes (snd run) = (1 + docCount_passes s)%nat
  /\ reloads (snd run) = reloads s
  /\ waits (snd run) = waits s.
Proof.
  destruct (waitForNonZeroDocumentCount_hit maxAttempts waitTime s 1 NaN)
    as (Hr & Hp & Hl & Hs).
  - lia.
  - lia.
  - intros j s' v Hj. cbn in Hj. lia.
  - intros [w' c' l' tr'] v Hw Hc. exists text.
    cbn [world clock Nat.sub Nat.mul] in Hw, Hc. rewrite Nat.add_0_r in Hc.
    subst w' c'. unfold now in Hvisible, Htext.
    unfold waitForNonZeroDocumentCount_read, bind, isVisible, textContent, ask, now.
    cbn [log world clock]. rewrite Hvisible.
    cbv beta iota. cbn [log world clock]. rewrite Htext, Hnan. reflexivity.
  - reflexivity.
  - intros Hk. exfalso. lia.
  - cbv zeta in *. repeat split; assumption.
Qed.

Lemma waitForNonZeroDocumentCount_passes_NaN_witness :
  let run := waitForNonZeroDocumentCount 40 3000
               (Fixtures.frozen (Some "loading...") (Some "0")) in
  fst run = Ret NaN /\ docCount_passes (snd run) = 1%nat
  /\ reloads (snd run) = 0%nat /\ waits (snd run) = 0%nat.
Proof.
  refine ((fun H => _)
            (waitForNonZeroDocumentCount_passes_NaN
               (Fixtures.frozen (Some "loading...") (Some "0")) 40 3000
               (Some "loading..."%string) _ eq_refl eq_refl eq_refl)).
  - exact H.
  - discriminate.
Defined.

(** ** clearIndex on an arbitrary page *)

Lemma refused_by_weaken (w : nat -> snapshot) (p q : event -> bool)
    (m : string) :
  (forall e, p e = true -> q e = true) ->
  refused_by w p m -> refused_by w q m.
Proof.
  intros Hpq (t & e & detail & He & Ha & Hm).
  exists t, e, detail. split; [apply Hpq; exact He |]. split; assumption.
Qed.

Lemma clearIndex_poll_any (maxAttempts : Z) (interval : Q) :
  forall (fuel : nat) (found : bool) (attempts : Z) (s : session)
         (r : result bool) (s' : session),
    maxAttempts - attempts <= Z.of_nat fuel ->
    clearIndex_poll fuel maxAttempts interval found attempts s = (r, s') ->
    match r with
    | Ret _ => True
    | Throw m => rejected_by (world s) m \/ refused_by (world s) is_wait m
    | Unfinished => False
    end
    /\ world s' = world s
    /\ clear_clicks s' = clear_clicks s
    /\ (banner_checks s' <= Z.to_nat (maxAttempts - attempts) + banner_checks s)%nat
    /\ (waits s' <= Z.to_nat (maxAttempts - attempts - 1) + waits s)%nat.
Proof.
  induction fuel as [| fuel IH]; intros found attempts s r s' Hfuel Hrun;
    cbn [clearIndex_poll] in Hrun;
    destruct (negb found && (attempts <? maxAttempts)) eqn:Hgo;
    try (injection Hrun as <- <-; repeat split; auto; lia).
  apply andb_true_iff in Hgo. destruct Hgo as [_ Hlt]. apply Z.ltb_lt in Hlt.
  assert (Hnext : forall s1 : session,
             world s1 = world s ->
             clear_clicks s1 = clear_clicks s ->
             (banner_checks s1 <= 1 + banner_checks s)%nat ->
             waits s1 = waits s ->
             ((if attempts + 1 <? maxAttempts
               then waitForTimeout interval else ret tt) ;;
              clearIndex_poll fuel maxAttempts interval false
                (attempts + 1))%js s1 = (r, s') ->
             match r with
             | Ret _ => True
             | Throw m => rejected_by (world s) m \/ refused_by (world s) is_wait m
             | Unfinished => False
             end
             /\ world s' = world s
             /\ clear_clicks s' = clear_clicks s
             /\ (banner_checks s'
                 <= Z.to_nat (maxAttempts - attempts) + banner_checks s)%nat
             /\ (waits s' <= Z.to_nat (maxAttempts - attempts - 1) + waits s)%nat).
  { intros s1 Hw1 Hc1 Hb1 Hs1 Hrun1. unfold bind in Hrun1.
    destruct (attempts + 1 <? maxAttempts) eqn:Hmore.
    - apply Z.ltb_lt in Hmore. unfold waitForTimeout in Hrun1.
      rewrite act_run in Hrun1.
      assert (Hb2 : banner_checks (tick (log (EvWaitForTimeout interval) s1))
                    = banner_checks s1) by reflexivity.
      assert (Hc2 : clear_clicks (tick (log (EvWaitForTimeout interval) s1))
                    = clear_clicks s1) by reflexivity.
      assert (Hs2 : waits (tick (log (EvWaitForTimeout interval) s1))
                    = (1 + waits s1)%nat) by reflexivity.
      destruct (action_at (now s1) (EvWaitForTimeout interval)) as [detail |] eqn:Ea.
      + injection Hrun1 as <- <-. split.
        * right. exists (clock s1), (EvWaitForTimeout interval), detail.
          split; [reflexivity |]. split; [| reflexivity].
          rewrite <- Hw1. exact Ea.
        * split; [exact Hw1 |]. repeat split; try lia; congruence.
      + destruct (IH false (attempts + 1) (tick (log (EvWaitForTimeout interval) s1))
                    r s') as (Hres & Hw & Hc & Hb & Hs); [lia | exact Hrun1 |].
        cbn [tick log world] in Hw, Hres. rewrite Hw1 in Hw, Hres.
        repeat split; try assumption; try lia; congruence.
    - apply Z.ltb_ge in Hmore. unfold ret in Hrun1.
      destruct (IH false (attempts + 1) s1 r s') as (Hres & Hw & Hc & Hb & Hs);
        [lia | exact Hrun1 |].
      rewrite Hw1 in Hw, Hres.
      repeat split; try assumption; try lia; congruence. }
  set (banner := First (Loc "div.status.success")) in *.
  unfold bind at 1 in Hrun. unfold isVisible at 1 in Hrun. unfold ask at 1 in Hrun.
  destruct (isVisible_at (now s) banner) as [[|] | m] eqn:Ev.
  - unfold bind at 1 in Hrun. unfold bind at 1 in Hrun.
    unfold textContent, ask in Hrun. cbn [now log world clock] in Hrun.
    destruct (textContent_at (world s (clock s)) banner) as [[t |] | m] eqn:Et;
      cbn [ret] in Hrun.
    + destruct (negb (t =? "")%string && includes t "All data cleared").
      * injection Hrun as <- <-. split; [exact I |]. split; [reflexivity |].
        count_events. subst banner. cbn. repeat split; lia.
      * eapply Hnext; [ | | | | exact Hrun]; reflexivity.
    + eapply Hnext; [ | | | | exact Hrun]; reflexivity.
    + injection Hrun as <- <-. split.
      * left. exists (clock s), banner. right; left. exact Et.
      * split; [reflexivity |]. count_events. subst banner. cbn. repeat split; lia.
  - cbn [ret] in Hrun. eapply Hnext; [ | | | | exact Hrun]; reflexivity.
  - injection Hrun as <- <-. split.
    + left. exists (clock s), banner. left. exact Ev.
    + split; [reflexivity |]. count_events. subst banner. cbn. repeat split; lia.
Qed.

Lemma clearIndex_any (s : session) (r : result unit) (s' : session) :
  clearIndex s = (r, s') ->
  match r with
  | Ret _ => clear_clicks s' = (1 + clear_clicks s)%nat
  | Throw m =>
      rejected_by (world s) m
      \/ refused_by (world s) (fun e => is_any_click e || is_wait e)%bool m
  | Unfinished => False
  end
  /\ (clear_clicks s' <= 1 + clear_clicks s)%nat
  /\ (banner_checks s' <= 10 + banner_checks s)%nat.
Proof.
  intros E. unfold clearIndex, switchToIndexTab in E.
  unfold bind at 1 in E. unfold bind at 1 in E.
  pose proof (click_run indexTab s) as H1. cbv zeta in H1.
  destruct H1 as (Hr1 & Hw1 & _ & Hp1).
  destruct (click indexTab s) as [r1 s1]. cbn [fst snd] in Hr1, Hw1, Hp1.
  assert (Hc1 : clear_clicks s1 = clear_clicks s).
  { unfold clear_clicks. rewrite Hp1 by reflexivity. reflexivity. }
  assert (Hb1 : banner_checks s1 = banner_checks s).
  { unfold banner_checks. rewrite Hp1 by reflexivity. reflexivity. }
  clear Hp1.
  destruct (action_at (now s) (EvClick indexTab)) as [d1 |] eqn:Ea1; subst r1.
  { injection E as <- <-. split; [| split; lia].
    right. exists (clock s), (EvClick indexTab), d1.
    split; [reflexivity |]. split; [exact Ea1 | reflexivity]. }
  unfold waitForTimeout at 1 in E. rewrite act_run in E.
  set (s1' := tick (log (EvWaitForTimeout 1000) s1)) in E.
  assert (Hc1' : clear_clicks s1' = clear_clicks s) by (rewrite <- Hc1; reflexivity).
  assert (Hb1' : banner_checks s1' = banner_checks s) by (rewrite <- Hb1; reflexivity).
  destruct (action_at (now s1) (EvWaitForTimeout 1000)) as [d2 |] eqn:Ea2.
  { injection E as <- <-. split; [| split; lia].
    right. exists (clock s1), (EvWaitForTimeout 1000), d2.
    split; [reflexivity |]. split; [| reflexivity].
    rewrite <- Hw1. exact Ea2. }
  unfold bind at 1 in E. unfold on_dialog at 1 in E.
  set (s2 := add_listener AcceptDialog (log (EvOnDialog AcceptDialog) s1')) in E.
  assert (Hw2 : world s2 = world s) by (subst s2 s1'; cbn; exact Hw1).
  assert (Hc2 : clear_clicks s2 = clear_clicks s) by (rewrite <- Hc1'; reflexivity).
  assert (Hb2 : banner_checks s2 = banner_checks s) by (rewrite <- Hb1'; reflexivity).
  pose proof (click_run clearButton s2) as H3. cbv zeta in H3.
  destruct H3 as (Hr3 & Hw3 & _ & Hp3).
  unfold bind at 1 in E.
  destruct (click clearButton s2) as [r3 s3]. cbn [fst snd] in Hr3, Hw3, Hp3.
  assert (Hc3 : clear_clicks s3 = (1 + clear_clicks s)%nat).
  { unfold clear_clicks. rewrite Hp3 by reflexivity.
    fold (clear_clicks s2). rewrite Hc2. reflexivity. }
  assert (Hb3 : banner_checks s3 = banner_checks s).
  { unfold banner_checks. rewrite Hp3 by reflexivity.
    fold (banner_checks s2). rewrite Hb2. reflexivity. }
  clear Hp3.
  destruct (action_at (now s2) (EvClick clearButton)) as [d3 |] eqn:Ea3; subst r3.
  { injection E as <- <-. split; [| split; lia].
    right. exists (clock s2), (EvClick clearButton), d3.
    split; [reflexivity |]. split; [| reflexivity].
    rewrite <- Hw2. exact Ea3. }
  unfold bind in E.
  destruct (clearIndex_poll (Z.to_nat 10) 10 300 false 0 s3) as [r4 s4] eqn:E4.
  destruct (clearIndex_poll_any 10 300 (Z.to_nat 10) false 0 s3 r4 s4)
    as (Hres & Hw4 & Hc4 & Hb4 & _); [lia | exact E4 |].
  rewrite Hw3, Hw2 in Hres.
  destruct r4 as [b | m |]; [ | | destruct Hres].
  - unfold waitForTimeout in E. rewrite act_run in E.
    assert (Hc5 : clear_clicks (tick (log (EvWaitForTimeout 2000) s4))
                  = clear_clicks s4) by reflexivity.
    assert (Hb5 : banner_checks (tick (log (EvWaitForTimeout 2000) s4))
                  = banner_checks s4) by reflexivity.
    destruct (action_at (now s4) (EvWaitForTimeout 2000)) as [d5 |] eqn:Ea5;
      injection E as <- <-; (split; [| split; lia]).
    + right. exists (clock s4), (EvWaitForTimeout 2000), d5.
      split; [reflexivity |]. split; [| reflexivity].
      rewrite <- Hw2, <- Hw3, <- Hw4. exact Ea5.
    + lia.
  - injection E as <- <-. split; [| split; lia].
    destruct Hres as [Hres | Hres]; [left; exact Hres | right].
    eapply refused_by_weaken; [| exact Hres].
    intros e He. rewrite He. apply orb_true_r.
Qed.

(** X6. On any page clearIndex ends.  It clicks the clear button at most
    once, and exactly once when it resolves, and looks at most 10 times for
    the success banner; a banner that never shows does not make it fail.
    It rejects only with the error of a click or a pause that the page
    refuses, or of a query of the banner.  When the click on the index tab is
    refused (the page has no such tab), the method rejects with that error
    at once: no dialog handler is registered and the clear button is not
    clicked. *)
Theorem clearIndex_clicks_once (s : session) :
  let run := clearIndex s in
  match fst run with
  | Ret _ => clear_clicks (snd run) = (1 + clear_clicks s)%nat
  | Throw m =>
      rejected_by (world s) m
      \/ refused_by (world s) (fun e => is_any_click e || is_wait e)%bool m
  | Unfinished => False
  end
  /\ (clear_clicks (snd run) <= 1 + clear_clicks s)%nat
  /\ (banner_checks (snd run) <= 10 + banner_checks s)%nat
  /\ (forall detail : string,
        action_at (now s) (EvClick indexTab) = Some detail ->
        run = (Throw ("locator.click: " ++ detail)%string,
               tick (log (EvClick indexTab) s))).
Proof.
  cbv zeta.
  destruct (clearIndex s) as [r s'] eqn:E.
  destruct (clearIndex_any s r s' E) as (Hres & Hc & Hb).
  cbn [fst snd]. split; [exact Hres |]. split; [exact Hc |]. split; [exact Hb |].
  intros detail Ha. rewrite <- E. unfold clearIndex, switchToIndexTab.
  unfold bind at 1. unfold bind at 1. unfold click. rewrite Ha. reflexivity.
Qed.

(** ** loadSampleData: finding the button *)

Lemma loadSampleData_strategy2_all_passed_over (w : snapshot)
    (selectors : list string) (Hpassed : Forall (passed_over w) selectors) :
  forall s : session,
    now s = w ->
    exists s',
      loadSampleData_strategy2 selectors s = (Ret None, s')
      /\ world s' = world s /\ clock s' = clock s /\ clicks s' = clicks s
      /\ isVisible_calls s' = (List.length selectors + isVisible_calls s)%nat.
Proof.
  induction Hpassed as [| a rest Ha _ IH]; intros s Hs.
  - exists s. repeat split.
  - cbn [loadSampleData_strategy2]. unfold bind, isVisible, textContent, ask.
    rewrite Hs.
    destruct Ha as [Ha | (Ha & [Hnull | (t & Ht & Hno)])]; rewrite Ha.
    + destruct (IH (log (EvIsVisible (First (Loc a))) s) Hs)
        as (s' & E & Hw & Hc & Hk & Hv).
      exists s'. split; [exact E |]. rewrite Hw, Hc, Hk, Hv.
      count_events. cbn [List.length]. repeat split; lia.
    + change (now (log (EvIsVisible (First (Loc a))) s)) with (now s).
      rewrite Hs, Hnull.
      destruct (IH (log (EvTextContent (First (Loc a)))
                      (log (EvIsVisible (First (Loc a))) s)) Hs)
        as (s' & E & Hw & Hc & Hk & Hv).
      exists s'. split; [exact E |]. rewrite Hw, Hc, Hk, Hv.
      count_events. cbn [List.length]. repeat split; lia.
    + change (now (log (EvIsVisible (First (Loc a))) s)) with (now s).
      rewrite Hs, Ht, Hno. rewrite andb_false_r.
      destruct (IH (log (EvTextContent (First (Loc a)))
                      (log (EvIsVisible (First (Loc a))) s)) Hs)
        as (s' & E & Hw & Hc & Hk & Hv).
      exists s'. split; [exact E |]. rewrite Hw, Hc, Hk, Hv.
      count_events. cbn [List.length]. repeat split; lia.
Qed.

(** X7. The index tab is opened (the click on it and the pause go through).
    When, on the page then shown, none of the 4 candidates of the first
    strategy is visible, each of the 7 candidates of the second is hidden or
    has a text without sample, load and data, and no clickable element
    mentions these words, loadSampleData rejects with its "not found" error;
    it has made the 4 + 7 visibility checks and clicked nothing but the
    index tab. *)
Theorem loadSampleData_button_not_found (s : session)
    (Hclick : action_at (now s) (EvClick indexTab) = None)
    (Hpause : action_at (world s (1 + clock s)%nat) (EvWaitForTimeout 1000)
              = None)
    (Hexact : Forall (fun a => isVisible_at (world s (2 + clock s)%nat)
                                 (First (Loc a)) = Got false) exactMatches)
    (Hbuttons : Forall (passed_over (world s (2 + clock s)%nat)) buttonSelectors)
    (Hnone : count_at (world s (2 + clock s)%nat)
               (HasText (Loc ("button, a, [role=" ++ dq ++ "button" ++ dq
                              ++ "], [onclick]")%string)
                        "/sample|load|data/i")
             = Got 0%nat) :
  let run := loadSampleData s in
  fst run
  = Throw "Load Sample Data button not found. Check if the button exists on the page."
  /\ clicks (snd run) = (1 + clicks s)%nat
  /\ isVisible_calls (snd run) = (11 + isVisible_calls s)%nat.
Proof.
  cbv zeta. destruct (loadSampleData s) as [r s'] eqn:E. cbn [fst snd].
  unfold loadSampleData, switchToIndexTab in E.
  pose proof (click_run indexTab s) as H1. cbv zeta in H1.
  destruct H1 as (Hr1 & Hw1 & Hc1 & Hp1).
  unfold bind at 1 in E. unfold bind at 1 in E.
  destruct (click indexTab s) as [r1 s1]. cbn [fst snd] in Hr1, Hw1, Hc1, Hp1.
  rewrite Hclick in Hr1. subst r1.
  unfold waitForTimeout at 1 in E. rewrite act_run in E.
  unfold now at 1 in E. rewrite Hw1, Hc1 in E.
  change (S (clock s)) with (1 + clock s)%nat in E. rewrite Hpause in E.
  set (s2 := tick (log (EvWaitForTimeout 1000) s1)) in E.
  assert (Hnow : now s2 = world s (2 + clock s)%nat).
  { subst s2. unfold now. cbn [tick log world clock]. rewrite Hw1, Hc1. reflexivity. }
  assert (Hk2 : clicks s2 = (1 + clicks s)%nat).
  { subst s2. unfold clicks. rewrite occurrences_tick, occurrences_log.
    rewrite Hp1 by reflexivity. reflexivity. }
  assert (Hv2 : isVisible_calls s2 = isVisible_calls s).
  { subst s2. unfold isVisible_calls. rewrite occurrences_tick, occurrences_log.
    rewrite Hp1 by reflexivity. reflexivity. }
  unfold bind at 1 in E. unfold loadSampleData_button in E.
  unfold bind at 1 in E.
  destruct (loadSampleData_strategy1_all_hidden _ exactMatches Hexact s2 Hnow)
    as (s3 & E3 & Hw3 & Hc3 & Hk3 & Hv3).
  rewrite E3 in E.
  assert (Hnow3 : now s3 = world s (2 + clock s)%nat).
  { unfold now. rewrite Hw3, Hc3. exact Hnow. }
  unfold bind at 1 in E.
  destruct (loadSampleData_strategy2_all_passed_over _ buttonSelectors Hbuttons
              s3 Hnow3) as (s4 & E4 & Hw4 & Hc4 & Hk4 & Hv4).
  rewrite E4 in E.
  unfold bind at 1 in E. unfold bind at 1 in E. unfold count, ask in E.
  assert (Hnow4 : now s4 = world s (2 + clock s)%nat).
  { unfold now. rewrite Hw4, Hc4. exact Hnow3. }
  rewrite Hnow4, Hnone in E. cbn [Nat.ltb Nat.leb ret throw] in E.
  injection E as <- <-. split; [reflexivity |].
  count_events. cbn [List.length exactMatches buttonSelectors] in *.
  split; lia.
Qed.

(** The index tab of a page that has the counters and no button to load
    the sample data. *)
Lemma loadSampleData_button_not_found_witness :
  let run := loadSampleData (Fixtures.frozen (Some "0") (Some "0")) in
  fst run
  = Throw "Load Sample Data button not found. Check if the button exists on the page."
  /\ clicks (snd run) = 1%nat
  /\ isVisible_calls (snd run) = 11%nat.
Proof.
  refine (loadSampleData_button_not_found (Fixtures.frozen (Some "0") (Some "0"))
            eq_refl eq_refl _ _ eq_refl).
  - repeat (constructor; [reflexivity |]). constructor.
  - repeat (constructor; [left; reflexivity |]). constructor.
Defined.

(** X8. The second strategy of loadSampleData returns the first candidate
    that is visible and whose text mentions sample, load or data (in any
    case of the letters).  A candidate before it that is visible but has a
    text without these words, or no text, is passed over like a hidden one;
    the candidates after it are not checked. *)
Theorem loadSampleData_strategy2_needs_text (s : session)
    (pre post : list string) (b t : string)
    (Hpre : Forall (passed_over (now s)) pre)
    (Hb : isVisible_at (now s) (First (Loc b)) = Got true)
    (Ht : textContent_at (now s) (First (Loc b)) = Got (Some t))
    (Hmentions : mentions_sample_load_data t = true) :
  let run := loadSampleData_strategy2 (pre ++ b :: post) s in
  fst run = Ret (Some (First (Loc b)))
  /\ isVisible_calls (snd run) = (List.length pre + 1 + isVisible_calls s)%nat.
Proof.
  destruct (loadSampleData_strategy2_first (now s) pre post b t Hpre Hb Ht
              Hmentions s eq_refl) as (s' & E & Hv).
  cbv zeta. rewrite E. split; [reflexivity | exact Hv].
Qed.

(** A visible "Clear Index" button is passed over; the "Upload" button is
    taken, because its text contains "load". *)
Lemma loadSampleData_strategy2_needs_text_witness :
  let s := Fixtures.start
             (fun _ => Fixtures.labelled
                         [ ("button.clear", Some "Clear Index");
                           ("button#uploadBtn", Some "Upload") ]) in
  let run := loadSampleData_strategy2
               ["button.hidden"; "button.clear"; "button#uploadBtn"; "button.other"] s in
  fst run = Ret (Some (First (Loc "button#uploadBtn")))
  /\ isVisible_calls (snd run) = 3%nat.
Proof.
  refine (loadSampleData_strategy2_needs_text
            (Fixtures.start
               (fun _ => Fixtures.labelled
                           [ ("button.clear", Some "Clear Index");
                             ("button#uploadBtn", Some "Upload") ]))
            ["button.hidden"; "button.clear"] ["button.other"]
            "button#uploadBtn" "Upload" _ eq_refl eq_refl eq_refl).
  constructor; [left; reflexivity |].
  constructor; [| constructor].
  right. split; [reflexivity |]. right. exists "Clear Index"%string.
  split; reflexivity.
Defined.

(** ** UserJourneyFlow.waitForIndexingComplete *)

Lemma waitForNonZeroDocumentCount_skips_chunks (maxAttempts : Z) (waitTime : Q)
    (s : session) :
  chunkCount_passes (snd (waitForNonZeroDocumentCount maxAttempts waitTime s))
  = chunkCount_passes s.
Proof.
  unfold waitForNonZeroDocumentCount, bind.
  destruct (waitForNonZeroDocumentCount_loop (Z.to_nat maxAttempts) maxAttempts
              waitTime (Some "0"%string) (Num 0) 0 s) as [r s1] eqn:E.
  destruct (waitForNonZeroDocumentCount_loop_any maxAttempts waitTime
              (Z.to_nat maxAttempts) (Some "0"%string) (Num 0) 0 s r s1)
    as (_ & _ & _ & H & _); [lia | exact E |].
  destruct r as [[[v n] a] | m |]; cbn [snd]; try exact H.
  destruct (strict_eq n (Num 0)); exact H.
Qed.

(** X9. UserJourneyFlow.waitForIndexingComplete polls the document counter
    first: when that poller rejects, the flow rejects with the same error
    and the chunk counter is not looked at. *)
Theorem waitForIndexingComplete_stops_at_documents (s : session) (m : string)
    (Hdoc : fst (waitForNonZeroDocumentCount 40 3000 s) = Throw m) :
  fst (UserJourneyFlow.waitForIndexingComplete s) = Throw m
  /\ chunkCount_passes (snd (UserJourneyFlow.waitForIndexingComplete s))
     = chunkCount_passes s.
Proof.
  pose proof (waitForNonZeroDocumentCount_skips_chunks 40 3000 s) as Hskip.
  unfold UserJourneyFlow.waitForIndexingComplete. unfold bind at 1 3.
  destruct (waitForNonZeroDocumentCount 40 3000 s) as [r s1].
  cbn [fst snd] in *. subst r. split; [reflexivity | exact Hskip].
Qed.

Lemma waitForIndexingComplete_stops_at_documents_witness :
  fst (UserJourneyFlow.waitForIndexingComplete (Fixtures.frozen (Some "0") (Some "7")))
  = Throw "Document count did not become non-zero after 40 attempts"
  /\ chunkCount_passes
       (snd (UserJourneyFlow.waitForIndexingComplete
               (Fixtures.frozen (Some "0") (Some "7"))))
     = 0%nat.
Proof.
  exact (waitForIndexingComplete_stops_at_documents
           (Fixtures.frozen (Some "0") (Some "7"))
           "Document count did not become non-zero after 40 attempts" eq_refl).
Defined.

(** ** ChatComponent: looking for the answer *)

Lemma getAssistantAnswer_over_any (selectors : list string) :
  forall s : session,
    exists (r : option locator) (s' : session),
      getAssistantAnswer_over selectors s = (Ret r, s')
      /\ (r = None
          <-> Forall (fun a => isVisible_at (now s) (First (Loc a)) <> Got true)
                selectors)
      /\ (forall l, r = Some l ->
            isVisible_at (now s) l = Got true
            /\ exists a, In a selectors /\ l = First (Loc a)).
Proof.
  induction selectors as [| a rest IH]; intros s.
  - exists None, s. split; [reflexivity |]. split.
    + split; [constructor | reflexivity].
    + discriminate.
  - cbn [getAssistantAnswer_over]. unfold bind, try_catch, isVisible, ask.
    destruct (IH (log (EvIsVisible (First (Loc a))) s)) as (r & s' & E & Hnone & Hsome).
    change (now (log (EvIsVisible (First (Loc a))) s)) with (now s) in Hnone, Hsome.
    destruct (isVisible_at (now s) (First (Loc a))) as [[|] | m] eqn:Ea; cbn [ret].
    + exists (Some (First (Loc a))), (log (EvIsVisible (First (Loc a))) s).
      split; [reflexivity |]. split.
      * split; [discriminate |]. intros H. inversion H; subst. congruence.
      * intros l Hl. injection Hl as <-. split; [exact Ea |].
        exists a. split; [left; reflexivity | reflexivity].
    + exists r, s'. split; [exact E |]. split.
      * rewrite Hnone. split.
        -- intros H. constructor; [congruence | exact H].
        -- intros H. inversion H; subst. assumption.
      * intros l Hl. destruct (Hsome l Hl) as (Hv & a' & Hin & ->).
        split; [exact Hv |]. exists a'. split; [right; exact Hin | reflexivity].
    + exists r, s'. split; [exact E |]. split.
      * rewrite Hnone. split.
        -- intros H. constructor; [congruence | exact H].
        -- intros H. inversion H; subst. assumption.
      * intros l Hl. destruct (Hsome l Hl) as (Hv & a' & Hin & ->).
        split; [exact Hv |]. exists a'. split; [right; exact Hin | reflexivity].
Qed.

(** X10. getAssistantAnswer never rejects, whatever the page answers: a
    visibility check that fails is treated like a hidden element.  It
    returns null exactly when none of its three selectors shows a visible
    element, and otherwise an element that is visible. *)
Theorem getAssistantAnswer_never_rejects (s : session) :
  exists r : option locator,
    fst (getAssistantAnswer s) = Ret r
    /\ (r = None
        <-> Forall (fun a => isVisible_at (now s) (First (Loc a)) <> Got true)
              [ ".assistant p:first-of-type"; ".message.assistant p:first-of-type";
                ".bubble.assistant p:first-of-type" ])
    /\ (forall l, r = Some l -> isVisible_at (now s) l = Got true).
Proof.
  unfold getAssistantAnswer, getAssistantAnswer_selectors.
  destruct (getAssistantAnswer_over_any
              [ ".assistant p:first-of-type"; ".message.assistant p:first-of-type";
                ".bubble.assistant p:first-of-type" ]%string s)
    as (r & s' & E & Hnone & Hsome).
  exists r. rewrite E. split; [reflexivity |]. split; [exact Hnone |].
  intros l Hl. apply (Hsome l Hl).
Qed.

Lemma waitForResponse_selectors_any (selectors : list string) :
  forall (s : session) (r : result (option string)) (s' : session),
    waitForResponse_selectors selectors s = (r, s') ->
    world s' = world s /\ clock s' = clock s /\ waits s' = waits s
    /\ (isVisible_calls s' <= List.length selectors + isVisible_calls s)%nat
    /\ match r with
       | Ret (Some t) => trim t <> ""%string
       | Ret None => True
       | Throw _ => True
       | Unfinished => False
       end.
Proof.
  induction selectors as [| a rest IH]; intros s r s' Hrun;
    cbn [waitForResponse_selectors] in Hrun.
  - injection Hrun as <- <-. repeat split; auto.
  - unfold bind at 1 in Hrun. unfold isVisible at 1 in Hrun. unfold ask at 1 in Hrun.
    assert (Hnext : forall s1 : session,
               world s1 = world s -> clock s1 = clock s -> waits s1 = waits s ->
               isVisible_calls s1 = (1 + isVisible_calls s)%nat ->
               waitForResponse_selectors rest s1 = (r, s') ->
               world s' = world s /\ clock s' = clock s /\ waits s' = waits s
               /\ (isVisible_calls s' <= List.length (a :: rest) + isVisible_calls s)%nat
               /\ match r with
                  | Ret (Some t) => trim t <> ""%string
                  | Ret None => True
                  | Throw _ => True
                  | Unfinished => False
                  end).
    { intros s1 Hw1 Hc1 Hs1 Hv1 Hrun1.
      destruct (IH s1 r s' Hrun1) as (Hw & Hc & Hs & Hv & Hres).
      cbn [List.length]. repeat split; try congruence; try assumption. lia. }
    destruct (isVisible_at (now s) (First (Loc a))) as [[|] | m].
    + unfold bind at 1 in Hrun. unfold textContent at 1 in Hrun.
      unfold ask at 1 in Hrun. cbn [now log world clock] in Hrun.
      destruct (textContent_at (world s (clock s)) (First (Loc a))) as [[t |] | m].
      * destruct (String.eqb t "") eqn:He; cbn [negb andb] in Hrun.
        -- eapply Hnext; [ | | | | exact Hrun]; reflexivity.
        -- destruct (String.eqb (trim t) "") eqn:Ht; cbn [negb] in Hrun.
           ++ eapply Hnext; [ | | | | exact Hrun]; reflexivity.
           ++ injection Hrun as <- <-.
              split; [reflexivity |]. split; [reflexivity |].
              split; [reflexivity |]. split.
              ** count_events. cbn [List.length]. lia.
              ** apply String.eqb_neq. exact Ht.
      * eapply Hnext; [ | | | | exact Hrun]; reflexivity.
      * injection Hrun as <- <-. cbn [List.length].
        repeat split; auto. count_events. lia.
    + eapply Hnext; [ | | | | exact Hrun]; reflexivity.
    + injection Hrun as <- <-. cbn [List.length].
      repeat split; auto. count_events. lia.
Qed.

Lemma waitForResponse_selectors_no_waitFor (selectors : list string) :
  forall (s : session) (r : result (option string)) (s' : session),
    waitForResponse_selectors selectors s = (r, s') ->
    waitFor_calls s' = waitFor_calls s.
Proof.
  induction selectors as [| a rest IH]; intros s r s' E;
    cbn [waitForResponse_selectors] in E.
  - injection E as <- <-. reflexivity.
  - unfold bind at 1 in E. unfold isVisible at 1 in E. unfold ask at 1 in E.
    destruct (isVisible_at (now s) (First (Loc a))) as [[|] | m].
    + unfold bind at 1 in E. unfold textContent at 1 in E.
      unfold ask at 1 in E. cbn [now log world clock] in E.
      destruct (textContent_at (world s (clock s)) (First (Loc a)))
        as [[t |] | m].
      * destruct (negb (String.eqb t "") && negb (String.eqb (trim t) "")).
        -- injection E as <- <-. reflexivity.
        -- apply IH in E. rewrite E. reflexivity.
      * apply IH in E. rewrite E. reflexivity.
      * injection E as <- <-. reflexivity.
    + apply IH in E. rewrite E. reflexivity.
    + injection E as <- <-. reflexivity.
Qed.

(** A pause that is made or not, followed by [return null]. *)
Lemma optional_pause_any (b : bool) (ms : Q) (s : session)
    (r : result (option string)) (s' : session) :
  ((if b then waitForTimeout ms else ret tt) ;; ret (@None string))%js s
  = (r, s') ->
  world s' = world s
  /\ isVisible_calls s' = isVisible_calls s
  /\ waitFor_calls s' = waitFor_calls s
  /\ (waits s <= waits s' <= (if b then 1 else 0) + waits s)%nat
  /\ match r with
     | Ret found => found = None
     | Throw m => refused_by (world s) is_wait m /\ b = true
     | Unfinished => False
     end.
Proof.
  unfold bind, ret. destruct b.
  - unfold waitForTimeout. rewrite act_run.
    destruct (action_at (now s) (EvWaitForTimeout ms)) as [detail |] eqn:Ea;
      intros H; injection H as <- <-; count_events; cbn [world tick log];
      repeat split; try lia.
    exists (clock s), (EvWaitForTimeout ms), detail.
    split; [reflexivity |]. split; [exact Ea | reflexivity].
  - intros H. injection H as <- <-. repeat split; lia.
Qed.

Lemma waitForResponse_poll_any :
  forall (fuel : nat) (attempt : Z) (s : session)
         (r : result (option string)) (s' : session),
    21 - attempt <= Z.of_nat fuel ->
    waitForResponse_poll fuel attempt s = (r, s') ->
    world s' = world s
    /\ match r with
       | Ret found => forall t, found = Some t -> trim t <> ""%string
       | Throw m => refused_by (world s) is_wait m
       | Unfinished => False
       end
    /\ (isVisible_calls s' <= 5 * Z.to_nat (21 - attempt) + isVisible_calls s)%nat
    /\ (waits s' <= 2 * Z.to_nat (20 - attempt) + waits s)%nat
    /\ (allows is_wait s -> (waits s' <= Z.to_nat (20 - attempt) + waits s)%nat)
    /\ waitFor_calls s' = waitFor_calls s.
Proof.
  induction fuel as [| fuel IH]; intros attempt s r s' Hfuel Hrun;
    cbn [waitForResponse_poll] in Hrun;
    destruct (attempt <=? 20) eqn:Hin;
    try (injection Hrun as <- <-; split; [reflexivity |];
         split; [discriminate |]; repeat split; lia).
  { apply Z.leb_le in Hin. exfalso. lia. }
  apply Z.leb_le in Hin.
  assert (Hbound : ((if (attempt <? 20)%Z then 1 else 0)
                    + Z.to_nat (20 - (attempt + 1)) = Z.to_nat (20 - attempt))%nat).
  { destruct (attempt <? 20) eqn:Hmore;
      [apply Z.ltb_lt in Hmore | apply Z.ltb_ge in Hmore]; lia. }
  (* the attempts that follow *)
  assert (Hnext : forall s1 : session,
             world s1 = world s ->
             (isVisible_calls s1 <= 5 + isVisible_calls s)%nat ->
             (waits s1 <= 2 * (if (attempt <? 20)%Z then 1 else 0) + waits s)%nat ->
             (allows is_wait s ->
              (waits s1 <= (if (attempt <? 20)%Z then 1 else 0) + waits s)%nat) ->
             waitFor_calls s1 = waitFor_calls s ->
             waitForResponse_poll fuel (attempt + 1) s1 = (r, s') ->
             world s' = world s
             /\ match r with
                | Ret found => forall t, found = Some t -> trim t <> ""%string
                | Throw m => refused_by (world s) is_wait m
                | Unfinished => False
                end
             /\ (isVisible_calls s'
                 <= 5 * Z.to_nat (21 - attempt) + isVisible_calls s)%nat
             /\ (waits s' <= 2 * Z.to_nat (20 - attempt) + waits s)%nat
             /\ (allows is_wait s ->
                 (waits s' <= Z.to_nat (20 - attempt) + waits s)%nat)
             /\ waitFor_calls s' = waitFor_calls s).
  { intros s1 Hw1 Hv1 Hs1 Ha1 Hf1 Hrun1.
    destruct (IH (attempt + 1) s1 r s') as (Hw & Hres & Hv & Hs & Ha & Hf);
      [lia | exact Hrun1 |].
    rewrite Hw1 in Hw, Hres.
    split; [exact Hw |]. split; [exact Hres |].
    split; [lia |]. split; [lia |]. split; [| congruence].
    intros Hlive. specialize (Ha1 Hlive).
    specialize (Ha (allows_world _ _ _ Hw1 Hlive)). lia. }
  (* the catch block *)
  assert (Hcatch : forall s1 : session,
             world s1 = world s ->
             (isVisible_calls s1 <= 5 + isVisible_calls s)%nat ->
             (waits s1 <= (if (attempt <? 20)%Z then 1 else 0) + waits s)%nat ->
             (allows is_wait s -> waits s1 = waits s) ->
             waitFor_calls s1 = waitFor_calls s ->
             (let (r0, s0) :=
                ((if attempt <? 20 then waitForTimeout 3000 else ret tt) ;;
                 ret (@None string))%js s1 in
              match r0 with
              | Ret found =>
                  match found with
                  | Some t => ret (Some t)
                  | None => waitForResponse_poll fuel (attempt + 1)
                  end s0
              | Throw e => (Throw e, s0)
              | Unfinished => (Unfinished, s0)
              end) = (r, s') ->
             world s' = world s
             /\ match r with
                | Ret found => forall t, found = Some t -> trim t <> ""%string
                | Throw m => refused_by (world s) is_wait m
                | Unfinished => False
                end
             /\ (isVisible_calls s'
                 <= 5 * Z.to_nat (21 - attempt) + isVisible_calls s)%nat
             /\ (waits s' <= 2 * Z.to_nat (20 - attempt) + waits s)%nat
             /\ (allows is_wait s ->
                 (waits s' <= Z.to_nat (20 - attempt) + waits s)%nat)
             /\ waitFor_calls s' = waitFor_calls s).
  { intros s1 Hw1 Hv1 Hs1 Ha1 Hf1 Hrun1.
    destruct (((if attempt <? 20 then waitForTimeout 3000 else ret tt) ;;
               ret (@None string))%js s1) as [r2 s2] eqn:E2.
    destruct (optional_pause_any _ _ _ _ _ E2) as (Hw2 & Hv2 & Hf2 & Hs2 & Hres2).
    rewrite Hw1 in Hw2, Hres2.
    destruct r2 as [found | e |]; [ | | destruct Hres2].
    - subst found. cbv beta iota in Hrun1.
      eapply Hnext; [ | | | | | exact Hrun1];
        first [exact Hw2 | lia | congruence | idtac].
      intros Hlive. specialize (Ha1 Hlive). lia.
    - injection Hrun1 as <- <-. destruct Hres2 as [Hres2 Hb]. rewrite Hb in *.
      split; [exact Hw2 |]. split; [exact Hres2 |].
      split; [lia |]. split; [lia |]. split; [| congruence].
      intros Hlive. destruct (allows_not_refused _ _ _ Hlive Hres2). }
  unfold bind at 1 in Hrun. unfold try_catch at 1 in Hrun.
  unfold bind at 1 in Hrun.
  destruct (waitForResponse_selectors assistantAnswerSelectors s)
    as [r0 s0] eqn:E0.
  pose proof (waitForResponse_selectors_no_waitFor _ _ _ _ E0) as Hf0.
  destruct (waitForResponse_selectors_any assistantAnswerSelectors s r0 s0 E0)
    as (Hw0 & _ & Hs0 & Hv0 & Hres0).
  cbn [List.length assistantAnswerSelectors] in Hv0.
  destruct r0 as [[t |] | m |]; [| | | contradiction].
  - cbn [ret] in Hrun. injection Hrun as <- <-.
    split; [exact Hw0 |]. split.
    + intros t' Ht'. injection Ht' as <-. exact Hres0.
    + split; [lia |]. split; [lia |]. split; [intros _; lia | exact Hf0].
  - destruct (((if attempt <? 20 then waitForTimeout 3000 else ret tt) ;;
               ret (@None string))%js s0) as [r1 s1] eqn:E1.
    destruct (optional_pause_any _ _ _ _ _ E1) as (Hw1 & Hv1 & Hf1 & Hs1 & Hres1).
    rewrite Hw0 in Hw1, Hres1.
    destruct r1 as [found | e |]; [ | | destruct Hres1].
    + subst found. cbv beta iota in Hrun.
      eapply Hnext; [ | | | | | exact Hrun];
        first [exact Hw1 | lia | congruence].
    + destruct Hres1 as [Hres1 Hb]. rewrite Hb in *.
      eapply Hcatch; [ | | | | | exact Hrun];
        first [exact Hw1 | lia | congruence | idtac].
      intros Hlive. destruct (allows_not_refused _ _ _ Hlive Hres1).
  - eapply Hcatch; [ | | | | | exact Hrun];
      first [exact Hw0 | lia | congruence].
Qed.

Lemma waitForResponse_run (s : session) (r : result string) (s' : session)
    (Hrun : waitForResponse s = (r, s')) :
  match r with
  | Ret t => trim t <> ""%string
  | Throw m =>
      m = "Assistant answer not found after 1 minute of waiting"%string
      \/ isVisible_at (now s) chatContainer = Rejected m
      \/ (isVisible_at (now s) chatContainer = Got false
          /\ m = "locator.waitFor: Timeout exceeded"%string)
      \/ refused_by (world s) is_wait m
  | Unfinished => False
  end
  /\ (isVisible_calls s' <= 100 + isVisible_calls s)%nat
  /\ (waits s' <= 38 + waits s)%nat
  /\ (allows is_wait s -> (waits s' <= 19 + waits s)%nat)
  /\ (waitFor_calls s' = 1 + waitFor_calls s)%nat.
Proof.
  unfold waitForResponse in Hrun. unfold bind at 1 in Hrun.
  unfold waitFor_visible in Hrun.
  destruct (isVisible_at (now s) chatContainer) as [[|] | m] eqn:Ev.
  - unfold bind in Hrun.
    set (s1 := tick (log (EvWaitFor chatContainer "visible") s)) in Hrun.
    destruct (waitForResponse_poll 20 1 s1) as [r1 s2] eqn:E1.
    destruct (waitForResponse_poll_any 20 1 s1 r1 s2)
      as (Hw & Hres & Hv & Hs & Ha & Hwf); [lia | exact E1 |].
    assert (Hw1 : world s1 = world s) by reflexivity.
    assert (Hv1 : isVisible_calls s1 = isVisible_calls s) by reflexivity.
    assert (Hs1 : waits s1 = waits s) by reflexivity.
    assert (Hf1 : waitFor_calls s1 = (1 + waitFor_calls s)%nat) by reflexivity.
    rewrite Hw1 in Hres.
    destruct r1 as [[t |] | m |]; [ | | | destruct Hres].
    + cbn [ret] in Hrun. injection Hrun as <- <-.
      split; [exact (Hres t eq_refl) |].
      split; [lia |]. split; [lia |]. split; [| lia].
      intros Hlive. specialize (Ha (allows_world _ _ _ Hw1 Hlive)). lia.
    + cbn [throw] in Hrun. injection Hrun as <- <-.
      split; [left; reflexivity |].
      split; [lia |]. split; [lia |]. split; [| lia].
      intros Hlive. specialize (Ha (allows_world _ _ _ Hw1 Hlive)). lia.
    + injection Hrun as <- <-.
      split; [right; right; right; exact Hres |].
      split; [lia |]. split; [lia |]. split; [| lia].
      intros Hlive. specialize (Ha (allows_world _ _ _ Hw1 Hlive)). lia.
  - injection Hrun as <- <-. split.
    + right; right; left. split; reflexivity.
    + count_events. repeat split; lia.
  - injection Hrun as <- <-. split.
    + right; left. reflexivity.
    + count_events. repeat split; lia.
Qed.

(** X11. waitForResponse resolves only with a text that is not blank.  An
    error raised by a query during the polling is swallowed: the method
    rejects only with its own "not found" error, with the error of the
    first wait for the chat container, or with the error of a pause between
    two attempts that the page refuses (the pause of the catch block is not
    guarded). *)
Theorem waitForResponse_outcome (s : session) :
  match fst (waitForResponse s) with
  | Ret t => trim t <> ""%string
  | Throw m =>
      m = "Assistant answer not found after 1 minute of waiting"%string
      \/ isVisible_at (now s) chatContainer = Rejected m
      \/ (isVisible_at (now s) chatContainer = Got false
          /\ m = "locator.waitFor: Timeout exceeded"%string)
      \/ refused_by (world s) is_wait m
  | Unfinished => False
  end.
Proof.
  destruct (waitForResponse s) as [r s'] eqn:E.
  exact (proj1 (waitForResponse_run s r s' E)).
Qed.

(** X12. On any page waitForResponse stays within its budget of 20
    attempts: at most 100 visibility checks (5 selectors per attempt), a
    single wait for the chat container, and at most 19 pauses of 3 s on a
    page that lets the pauses through.  In general there are at most 38
    pauses: a pause that is rejected inside the try block is followed by the
    pause of the catch block. *)
Theorem waitForResponse_within_budget (s : session) :
  let run := waitForResponse s in
  (isVisible_calls (snd run) <= 100 + isVisible_calls s)%nat
  /\ (waits (snd run) <= 38 + waits s)%nat
  /\ (allows is_wait s -> (waits (snd run) <= 19 + waits s)%nat)
  /\ waitFor_calls (snd run) = (1 + waitFor_calls s)%nat.
Proof.
  cbv zeta. destruct (waitForResponse s) as [r s'] eqn:E.
  exact (proj2 (waitForResponse_run s r s' E)).
Qed.

(** ** ChatComponent.isChatContainerEmpty *)

Lemma trim_start_empty (t : string) :
  trim_start t = ""%string <-> all_whitespace t = true.
Proof.
  induction t as [| c t IH]; cbn.
  - split; reflexivity.
  - unfold all_whitespace in *. cbn. destruct (is_whitespace c); cbn.
    + exact IH.
    + split; discriminate.
Qed.

Lemma trim_start_head (t : string) (c : ascii) (rest : string) :
  trim_start t = String c rest -> is_whitespace c = false.
Proof.
  induction t as [| d t IH]; cbn; [discriminate |].
  destruct (is_whitespace d) eqn:Hd; [exact IH |].
  intros H. injection H as <- _. exact Hd.
Qed.

Lemma trim_empty (t : string) :
  String.eqb (trim t) "" = all_whitespace t.
Proof.
  unfold trim. destruct (trim_start t) as [| c rest] eqn:E.
  - cbn. symmetry. apply trim_start_empty. exact E.
  - pose proof (trim_start_head t c rest E) as Hc.
    assert (Hall : all_whitespace t = false).
    { destruct (all_whitespace t) eqn:H; [| reflexivity].
      apply trim_start_empty in H. congruence. }
    rewrite Hall. cbn [trim_end]. rewrite Hc.
    destruct (trim_end rest); reflexivity.
Qed.

(** X13. isChatContainerEmpty answers true exactly when the text of the
    chat container is null or made of white space only (the empty text
    included). *)
Theorem isChatContainerEmpty_iff_blank (s : session) (content : option string)
    (Hcontent : textContent_at (now s) chatContainer = Got content) :
  fst (isChatContainerEmpty s)
  = Ret match content with
        | None => true
        | Some t => all_whitespace t
        end.
Proof.
  unfold isChatContainerEmpty, bind, textContent, ask. rewrite Hcontent.
  cbn [fst ret]. destruct content as [t |]; [| reflexivity].
  rewrite trim_empty. f_equal.
  destruct (String.eqb_spec t ""%string) as [-> | _]; reflexivity.
Qed.

Lemma isChatContainerEmpty_iff_blank_witness :
  fst (isChatContainerEmpty
         (Fixtures.start (fun _ => Fixtures.labelled [])))
  = Throw "locator.textContent: Timeout exceeded"
  /\ fst (isChatContainerEmpty
            (Fixtures.start (fun _ => Fixtures.chat_with (Some "  ")))) = Ret true
  /\ fst (isChatContainerEmpty
            (Fixtures.start (fun _ => Fixtures.chat_with (Some " Hi ")))) = Ret false.
Proof.
  split; [reflexivity |]. split.
  - exact (isChatContainerEmpty_iff_blank
             (Fixtures.start (fun _ => Fixtures.chat_with (Some "  ")))
             (Some "  "%string) eq_refl).
  - exact (isChatContainerEmpty_iff_blank
             (Fixtures.start (fun _ => Fixtures.chat_with (Some " Hi ")))
             (Some " Hi "%string) eq_refl).
Defined.

(** ** UserJourneyFlow.askQuestionAndWaitForResponse *)

Lemma askQuestion_run (question : string) (s : session) (enabled : bool)
    (H : isEnabled_at (world s (3 + clock s)%nat) askButton = Got enabled)
    (Hlive : allows (fun e => is_loadState e || is_wait e || is_fill e)%bool s)
    (Hclick : enabled = true ->
              action_at (world s (3 + clock s)%nat) (EvClick askButton) = None) :
  exists s',
    ChatComponent.askQuestion question s = (Ret enabled, s')
    /\ waitFor_calls s' = waitFor_calls s
    /\ isVisible_calls s' = isVisible_calls s
    /\ ask_clicks s' = ((if enabled then 1 else 0) + ask_clicks s)%nat.
Proof.
  set (s3 := tick (log (EvFill questionInput question)
               (tick (log (EvWaitForTimeout 2000)
                  (tick (log (EvWaitForLoadState "networkidle") s)))))).
  assert (E : ChatComponent.askQuestion question s
              = (match fst (clickAskButton s3) with
                 | Ret b => Ret b | Throw m => Throw m | Unfinished => Unfinished
                 end, snd (clickAskButton s3))).
  { unfold ChatComponent.askQuestion, bind, fillQuestion. calm Hlive.
    fold s3. unfold ret.
    destruct (clickAskButton s3) as [[b | m |] s']; reflexivity. }
  destruct (clickAskButton_run s3 enabled H Hclick) as (Hr & Hn).
  exists (snd (clickAskButton s3)). rewrite E, Hr. split; [reflexivity |].
  split; [| split; [| exact Hn]].
  - unfold clickAskButton, bind, isEnabled, ask.
    change (now s3) with (world s (3 + clock s)%nat). rewrite H.
    destruct enabled; cbn [negb]; [| reflexivity].
    destruct (click_run askButton (log (EvIsEnabled askButton) s3)) as (_ & _ & _ & Hp).
    destruct (click askButton (log (EvIsEnabled askButton) s3)) as [rc sc].
    cbn [fst snd] in *. destruct rc as [[] | m |]; cbn [fst snd ret];
      unfold waitFor_calls; rewrite Hp by reflexivity; reflexivity.
  - unfold clickAskButton, bind, isEnabled, ask.
    change (now s3) with (world s (3 + clock s)%nat). rewrite H.
    destruct enabled; cbn [negb]; [| reflexivity].
    destruct (click_run askButton (log (EvIsEnabled askButton) s3)) as (_ & _ & _ & Hp).
    destruct (click askButton (log (EvIsEnabled askButton) s3)) as [rc sc].
    cbn [fst snd] in *. destruct rc as [[] | m |]; cbn [fst snd ret];
      unfold isVisible_calls; rewrite Hp by reflexivity; reflexivity.
Qed.

(** X14. When the ask button is disabled, askQuestionAndWaitForResponse
    resolves at once with { response: null, clicked: false }: it does not
    click, does not wait for the chat container and does not look for an
    answer.  (The wait for the load state, the pause and the fill that
    askQuestion makes before it looks at the button are taken to go
    through.) *)
Theorem askQuestionAndWaitForResponse_when_disabled (s : session) (q : string)
    (Hdisabled : isEnabled_at (world s (3 + clock s)%nat) askButton = Got false)
    (Hlive : allows (fun e => is_loadState e || is_wait e || is_fill e)%bool s) :
  let run := UserJourneyFlow.askQuestionAndWaitForResponse q s in
  fst run = Ret {| UserJourneyFlow.question := q;
                   UserJourneyFlow.response := None;
                   UserJourneyFlow.clicked := false |}
  /\ ask_clicks (snd run) = ask_clicks s
  /\ waitFor_calls (snd run) = waitFor_calls s
  /\ isVisible_calls (snd run) = isVisible_calls s.
Proof.
  destruct (askQuestion_run q s false Hdisabled Hlive) as (s' & E & Hf & Hv & Hk);
    [discriminate |].
  cbv zeta. unfold UserJourneyFlow.askQuestionAndWaitForResponse, bind.
  rewrite E. cbn [negb fst snd ret]. repeat split; assumption.
Qed.

Lemma askQuestionAndWaitForResponse_when_disabled_witness :
  let run := UserJourneyFlow.askQuestionAndWaitForResponse "What is the main topic?"
               (Fixtures.start (fun _ => Fixtures.chat_with (Some "Hello"))) in
  fst run = Ret {| UserJourneyFlow.question := "What is the main topic?";
                   UserJourneyFlow.response := None;
                   UserJourneyFlow.clicked := false |}
  /\ ask_clicks (snd run) = 0%nat
  /\ waitFor_calls (snd run) = 0%nat
  /\ isVisible_calls (snd run) = 0%nat.
Proof.
  exact (askQuestionAndWaitForResponse_when_disabled
           (Fixtures.start (fun _ => Fixtures.chat_with (Some "Hello")))
           "What is the main topic?" eq_refl (fun _ _ _ => eq_refl)).
Defined.

(** ** The global setup: endpoints and back-off *)

Lemma goto_urls_log (e : event) (s : session) :
  goto_urls (log e s)
  = goto_urls s ++ match e with EvGoto url => [url] | _ => [] end.
Proof.
  unfold goto_urls, history. cbn [log trace rev].
  rewrite flat_map_app. cbn [flat_map]. rewrite app_nil_r. reflexivity.
Qed.

Lemma wait_delays_log (e : event) (s : session) :
  wait_delays (log e s)
  = wait_delays s ++ match e with EvWaitForTimeout ms => [ms] | _ => [] end.
Proof.
  unfold wait_delays, history. cbn [log trace rev].
  rewrite flat_map_app. cbn [flat_map]. rewrite app_nil_r. reflexivity.
Qed.

Lemma verifyEndpoints_any (rest : list (string * string)) :
  forall s : session,
    exists s',
      verifyEndpoints rest s = (Ret tt, s')
      /\ goto_urls s' = goto_urls s ++ map fst rest
      /\ wait_delays s' = wait_delays s.
Proof.
  induction rest as [| endpoint rest IH]; intros s.
  - exists s. cbn. rewrite app_nil_r. repeat split.
  - cbn [verifyEndpoints map]. unfold bind at 1. unfold try_catch, bind, goto.
    destruct (IH (tick (log (EvGoto (fst endpoint)) s))) as (s' & E & Hg & Hd).
    exists s'.
    assert (Hg1 : goto_urls (tick (log (EvGoto (fst endpoint)) s))
                  = goto_urls s ++ [fst endpoint]) by apply goto_urls_log.
    assert (Hd1 : wait_delays (tick (log (EvGoto (fst endpoint)) s))
                  = wait_delays s).
    { change (wait_delays (log (EvGoto (fst endpoint)) s) = wait_delays s).
      rewrite wait_delays_log. apply app_nil_r. }
    rewrite Hg1 in Hg. rewrite Hd1 in Hd. rewrite <- app_assoc in Hg.
    destruct (goto_at (now s) (fst endpoint)) as [resp | m]; cbn [ret];
      (split; [exact E | split; [exact Hg | exact Hd]]).
Qed.

(** X15. The endpoint check of the global setup cannot fail it: whatever
    the endpoints answer (not ok, no response, an error), each url is
    visited once, in the order of the list, and the loop resolves. *)
Theorem verifyEndpoints_never_rejects (s : session)
    (rest : list (string * string)) :
  fst (verifyEndpoints rest s) = Ret tt
  /\ goto_urls (snd (verifyEndpoints rest s)) = goto_urls s ++ map fst rest.
Proof.
  destruct (verifyEndpoints_any rest s) as (s' & E & Hg & _).
  rewrite E. split; [reflexivity | exact Hg].
Qed.

(** After [n] refused probes in a row the loop has slept [n] times, with the
    delays of the sequence, and carries the next delay. *)
Lemma globalSetup_loop_refused (n : nat) :
  forall (fuel : nat) (i : nat) (s : session),
    Z.of_nat i + Z.of_nat n <= maxRetries ->
    (forall j : nat, (j < n)%nat ->
       exists m, goto_at (world s (clock s + 2 * j)%nat) healthUrl = Rejected m) ->
    allows is_wait s ->
    exists s1,
      globalSetup_loop (n + fuel) (Z.of_nat i) (delay_after i) s
      = globalSetup_loop fuel (Z.of_nat (i + n)) (delay_after (i + n)) s1
      /\ world s1 = world s /\ clock s1 = (clock s + 2 * n)%nat
      /\ gotos s1 = (n + gotos s)%nat
      /\ wait_delays s1 = wait_delays s ++ map delay_after (seq i n).
Proof.
  induction n as [| n IH]; intros fuel i s Hroom Hrej Hlive.
  - exists s. split.
    { replace (i + 0)%nat with i by lia. reflexivity. }
    split; [reflexivity |]. split; [lia |]. split; [reflexivity |].
    cbn [seq map]. rewrite app_nil_r. reflexivity.
  - destruct (Hrej 0%nat) as [m Hm]; [lia |].
    rewrite Nat.mul_0_r, Nat.add_0_r in Hm.
    cbn [Nat.add].
    rewrite (waitForApplication_rejected (n + fuel) (Z.of_nat i) (delay_after i) s m);
      [| lia | exact Hm | exact Hlive].
    set (s0 := tick (log (EvWaitForTimeout (delay_after i))
                 (tick (log (EvGoto healthUrl) s)))).
    replace (Z.of_nat i + 1) with (Z.of_nat (S i)) by lia.
    change (next_delay (delay_after i)) with (delay_after (S i)).
    destruct (IH fuel (S i) s0) as (s1 & E & Hw & Hc & Hg & Hd).
    + lia.
    + intros j Hj. destruct (Hrej (S j)) as [m' Hm']; [lia |].
      exists m'. subst s0. cbn [tick log world clock].
      replace (S (S (clock s)) + 2 * j)%nat with (clock s + 2 * S j)%nat by lia.
      exact Hm'.
    + exact Hlive.
    + exists s1. rewrite E.
      replace (S i + n)%nat with (i + S n)%nat by lia.
      split; [reflexivity |]. split; [exact Hw |]. split.
      * rewrite Hc. subst s0. cbn [tick log clock]. lia.
      * split.
        -- rewrite Hg. subst s0. count_events. lia.
        -- rewrite Hd. subst s0.
           change (wait_delays (log (EvWaitForTimeout (delay_after i))
                                  (tick (log (EvGoto healthUrl) s)))
                   ++ map delay_after (seq (S i) n)
                   = wait_delays s ++ map delay_after (seq i (S n))).
           rewrite wait_delays_log.
           change (wait_delays (tick (log (EvGoto healthUrl) s)))
             with (wait_delays (log (EvGoto healthUrl) s)).
           rewrite wait_delays_log, app_nil_r, <- app_assoc. reflexivity.
Qed.

(** X16. When the first k - 1 probes of the health endpoint are refused
    and the k-th gets an ok response (k <= 12), the readiness loop leaves
    after k probes and the setup goes on; it has slept k - 1 times, and the
    sleeps are the first k - 1 delays of the back-off sequence, in order
    (2500, 3750, 5625, ... capped at 15000).  (The sleeps are taken to go
    through: one that is rejected ends the setup with its error.) *)
Theorem globalSetup_ready_at_kth_probe (s : session) (k fuel : nat)
    (Hk : (1 <= k <= 12)%nat) (Hfuel : (k <= fuel)%nat)
    (Hrefused : forall j : nat, (j < k - 1)%nat ->
       exists m, goto_at (world s (clock s + 2 * j)%nat) healthUrl = Rejected m)
    (Hok : goto_at (world s (clock s + 2 * (k - 1))%nat) healthUrl
           = Got (Some true))
    (Hlive : allows is_wait s) :
  let run := globalSetup_ready fuel s in
  fst run = Ret tt
  /\ gotos (snd run) = (k + gotos s)%nat
  /\ wait_delays (snd run) = wait_delays s ++ map delay_after (seq 0 (k - 1)).
Proof.
  cbv zeta.
  destruct (globalSetup_loop_refused (k - 1) (fuel - (k - 1)) 0 s)
    as (s1 & E & Hw & Hc & Hg & Hd);
    [unfold maxRetries; lia | exact Hrefused | exact Hlive |].
  replace (k - 1 + (fuel - (k - 1)))%nat with fuel in E by lia.
  unfold globalSetup_ready, bind.
  change initialDelay with (delay_after 0).
  change 0 with (Z.of_nat 0). rewrite E.
  destruct (fuel - (k - 1))%nat as [| fuel'] eqn:Ef; [lia |].
  cbn [globalSetup_loop].
  assert (Hlt : (Z.of_nat (0 + (k - 1)) <? maxRetries) = true)
    by (apply Z.ltb_lt; unfold maxRetries; lia).
  rewrite Hlt. unfold bind, try_catch, goto.
  unfold now. rewrite Hw, Hc, Hok. cbn [ret].
  assert (Hle : (maxRetries <=? Z.of_nat (0 + (k - 1))) = false)
    by (apply Z.leb_gt; unfold maxRetries; lia).
  rewrite Hle. unfold ret. cbn [fst snd]. split; [reflexivity |]. split.
  - count_events. lia.
  - change (wait_delays (log (EvGoto healthUrl) s1)
            = wait_delays s ++ map delay_after (seq 0 (k - 1))).
    rewrite wait_delays_log, app_nil_r. exact Hd.
Qed.

(** X17. When every probe is refused, the setup gives up after 12 probes;
    its 12 sleeps are exactly the first 12 delays of the back-off sequence,
    in order.  (The sleeps are taken to go through.) *)
Theorem globalSetup_backs_off_until_it_gives_up (s : session) (fuel : nat)
    (Hfuel : (12 <= fuel)%nat)
    (Hrefused : forall t : nat,
       exists m, goto_at (world s t) healthUrl = Rejected m)
    (Hlive : allows is_wait s) :
  let run := globalSetup_ready fuel s in
  fst run = Throw "❌ Application failed to start within timeout period"
  /\ gotos (snd run) = (12 + gotos s)%nat
  /\ wait_delays (snd run) = wait_delays s ++ map delay_after (seq 0 12).
Proof.
  cbv zeta.
  destruct (globalSetup_loop_refused 12 (fuel - 12) 0 s)
    as (s1 & E & Hw & Hc & Hg & Hd); [unfold maxRetries; lia | | exact Hlive |].
  { intros j _. apply Hrefused. }
  replace (12 + (fuel - 12))%nat with fuel in E by lia.
  unfold globalSetup_ready, bind.
  change initialDelay with (delay_after 0).
  change 0 with (Z.of_nat 0). rewrite E.
  assert (Hdone : forall f d st,
             globalSetup_loop f (Z.of_nat (0 + 12)) d st
             = (Ret (Z.of_nat (0 + 12), d), st)).
  { intros f d st. destruct f; reflexivity. }
  rewrite Hdone. cbn [fst snd].
  split; [reflexivity |]. split; assumption.
Qed.

(** Two probes are refused, the third one is answered. *)
Lemma globalSetup_ready_at_kth_probe_witness :
  let run := globalSetup_ready 12 (Fixtures.up_from 4) in
  fst run = Ret tt
  /\ gotos (snd run) = 3%nat
  /\ wait_delays (snd run) = [delay_after 0; delay_after 1].
Proof.
  assert (Hsmall : forall j : nat, (S (S j) < 3 - 1)%nat -> False).
  { intros j Hj. cbn in Hj. apply Nat.lt_irrefl with (x := 2%nat).
    apply Nat.le_lt_trans with (m := S (S j)); [| exact Hj].
    apply le_n_S, le_n_S, Nat.le_0_l. }
  refine (globalSetup_ready_at_kth_probe (Fixtures.up_from 4) 3 12 _ _ _ eq_refl _).
  - split; repeat constructor.
  - repeat constructor.
  - intros j Hj. exists "page.goto: net::ERR_CONNECTION_REFUSED"%string.
    destruct j as [| [| j]]; [reflexivity | reflexivity |].
    destruct (Hsmall j Hj).
  - intros t e He. destruct e; try discriminate He.
    unfold Fixtures.up_from, Fixtures.start. cbn [world].
    destruct (t <? 4)%nat; reflexivity.
Defined.

Lemma globalSetup_backs_off_until_it_gives_up_witness :
  let run := globalSetup_ready 12 (Fixtures.start (fun _ => Fixtures.unreachable)) in
  fst run = Throw "❌ Application failed to start within timeout period"
  /\ gotos (snd run) = 12%nat
  /\ wait_delays (snd run) = map delay_after (seq 0 12).
Proof.
  refine (globalSetup_backs_off_until_it_gives_up
            (Fixtures.start (fun _ => Fixtures.unreachable)) 12 _ _ _).
  - apply le_n.
  - intros t. exists "page.goto: net::ERR_CONNECTION_REFUSED"%string. reflexivity.
  - intros t e He. destruct e; try discriminate He. reflexivity.
Defined.

(** ** The soft polls of the journeys *)

Lemma TC001_step4_any :
  forall (fuel : nat) (attempt : Z) (s : session) (r : result bool)
         (s' : session),
    11 - attempt <= Z.of_nat fuel ->
    TC001_step4 fuel attempt s = (r, s') ->
    world s' = world s
    /\ match r with
       | Ret _ => True
       | Throw m => refused_by (world s) is_wait m
       | Unfinished => False
       end
    /\ (isVisible_calls s' <= Z.to_nat (11 - attempt) + isVisible_calls s)%nat
    /\ (waits s' <= Z.to_nat (10 - attempt) + waits s)%nat
    /\ clicks s' = clicks s.
Proof.
  induction fuel as [| fuel IH]; intros attempt s r s' Hfuel Hrun;
    cbn [TC001_step4] in Hrun;
    destruct (attempt <=? 10) eqn:Hin;
    try (injection Hrun as <- <-; split; [reflexivity |];
         split; [exact I |]; repeat split; lia).
  { apply Z.leb_le in Hin. exfalso. lia. }
  apply Z.leb_le in Hin.
  assert (Hnext : forall s1 : session,
             world s1 = world s ->
             (isVisible_calls s1 <= 1 + isVisible_calls s)%nat ->
             waits s1 = waits s -> clicks s1 = clicks s ->
             ((if attempt <? 10 then waitForTimeout 300 else ret tt) ;;
              TC001_step4 fuel (attempt + 1))%js s1 = (r, s') ->
             world s' = world s
             /\ match r with
                | Ret _ => True
                | Throw m => refused_by (world s) is_wait m
                | Unfinished => False
                end
             /\ (isVisible_calls s'
                 <= Z.to_nat (11 - attempt) + isVisible_calls s)%nat
             /\ (waits s' <= Z.to_nat (10 - attempt) + waits s)%nat
             /\ clicks s' = clicks s).
  { intros s1 Hw1 Hv1 Hs1 Hk1 Hrun1. unfold bind in Hrun1.
    destruct (attempt <? 10) eqn:Hmore.
    - apply Z.ltb_lt in Hmore. unfold waitForTimeout in Hrun1.
      rewrite act_run in Hrun1.
      assert (Hv2 : isVisible_calls (tick (log (EvWaitForTimeout 300) s1))
                    = isVisible_calls s1) by reflexivity.
      assert (Hs2 : waits (tick (log (EvWaitForTimeout 300) s1))
                    = (1 + waits s1)%nat) by reflexivity.
      assert (Hk2 : clicks (tick (log (EvWaitForTimeout 300) s1)) = clicks s1)
        by reflexivity.
      destruct (action_at (now s1) (EvWaitForTimeout 300)) as [detail |] eqn:Ea.
      + injection Hrun1 as <- <-. split; [exact Hw1 |]. split.
        * exists (clock s1), (EvWaitForTimeout 300), detail.
          split; [reflexivity |]. split; [| reflexivity].
          rewrite <- Hw1. exact Ea.
        * repeat split; first [lia | congruence].
      + destruct (IH (attempt + 1) (tick (log (EvWaitForTimeout 300) s1)) r s')
          as (Hw & Hres & Hv & Hs & Hk); [lia | exact Hrun1 |].
        cbn [world tick log] in Hw, Hres. rewrite Hw1 in Hw, Hres.
        split; [exact Hw |]. split; [exact Hres |].
        repeat split; first [lia | congruence].
    - apply Z.ltb_ge in Hmore. unfold ret in Hrun1.
      destruct (IH (attempt + 1) s1 r s') as (Hw & Hres & Hv & Hs & Hk);
        [lia | exact Hrun1 |].
      rewrite Hw1 in Hw, Hres.
      split; [exact Hw |]. split; [exact Hres |].
      repeat split; first [lia | congruence]. }
  unfold bind at 1 in Hrun. unfold try_catch, bind, isVisible, ask in Hrun.
  destruct (isVisible_at (now s) successMessage) as [[|] | m].
  - unfold textContent, ask in Hrun. cbn [now log world clock] in Hrun.
    destruct (textContent_at (world s (clock s)) successMessage) as [t | m];
      cbn [ret] in Hrun.
    + injection Hrun as <- <-. split; [reflexivity |]. split; [exact I |].
      count_events. repeat split; lia.
    + eapply Hnext; [ | | | | exact Hrun]; reflexivity.
  - cbn [ret] in Hrun. eapply Hnext; [ | | | | exact Hrun]; reflexivity.
  - cbn [ret] in Hrun. eapply Hnext; [ | | | | exact Hrun]; reflexivity.
Qed.

(** X18. In step 4 of TC001 no query can fail the test: an error of
    isVisible or textContent is swallowed by the catch block.  The search
    for the success message makes at most 10 visibility checks and 9 pauses
    and clicks nothing; it rejects only with the error of a pause that the
    page refuses (the pause stands outside the try block), and resolves on
    every page that lets the pauses through. *)
Theorem TC001_step4_outcome (s : session) :
  let run := TC001_step4 10 1 s in
  match fst run with
  | Ret _ => True
  | Throw m => refused_by (world s) is_wait m
  | Unfinished => False
  end
  /\ (allows is_wait s -> exists found, fst run = Ret found)
  /\ (isVisible_calls (snd run) <= 10 + isVisible_calls s)%nat
  /\ (waits (snd run) <= 9 + waits s)%nat
  /\ clicks (snd run) = clicks s.
Proof.
  cbv zeta. destruct (TC001_step4 10 1 s) as [r s'] eqn:E.
  destruct (TC001_step4_any 10 1 s r s') as (Hw & Hres & Hv & Hs & Hk);
    [lia | exact E |].
  cbn [fst snd]. split; [exact Hres |]. split.
  - intros Hlive. destruct r as [found | m |].
    + exists found. reflexivity.
    + destruct (allows_not_refused _ _ _ Hlive Hres).
    + destruct Hres.
  - repeat split; try assumption; lia.
Qed.

(** ** TC004: the verdict of the selection step *)

(** On a page that lets the pauses through a model is counted once. *)
Lemma TC004_loop_calm :
  forall (models : list model) (t : tally) (s : session) (r : result tally)
         (s' : session),
    allows is_wait s ->
    TC004_loop models t s = (r, s') ->
    exists t' : tally,
      r = Ret t'
      /\ (successCount t' - successCount t) + (failureCount t' - failureCount t)
         = Z.of_nat (selections s' - selections s).
Proof.
  induction models as [| m rest IH]; intros t s r s' Hlive Hrun;
    cbn [TC004_loop] in Hrun.
  { unfold ret in Hrun. injection Hrun as <- <-. exists t.
    split; [reflexivity | lia]. }
  unfold bind at 1 in Hrun.
  destruct (TC004_try m match rest with [] => true | _ :: _ => false end t s)
    as [rt s1] eqn:Et.
  destruct (TC004_try_any _ _ _ _ _ _ Et)
    as (Hw1 & Hs1 & _ & t1 & error & -> & _ & Hsc1 & Hfc1 & _ & Hone1 & _ & Hcount1).
  cbv beta iota in Hrun.
  destruct error as [message |].
  - destruct (Hcount1 message eq_refl) as [[Hsc Hfc] | Hrefused];
      [| destruct (allows_not_refused _ _ _ Hlive Hrefused)].
    unfold bind at 1 in Hrun.
    destruct (TC004_catch message t1 s1) as [rc s2] eqn:Ecatch.
    destruct (TC004_catch_any _ _ _ _ _ Ecatch)
      as (Hw2 & Hs2 & _ & t2 & continue & -> & Hsc2 & Hfc2).
    cbv beta iota in Hrun. destruct continue.
    + destruct (TC004_loop_any _ _ _ _ _ Hrun) as (_ & _ & _ & _ & Hsel & _).
      destruct (IH t2 s2 r s') as (t' & -> & Hsum); [| exact Hrun |].
      { apply (allows_world _ _ _ (eq_trans Hw2 Hw1) Hlive). }
      exists t'. split; [reflexivity | lia].
    + unfold ret in Hrun. injection Hrun as <- <-. exists t2.
      split; [reflexivity | lia].
  - specialize (Hone1 eq_refl).
    destruct (TC004_loop_any _ _ _ _ _ Hrun) as (_ & _ & _ & _ & Hsel & _).
    destruct (IH t1 s1 r s') as (t' & -> & Hsum); [| exact Hrun |].
    { apply (allows_world _ _ _ Hw1 Hlive). }
    exists t'. split; [reflexivity | lia].
Qed.

(** X19. Step 3 of TC004 never fails with the error of a selection or of
    a pause: on any page and for any list of models, the step either
    passes, and then no failure was counted, or it rejects with the report
    of the counts, with at least one failure.  No model is asked for twice,
    and the page is reloaded at most once per counted failure.  The two
    counters are updated in place, so a model can be counted twice: as a
    success or a failure by the try block and, when the pause after it is
    rejected, as a failure by the catch block; the counts add up to between
    once and twice the number of models tried, and to exactly that number
    on a page that lets the pauses through. *)
Theorem TC004_select_models_verdict (toFixed1 : Z -> Z -> string)
    (selector : locator) (models : list model) (s : session) :
  let run := TC004_select_models toFixed1 selector models s in
  let tried := (selections (snd run) - selections s)%nat in
  let length := Z.of_nat (List.length models) in
  (tried <= List.length models)%nat
  /\ exists successes failures : Z,
       0 <= successes /\ 0 <= failures
       /\ Z.of_nat tried <= successes + failures <= 2 * Z.of_nat tried
       /\ (allows is_wait s -> successes + failures = Z.of_nat tried)
       /\ Z.of_nat (reloads (snd run) - reloads s) <= failures
       /\ fst run
          = if 0 <? failures
            then Throw ("Model selection not 100% successful: "
                        ++ toFixed1 successes length ++ "% ("
                        ++ string_of_Z successes ++ "/" ++ string_of_Z length
                        ++ "). Failures: " ++ string_of_Z failures)%string
            else Ret tt.
Proof.
  cbv zeta. unfold TC004_select_models. unfold bind.
  destruct (TC004_loop models
              {| modelSelector := selector; successCount := 0;
                 failureCount := 0 |} s) as [r s'] eqn:E.
  destruct (TC004_loop_any _ _ _ _ _ E)
    as (t' & -> & H1 & H2 & H3 & H4 & H5 & H6).
  cbn [successCount failureCount] in H1, H2, H4, H6.
  assert (Hcalm : allows is_wait s ->
                  successCount t' + failureCount t'
                  = Z.of_nat (selections s' - selections s)).
  { intros Hlive. destruct (TC004_loop_calm _ _ _ _ _ Hlive E) as (t'' & Ht & Hsum).
    injection Ht as <-. cbn [successCount failureCount] in Hsum. lia. }
  destruct (0 <? failureCount t') eqn:Hf; unfold throw, ret; cbn [fst snd];
    (split; [lia |]); exists (successCount t'), (failureCount t');
    rewrite Hf; repeat split; first [lia | reflexivity | exact Hcalm].
Qed.

(** ** components/FileUploadComponent.js *)

Import FileUploadComponent.

Lemma lower_latin1_dot (c : ascii) :
  Ascii.eqb (lower_latin1 c) "." = Ascii.eqb c ".".
Proof.
  destruct c as [[] [] [] [] [] [] [] []]; reflexivity.
Qed.

Lemma String_toLowerCase_app (a b : string) :
  String_toLowerCase (a ++ b)%string
  = (String_toLowerCase a ++ String_toLowerCase b)%string.
Proof.
  induction a as [| c a IH]; cbn [String.append String_toLowerCase];
    [reflexivity | rewrite IH; reflexivity].
Qed.

Lemma String_toLowerCase_length (a : string) :
  String.length (String_toLowerCase a) = String.length a.
Proof.
  induction a as [| c a IH]; cbn [String.length String_toLowerCase];
    [reflexivity | rewrite IH; reflexivity].
Qed.

Lemma drop_app (a b : string) : drop (String.length a) (a ++ b)%string = b.
Proof.
  induction a as [| c a IH]; cbn [String.length String.append drop];
    [destruct b; reflexivity | exact IH].
Qed.

Lemma lastIndexOf_from_dotless :
  forall (ext : string) (i found : Z),
    dotless ext = true -> lastIndexOf_from ext "." i found = found.
Proof.
  unfold dotless. induction ext as [| c ext IH]; intros i found Hext;
    cbn [lastIndexOf_from]; [reflexivity |].
  cbn [list_ascii_of_string forallb] in Hext.
  apply andb_true_iff in Hext. destruct Hext as [Hc Hext].
  apply negb_true_iff in Hc. rewrite Hc. apply IH. exact Hext.
Qed.

Lemma lastIndexOf_from_last_dot (ext : string) (Hext : dotless ext = true) :
  forall (stem : string) (i found : Z),
    lastIndexOf_from (stem ++ String "." ext)%string "." i found
    = i + Z.of_nat (String.length stem).
Proof.
  induction stem as [| c stem IH]; intros i found;
    cbn [String.append lastIndexOf_from String.length].
  - change (Ascii.eqb "." ".") with true. cbv iota.
    rewrite lastIndexOf_from_dotless by exact Hext. cbn. lia.
  - rewrite IH. lia.
Qed.

(** X20. A path with no dot in it is never accepted, whatever it is called:
    lastIndexOf gives -1 and the whole lower-cased path is taken for the
    extension. *)
Theorem validateFileType_needs_a_dot (filePath : string)
    (Hdotless : dotless filePath = true) :
  validateFileType filePath = false.
Proof.
  unfold validateFileType, lastIndexOf.
  rewrite lastIndexOf_from_dotless by exact Hdotless.
  unfold substring_from. change (Z.to_nat (-1)) with 0%nat.
  destruct filePath as [| c rest]; [reflexivity |].
  unfold dotless in Hdotless. cbn [list_ascii_of_string forallb] in Hdotless.
  apply andb_true_iff in Hdotless. destruct Hdotless as [Hc _].
  apply negb_true_iff in Hc.
  cbn [String_toLowerCase drop existsb String.eqb].
  rewrite lower_latin1_dot, Hc. reflexivity.
Qed.

Lemma validateFileType_needs_a_dot_witness : validateFileType "pdf" = false.
Proof.
  exact (validateFileType_needs_a_dot "pdf" eq_refl).
Defined.

(** X21. What follows the last dot decides: a path [stem.ext], with no dot
    in [ext], is accepted exactly when [ext] in lower case is pdf, md or txt.
    The stem, its dots and its directories play no part, and the case of the
    extension does not matter. *)
Theorem validateFileType_by_last_extension (stem ext : string)
    (Hext : dotless ext = true) :
  validateFileType (stem ++ "." ++ ext)%string
  = existsb (String.eqb (String_toLowerCase ext)) ["pdf"; "md"; "txt"]%string.
Proof.
  unfold validateFileType, lastIndexOf, substring_from.
  change ("." ++ ext)%string with (String "." ext).
  rewrite lastIndexOf_from_last_dot by exact Hext.
  rewrite Z.add_0_l, Nat2Z.id.
  rewrite String_toLowerCase_app.
  rewrite <- (String_toLowerCase_length stem), drop_app.
  cbn [String_toLowerCase existsb String.eqb].
  change (Ascii.eqb (lower_latin1 ".") ".") with true. cbv iota.
  reflexivity.
Qed.

Lemma validateFileType_by_last_extension_witness :
  validateFileType ("docs.v2/Report" ++ "." ++ "PDF")%string
  = existsb (String.eqb (String_toLowerCase "PDF")) ["pdf"; "md"; "txt"]%string.
Proof.
  exact (validateFileType_by_last_extension "docs.v2/Report" "PDF" eq_refl).
Defined.

Lemma waitForUploadComplete_alternatives_any :
  forall (selectors : list string) (s : session) (r : result bool)
         (s' : session),
    waitForUploadComplete_alternatives selectors s = (r, s') ->
    (exists done, r = Ret done)
    /\ world s' = world s
    /\ (clock s <= clock s')%nat
    /\ (count_calls s' <= List.length selectors + count_calls s)%nat
    /\ inputValue_calls s' = inputValue_calls s
    /\ clicks s' = clicks s.
Proof.
  induction selectors as [| selector rest IH]; intros s r s' Hrun;
    cbn [waitForUploadComplete_alternatives] in Hrun.
  { unfold ret in Hrun. injection Hrun as <- <-.
    split; [eexists; reflexivity |]. repeat split; lia. }
  assert (Hnext : forall s1 : session,
             world s1 = world s ->
             (clock s <= clock s1)%nat ->
             count_calls s1 = (1 + count_calls s)%nat ->
             inputValue_calls s1 = inputValue_calls s ->
             clicks s1 = clicks s ->
             waitForUploadComplete_alternatives rest s1 = (r, s') ->
             (exists done, r = Ret done)
             /\ world s' = world s
             /\ (clock s <= clock s')%nat
             /\ (count_calls s' <= List.length (selector :: rest) + count_calls s)%nat
             /\ inputValue_calls s' = inputValue_calls s
             /\ clicks s' = clicks s).
  { intros s1 Hw1 Hc1 Hn1 Hi1 Hk1 Hrest.
    destruct (IH s1 r s' Hrest) as (Hres & Hw & Hc & Hn & Hi & Hk).
    split; [exact Hres |]. cbn [List.length].
    repeat split; first [lia | congruence]. }
  unfold bind at 1 in Hrun.
  unfold try_catch, bind, count, ask, waitFor_visible, now in Hrun.
  cbn [log tick world clock] in Hrun.
  destruct (count_at (world s (clock s)) (Loc selector)) as [n | e];
    cbv beta iota in Hrun.
  - destruct (0 <? n)%nat; cbv beta iota in Hrun.
    + cbn [log tick world clock] in Hrun.
      destruct (isVisible_at (world s (clock s)) (First (Loc selector)))
        as [[|] | e]; cbv beta iota in Hrun; unfold ret in Hrun.
      * injection Hrun as <- <-. split; [eexists; reflexivity |].
        cbn [List.length clock tick log world]. count_events.
        repeat split; lia.
      * eapply Hnext; [ | | | | | exact Hrun];
          first [reflexivity | cbn [clock tick log]; lia].
      * eapply Hnext; [ | | | | | exact Hrun];
          first [reflexivity | cbn [clock tick log]; lia].
    + unfold ret in Hrun.
      eapply Hnext; [ | | | | | exact Hrun];
        first [reflexivity | cbn [clock tick log]; lia].
  - unfold ret in Hrun.
    eapply Hnext; [ | | | | | exact Hrun];
      first [reflexivity | cbn [clock tick log]; lia].
Qed.

(** What the catch block of waitForUploadComplete does with the error of the
    first wait. *)
Lemma waitForUploadComplete_catch_any (error : string) (s0 : session)
    (r : result unit) (s' : session) :
  let fileInput := Loc ("input[type=" ++ dq ++ "file" ++ dq ++ "]")%string in
  (done <- waitForUploadComplete_alternatives alternativeSelectors ;;
   if done : bool then ret tt
   else
     fileValue <- inputValue fileInput ;;
     if String.eqb fileValue "" then ret tt else throw error)%js s0 = (r, s') ->
  (count_calls s' <= 7 + count_calls s0)%nat
  /\ (inputValue_calls s' <= 1 + inputValue_calls s0)%nat
  /\ clicks s' = clicks s0
  /\ match r with
     | Ret _ => True
     | Throw m =>
         (m = error
          /\ inputValue_calls s' = (1 + inputValue_calls s0)%nat
          /\ exists (t : nat) (v : string),
               (clock s0 <= t)%nat
               /\ inputValue_at (world s0 t) fileInput = Got v
               /\ v <> ""%string)
         \/ exists t : nat,
              (clock s0 <= t)%nat
              /\ inputValue_at (world s0 t) fileInput = Rejected m
     | Unfinished => False
     end.
Proof.
  cbv zeta. intros Hrun. unfold bind at 1 in Hrun.
  destruct (waitForUploadComplete_alternatives alternativeSelectors s0)
    as [ra s1] eqn:Ea.
  destruct (waitForUploadComplete_alternatives_any _ _ _ _ Ea)
    as ([done ->] & Hw & Hc & Hn & Hi & Hk).
  change (List.length alternativeSelectors) with 7%nat in Hn.
  destruct done.
  { unfold ret in Hrun. injection Hrun as <- <-. repeat split; lia. }
  unfold bind, inputValue, ask, now in Hrun. rewrite Hw in Hrun.
  destruct (inputValue_at (world s0 (clock s1))
              (Loc ("input[type=" ++ dq ++ "file" ++ dq ++ "]")%string))
    as [v | e] eqn:Hread.
  - destruct (String.eqb v "") eqn:Hv; unfold ret, throw in Hrun;
      injection Hrun as <- <-; count_events;
      (split; [lia |]); (split; [lia |]); (split; [lia |]); [exact I |].
    left. split; [reflexivity |]. split; [lia |].
    exists (clock s1), v. split; [exact Hc |]. split; [exact Hread |].
    intros ->. discriminate Hv.
  - injection Hrun as <- <-; count_events.
    (split; [lia |]); (split; [lia |]); (split; [lia |]).
    right. exists (clock s1). split; [exact Hc | exact Hread].
Qed.

(** X22. waitForUploadComplete resolves at once when the standard status
    shows.  Otherwise no error of an alternative selector comes out of it:
    it resolves, or rejects with the error of the first wait after the file
    input was read with a non-empty value, or rejects with the error of that
    one read of the input.  It counts at most 7 alternatives and clicks
    nothing. *)
Theorem waitForUploadComplete_outcome (s : session) :
  let run := waitForUploadComplete s in
  let fileInput := Loc ("input[type=" ++ dq ++ "file" ++ dq ++ "]")%string in
  (isVisible_at (now s) uploadStatus = Got true ->
   run = (Ret tt, tick (log (EvWaitFor uploadStatus "visible") s)))
  /\ (count_calls (snd run) <= 7 + count_calls s)%nat
  /\ (inputValue_calls (snd run) <= 1 + inputValue_calls s)%nat
  /\ clicks (snd run) = clicks s
  /\ match fst run with
     | Ret _ => True
     | Throw m =>
         (fst (waitFor_visible uploadStatus s) = Throw m
          /\ inputValue_calls (snd run) = (1 + inputValue_calls s)%nat
          /\ exists (t : nat) (v : string),
               (clock s < t)%nat
               /\ inputValue_at (world s t) fileInput = Got v
               /\ v <> ""%string)
         \/ exists t : nat,
              (clock s < t)%nat
              /\ inputValue_at (world s t) fileInput = Rejected m
     | Unfinished => False
     end.
Proof.
  cbv zeta. unfold waitForUploadComplete, try_catch.
  destruct (waitFor_visible uploadStatus s) as [r0 s0] eqn:E0.
  assert (Hs0 : s0 = tick (log (EvWaitFor uploadStatus "visible") s)
                /\ (isVisible_at (now s) uploadStatus = Got true -> r0 = Ret tt)
                /\ r0 <> Unfinished).
  { unfold waitFor_visible in E0.
    destruct (isVisible_at (now s) uploadStatus) as [[|] | e];
      injection E0 as <- <-; repeat split; intros; discriminate. }
  destruct Hs0 as (-> & Hshown & Hfin).
  destruct r0 as [[] | error |]; [ | | destruct (Hfin eq_refl)].
  - cbn [fst snd]. split; [reflexivity |]. count_events.
    repeat split; lia.
  - match goal with
    | |- context [bind ?a ?k ?s1] =>
        destruct (bind a k s1) as [r s'] eqn:E
    end.
    destruct (waitForUploadComplete_catch_any error _ r s' E)
      as (Hn & Hi & Hk & Hres).
    cbn [fst snd].
    split; [intros Hv; specialize (Hshown Hv); discriminate Hshown |].
    split; [exact Hn |]. split; [exact Hi |]. split; [exact Hk |].
    destruct r as [u | m |]; [exact I | | exact Hres].
    destruct Hres as [(-> & Hone & t & v & Ht & Hread & Hv) | (t & Ht & Hread)].
    + left. split; [reflexivity |]. split; [exact Hone |].
      exists t, v. cbn [clock tick log] in Ht. repeat split; [lia | exact Hread | exact Hv].
    + right. exists t. cbn [clock tick log] in Ht. split; [lia | exact Hread].
Qed.

(** The delays slept so far, after calls that are no pauses. *)
Ltac delays_unchanged :=
  repeat (match goal with
          | |- context [wait_delays (tick ?x)] =>
              change (wait_delays (tick x)) with (wait_delays x)
          end; rewrite wait_delays_log);
  rewrite ?app_nil_r; reflexivity.

Lemma waitForIndexingComplete_any (s : session) (r : result unit)
    (s' : session) :
  FileUploadComponent.waitForIndexingComplete s = (r, s') ->
  match r with
  | Ret _ => True
  | Throw m => refused_by (world s) is_wait m
  | Unfinished => False
  end
  /\ (waitFor_calls s' <= 2 + waitFor_calls s)%nat
  /\ match isVisible_at (world s (clock s)) (Loc "text=/indexing/i"),
           isVisible_at (world s (S (clock s))) (Loc "text=/indexing/i") with
     | Got true, Got false => r = Ret tt /\ wait_delays s' = wait_delays s
     | _, _ => wait_delays s' = wait_delays s ++ [1500%Q]
     end.
Proof.
  intros Hrun.
  assert (Hpause : forall s1 : session,
             world s1 = world s ->
             (waitFor_calls s1 <= 2 + waitFor_calls s)%nat ->
             wait_delays s1 = wait_delays s ->
             waitForTimeout 1500 s1 = (r, s') ->
             match r with
             | Ret _ => True
             | Throw m => refused_by (world s) is_wait m
             | Unfinished => False
             end
             /\ (waitFor_calls s' <= 2 + waitFor_calls s)%nat
             /\ wait_delays s' = wait_delays s ++ [1500%Q]).
  { intros s1 Hw1 Hf1 Hd1 Hrun1. unfold waitForTimeout in Hrun1.
    rewrite act_run in Hrun1.
    assert (Hd : wait_delays (tick (log (EvWaitForTimeout 1500) s1))
                 = wait_delays s ++ [1500%Q]).
    { change (wait_delays (log (EvWaitForTimeout 1500) s1)
              = wait_delays s ++ [1500%Q]).
      rewrite wait_delays_log, Hd1. reflexivity. }
    destruct (action_at (now s1) (EvWaitForTimeout 1500)) as [detail |] eqn:Ea;
      injection Hrun1 as <- <-;
      (split; [| split; [exact Hf1 | exact Hd]]); [| exact I].
    exists (clock s1), (EvWaitForTimeout 1500), detail.
    split; [reflexivity |]. split; [| reflexivity].
    rewrite <- Hw1. exact Ea. }
  unfold FileUploadComponent.waitForIndexingComplete, try_catch, bind,
    waitFor_visible, waitFor_hidden, now in Hrun.
  destruct (isVisible_at (world s (clock s)) (Loc "text=/indexing/i"))
    as [[|] | e]; cbv beta iota in Hrun; cbn [log tick world clock] in Hrun.
  - destruct (isVisible_at (world s (S (clock s))) (Loc "text=/indexing/i"))
      as [[|] | e]; cbv beta iota in Hrun.
    + edestruct Hpause as (Hres & Hf & Hd); [ | | | exact Hrun |];
        [reflexivity | count_events; lia | delays_unchanged |].
      split; [exact Hres |]. split; [exact Hf | exact Hd].
    + injection Hrun as <- <-. split; [exact I |].
      split; [count_events; lia |]. split; [reflexivity | delays_unchanged].
    + edestruct Hpause as (Hres & Hf & Hd); [ | | | exact Hrun |];
        [reflexivity | count_events; lia | delays_unchanged |].
      split; [exact Hres |]. split; [exact Hf | exact Hd].
  - edestruct Hpause as (Hres & Hf & Hd); [ | | | exact Hrun |];
      [reflexivity | count_events; lia | delays_unchanged |].
    split; [exact Hres |]. split; [exact Hf | exact Hd].
  - edestruct Hpause as (Hres & Hf & Hd); [ | | | exact Hrun |];
      [reflexivity | count_events; lia | delays_unchanged |].
    split; [exact Hres |]. split; [exact Hf | exact Hd].
Qed.

(** X23. The component's waitForIndexingComplete swallows the errors of its
    two waits for the indexing message.  When the message shows and then
    goes away it resolves without a pause; in every other case, a rejected
    wait included, it pauses once, for 1500 ms.  The pause stands in the
    catch block, unguarded: the method rejects only with the error of that
    pause, when the page refuses it, and resolves on every page that lets
    pauses through. *)
Theorem FileUpload_waitForIndexingComplete_outcome (s : session) :
  let run := FileUploadComponent.waitForIndexingComplete s in
  let indexingMessage := Loc "text=/indexing/i" in
  match fst run with
  | Ret _ => True
  | Throw m => refused_by (world s) is_wait m
  | Unfinished => False
  end
  /\ (allows is_wait s -> fst run = Ret tt)
  /\ (waitFor_calls (snd run) <= 2 + waitFor_calls s)%nat
  /\ match isVisible_at (world s (clock s)) indexingMessage,
           isVisible_at (world s (S (clock s))) indexingMessage with
     | Got true, Got false =>
         fst run = Ret tt /\ wait_delays (snd run) = wait_delays s
     | _, _ => wait_delays (snd run) = wait_delays s ++ [1500%Q]
     end.
Proof.
  cbv zeta.
  destruct (FileUploadComponent.waitForIndexingComplete s) as [r s'] eqn:E.
  cbn [fst snd].
  destruct (waitForIndexingComplete_any s r s' E) as (Hres & Hf & Hd).
  split; [exact Hres |]. split; [| split; [exact Hf | exact Hd]].
  intros Hlive. destruct r as [[] | m |].
  - reflexivity.
  - destruct (allows_not_refused _ _ _ Hlive Hres).
  - destruct Hres.
Qed.

(** ** waitForNonZeroChunkCount *)

Lemma waitForNonZeroChunkCount_read_any (value : option string) (num : jsnum)
    (s : session) (r : result (option string * jsnum)) (s' : session) :
  waitForNonZeroChunkCount_read value num s = (r, s') ->
  world s' = world s
  /\ chunkCount_passes s' = (1 + chunkCount_passes s)%nat
  /\ docCount_reads s' = docCount_reads s
  /\ reloads s' = reloads s
  /\ match r with
     | Ret _ => True
     | Throw m => rejected_by (world s) m
     | Unfinished => False
     end.
Proof.
  intros Hrun.
  unfold waitForNonZeroChunkCount_read, bind, isVisible, textContent, count,
    ask, ret in Hrun.
  repeat (cbv beta iota zeta in Hrun; unfold now in Hrun;
          cbn [log world clock] in Hrun;
          match type of Hrun with
          | context [match ?q (world s (clock s)) ?l with _ => _ end] =>
              let E := fresh "E" in destruct (q (world s (clock s)) l) eqn:E
          | context [if ?b then _ else _] => destruct b
          end).
  all: cbv beta iota zeta in Hrun; injection Hrun as <- <-.
  all: repeat (split; [reflexivity |]); try exact I.
  all: eexists (clock s), _;
    first [ left; eassumption | right; left; eassumption
          | right; right; eassumption ].
Qed.

Lemma waitForNonZeroChunkCount_loop_any (maxAttempts : Z) (waitTime : Q) :
  forall (fuel : nat) (value : option string) (num : jsnum) (attempts : Z)
         (s : session) (r : result (option string * jsnum * Z))
         (s' : session),
    maxAttempts - attempts <= Z.of_nat fuel ->
    waitForNonZeroChunkCount_loop fuel maxAttempts waitTime value num attempts s
    = (r, s') ->
    world s' = world s
    /\ (chunkCount_passes s'
        <= Z.to_nat (maxAttempts - attempts) + chunkCount_passes s)%nat
    /\ docCount_reads s' = docCount_reads s
    /\ (reloads s' + chunkCount_passes s
        <= reloads s + chunkCount_passes s')%nat
    /\ match r with
       | Ret (_, num', _) => True
       | Throw m =>
           rejected_by (world s) m \/ refused_by (world s) is_refresh m
       | Unfinished => False
       end.
Proof.
  induction fuel as [| fuel IH]; intros value num attempts s r s' Hfuel Hrun;
    cbn [waitForNonZeroChunkCount_loop] in Hrun;
    destruct (strict_eq num (Num 0) && (attempts <? maxAttempts)) eqn:Hgo;
    try (unfold ret in Hrun; injection Hrun as <- <-;
         repeat split; first [reflexivity | lia]).
  apply andb_true_iff in Hgo. destruct Hgo as [_ Hlt]. apply Z.ltb_lt in Hlt.
  unfold bind at 1 in Hrun.
  destruct (waitForNonZeroChunkCount_read value num s) as [rr s1] eqn:Er.
  destruct (waitForNonZeroChunkCount_read_any _ _ _ _ _ Er)
    as (Hw1 & Hp1 & Hd1 & Hl1 & Hres1).
  destruct rr as [[value' num'] | m |]; [ | | destruct Hres1].
  2:{ injection Hrun as <- <-. split; [exact Hw1 |].
      split; [lia |]. split; [exact Hd1 |]. split; [lia |].
      left. exact Hres1. }
  unfold bind at 1 in Hrun.
  destruct (strict_eq num' (Num 0) && (attempts + 1 <? maxAttempts)).
  - destruct ((waitForTimeout waitTime ;; reload ;;
               waitForLoadState "networkidle")%js s1) as [rf s2] eqn:Ef.
    destruct (refresh_any _ _ _ _ Ef) as (Hw2 & _ & _ & Hp & _ & Hl2 & Hres2).
    pose proof (Hp (is_isVisible_of (First (Loc "#chunkCount")))
                  ltac:(not_a_refresh)) as Hp2.
    pose proof (Hp (is_textContent_of DashboardPage.docCount)
                  ltac:(not_a_refresh)) as Hd2.
    fold (chunkCount_passes s2) in Hp2. fold (chunkCount_passes s1) in Hp2.
    fold (docCount_reads s2) in Hd2. fold (docCount_reads s1) in Hd2.
    rewrite Hw1 in Hw2, Hres2.
    destruct rf as [[] | m |]; [ | | destruct Hres2].
    + destruct (IH value' num' (attempts + 1) s2 r s')
        as (Hw & Hp' & Hd & Hl & Hres); [lia | exact Hrun |].
      rewrite Hw2 in Hw, Hres.
      split; [exact Hw |]. split; [lia |].
      split; [rewrite Hd, Hd2; exact Hd1 |].
      split; [lia | exact Hres].
    + injection Hrun as <- <-. split; [exact Hw2 |].
      split; [lia |]. split; [rewrite Hd2; exact Hd1 |]. split; [lia |].
      right. exact Hres2.
  - unfold ret in Hrun.
    destruct (IH value' num' (attempts + 1) s1 r s')
      as (Hw & Hp & Hd & Hl & Hres); [lia | exact Hrun |].
    rewrite Hw1 in Hw, Hres.
    split; [exact Hw |]. split; [lia |]. split; [congruence |].
    split; [lia | exact Hres].
Qed.

(** X24. waitForNonZeroChunkCount never resolves with 0: it resolves with
    a value that is not the number 0, or rejects with its own error, with
    the error of a query that the page rejected, or with the error of a
    sleep, a reload or a wait for the load state between two passes.  It
    takes at most maxAttempts passes over the page, reloads less often than
    it passes, and never reads the document counter. *)
Theorem waitForNonZeroChunkCount_outcome (maxAttempts : Z) (waitTime : Q)
    (s : session) :
  let run := waitForNonZeroChunkCount maxAttempts waitTime s in
  match fst run with
  | Ret n => n <> Num 0
  | Throw m =>
      m = waitForNonZeroChunkCount_error maxAttempts
      \/ rejected_by (world s) m
      \/ refused_by (world s) is_refresh m
  | Unfinished => False
  end
  /\ (chunkCount_passes (snd run) <= Z.to_nat maxAttempts + chunkCount_passes s)%nat
  /\ (reloads (snd run) + chunkCount_passes s
      <= reloads s + chunkCount_passes (snd run))%nat
  /\ docCount_reads (snd run) = docCount_reads s.
Proof.
  cbv zeta. unfold waitForNonZeroChunkCount, bind.
  destruct (waitForNonZeroChunkCount_loop (Z.to_nat maxAttempts) maxAttempts
              waitTime (Some "0"%string) (Num 0) 0 s) as [r s'] eqn:E.
  assert (Hfuel : maxAttempts - 0 <= Z.of_nat (Z.to_nat maxAttempts)) by lia.
  destruct (waitForNonZeroChunkCount_loop_any maxAttempts waitTime _ _ _ _ _ _ _
              Hfuel E) as (Hw & Hp & Hd & Hl & Hres).
  rewrite Z.sub_0_r in Hp.
  destruct r as [[[value' num'] attempts'] | m |]; [ | | destruct Hres].
  - destruct (strict_eq num' (Num 0)) eqn:Hz; unfold throw, ret; cbn [fst snd].
    + split; [left; reflexivity |]. repeat split; assumption.
    + split; [| repeat split; assumption].
      intros ->. discriminate Hz.
  - cbn [fst snd]. split; [right; exact Hres |]. repeat split; assumption.
Qed.

(** ** The whole of the global setup *)

Lemma globalSetup_loop_any :
  forall (fuel : nat) (retries : Z) (delay : Q) (s : session)
         (r : result (Z * Q)) (s' : session),
    globalSetup_loop fuel retries delay s = (r, s') ->
    world s' = world s
    /\ (clock s <= clock s')%nat
    /\ forall m, r = Throw m -> refused_by (world s) is_wait m.
Proof.
  induction fuel as [| fuel IH]; intros retries delay s r s' Hrun;
    cbn [globalSetup_loop] in Hrun;
    destruct (retries <? maxRetries);
    try (injection Hrun as <- <-; repeat split;
         first [lia | intros m; discriminate]).
  unfold bind at 1 in Hrun.
  unfold try_catch, bind, goto, waitForTimeout, ret in Hrun.
  destruct (goto_at (now s) healthUrl) as [[[|] |] | e];
    cbv beta iota in Hrun.
  - injection Hrun as <- <-. repeat split;
      first [cbn [clock tick log]; lia | intros m; discriminate].
  - destruct (IH _ _ _ _ _ Hrun) as (Hw & Hc & Hres).
    cbn [world clock tick log] in Hw, Hc, Hres.
    repeat split; first [assumption | lia].
  - destruct (IH _ _ _ _ _ Hrun) as (Hw & Hc & Hres).
    cbn [world clock tick log] in Hw, Hc, Hres.
    repeat split; first [assumption | lia].
  - rewrite act_run in Hrun.
    destruct (action_at (now (tick (log (EvGoto healthUrl) s)))
                (EvWaitForTimeout delay)) as [detail |] eqn:Ea;
      cbv beta iota in Hrun.
    + injection Hrun as <- <-. cbn [world clock tick log].
      split; [reflexivity |]. split; [lia |].
      intros m [= <-].
      exists (S (clock s)), (EvWaitForTimeout delay), detail.
      split; [reflexivity |]. split; [exact Ea | reflexivity].
    + destruct (IH _ _ _ _ _ Hrun) as (Hw & Hc & Hres).
      cbn [world clock tick log] in Hw, Hc, Hres.
      repeat split; first [assumption | lia].
Qed.

Lemma verifyEndpoints_world (rest : list (string * string)) :
  forall s : session,
    world (snd (verifyEndpoints rest s)) = world s
    /\ (clock s <= clock (snd (verifyEndpoints rest s)))%nat.
Proof.
  induction rest as [| endpoint rest IH]; intros s.
  - split; [reflexivity | apply le_n].
  - cbn [verifyEndpoints]. unfold bind at 1. unfold try_catch, bind, goto.
    destruct (IH (tick (log (EvGoto (fst endpoint)) s))) as (Hw & Hc).
    cbn [world clock tick log] in Hw, Hc.
    destruct (goto_at (now s) (fst endpoint)) as [resp | m]; cbn [ret];
      (split; [exact Hw | lia]).
Qed.

(** X25. The one probe error that can come out of globalSetup is that of
    its last navigation, the one to the login page: whatever the health
    probes and the five endpoints answer, their errors are caught.  The
    setup resolves, or rejects with the timeout error of the readiness
    loop, with the error of that last navigation, or with the error of a
    call that stands outside the try blocks and that the page refuses: a
    sleep of the back-off, or the final wait for the load state.  (A loop
    whose probes keep getting answers that are not ok never leaves; such a
    run is unfinished at any fuel.) *)
Theorem globalSetup_rejections (fuel : nat) (s : session) :
  match fst (globalSetup fuel s) with
  | Ret _ => True
  | Throw m =>
      m = "❌ Application failed to start within timeout period"%string
      \/ (exists t : nat,
            (clock s <= t)%nat
            /\ goto_at (world s t) "http://localhost:8000/login" = Rejected m)
      \/ refused_by (world s) (fun e => is_wait e || is_loadState e)%bool m
  | Unfinished => True
  end.
Proof.
  unfold globalSetup. unfold bind at 1. unfold globalSetup_ready.
  unfold bind at 1.
  destruct (globalSetup_loop fuel 0 initialDelay s) as [r s1] eqn:E.
  destruct (globalSetup_loop_any _ _ _ _ _ _ E) as (Hw1 & Hc1 & Hres).
  destruct r as [[retries delay] | m |]; [ | | exact I].
  2:{ cbn [fst]. right; right.
      apply (refused_by_weaken _ is_wait); [| exact (Hres m eq_refl)].
      intros e He. rewrite He. reflexivity. }
  destruct (maxRetries <=? retries); unfold throw, ret;
    [cbn [fst]; left; reflexivity |].
  unfold bind at 1.
  destruct (verifyEndpoints_any endpoints s1) as (s2 & E2 & _ & _).
  destruct (verifyEndpoints_world endpoints s1) as (Hw2 & Hc2).
  rewrite E2 in Hw2, Hc2 |- *. cbn [snd] in Hw2, Hc2.
  unfold bind, goto, waitForLoadState, now.
  destruct (goto_at (world s2 (clock s2)) "http://localhost:8000/login")
    as [resp | m] eqn:Hlogin; cbn [fst].
  - rewrite act_run. unfold now. cbn [world clock tick log].
    destruct (action_at (world s2 (S (clock s2)))
                (EvWaitForLoadState "networkidle")) as [detail |] eqn:Ea;
      cbn [fst]; [| exact I].
    right; right.
    exists (S (clock s2)), (EvWaitForLoadState "networkidle"), detail.
    split; [reflexivity |]. split; [| reflexivity].
    rewrite <- Hw1, <- Hw2. exact Ea.
  - right; left. exists (clock s2). split; [lia |].
    rewrite <- Hw1, <- Hw2. exact Hlogin.
Qed.
